(** * Pronunciation examination flow: resume, recording and device model

    A shallow embedding of the browser application
    (App, Dashboard, SessionRecorder) and the properties of its
    resume-after-reload logic, clip bookkeeping, countdown and
    device-stream lifecycle. *)

From Stdlib Require Import ZArith Lia DecimalString.
From stdpp Require Import base option list strings.

Local Open Scope Z_scope.

(** ** Shared data model: the shapes the components construct and consume. *)

(** [AppStep]: the enum the App switches on. *)
Inductive AppStep :=
  | LOGIN | DASHBOARD
  | SESSION_1 | BREAK_1
  | SESSION_2 | BREAK_2
  | SESSION_3 | COMPLETION.

Global Instance AppStep_eq_dec : EqDecision AppStep.
Proof. solve_decision. Defined.

(** [User]: what [handleLogin] builds, [{ fullName, docId: fullName }]. *)
Record User := mkUser { fullName : string; docId : string }.

(** A [Blob] is kept as the list of parts handed to [new Blob(parts, ...)].
    A part is either captured media data (a chunk delivered to
    [ondataavailable], or the content of another blob) or a plain number
    array, which the constructor converts to its text. *)
Inductive BlobPart :=
  | PartData (bytes : list Z)
  | PartArray (a : list Z).

Record Blob := new_Blob { parts : list BlobPart }.

(** Text of a number as the template literal and [String(array)] print it. *)
Definition Z_to_string (n : Z) : string := NilZero.string_of_int (Z.to_int n).

(** [String([a1, ..., an])] has the digits of each element and n-1 commas.
    The elements are the numbers [JSON.parse] read: this is their text for
    integers of magnitude below 2^53, which are read without rounding and
    printed in plain decimal. The app itself only ever stores the empty
    array. *)
Fixpoint array_text_length (a : list Z) : nat :=
  match a with
  | [] => 0%nat
  | [x] => String.length (Z_to_string x)
  | x :: rest => (String.length (Z_to_string x) + 1 + array_text_length rest)%nat
  end.

Definition part_size (p : BlobPart) : nat :=
  match p with
  | PartData bytes => length bytes
  | PartArray a => array_text_length a
  end.

(** [blob.size] *)
Definition size (b : Blob) : nat := foldr (fun p n => (part_size p + n)%nat) 0%nat (parts b).

(** [new Blob([], { type: 'video/webm' })] *)
Definition emptyBlob : Blob := new_Blob [].

(** [new Blob(chunksRef.current, { type: 'video/webm' })]: the parts of the
    chunk blobs in order. *)
Definition Blob_of_chunks (chunks : list Blob) : Blob :=
  new_Blob (concat (map parts chunks)).

(** [Recording]: what [saveRecording] builds. *)
Record Recording := mkRecording {
  sessionId : Z;
  blob : Blob;
  url : string;
  filename : string
}.

(** ** Persisted state (localStorage) *)

(** Content of one localStorage item: the empty string, text that
    [JSON.parse] rejects, or the JSON text of a value of the shape the
    application writes under that key. *)
Inductive Stored (A : Type) :=
  | Blank
  | Malformed
  | Json (a : A).
Arguments Blank {A}.
Arguments Malformed {A}.
Arguments Json {A} a.

(** [{ sessionNumber, isBreakScreen, timestamp }] written by [saveSessionState]. *)
Record SessionData := mkSessionData {
  sessionNumber : Z;
  isBreakScreen : bool;
  timestamp : Z
}.

(** One element of the array written under 'vocalBoothRecordings'. *)
Record SavedRecording := mkSavedRecording {
  savedSessionId : Z;
  savedUrl : string;
  savedFilename : string;
  blobData : list Z
}.

(** The three keys the application uses; [None] is what [getItem] answers
    with [null] for. *)
Record LocalStorage := mkLocalStorage {
  vocalBoothUser : option (Stored User);
  vocalBoothRecordings : option (Stored (list SavedRecording));
  vocalBoothCurrentSession : option (Stored SessionData)
}.

Definition emptyStorage : LocalStorage := mkLocalStorage None None None.

Definition removeItem_User (ls : LocalStorage) : LocalStorage :=
  mkLocalStorage None (vocalBoothRecordings ls) (vocalBoothCurrentSession ls).
Definition removeItem_Recordings (ls : LocalStorage) : LocalStorage :=
  mkLocalStorage (vocalBoothUser ls) None (vocalBoothCurrentSession ls).
Definition removeItem_CurrentSession (ls : LocalStorage) : LocalStorage :=
  mkLocalStorage (vocalBoothUser ls) (vocalBoothRecordings ls) None.
Definition setItem_User (u : User) (ls : LocalStorage) : LocalStorage :=
  mkLocalStorage (Some (Json u)) (vocalBoothRecordings ls) (vocalBoothCurrentSession ls).
Definition setItem_Recordings (l : list SavedRecording) (ls : LocalStorage) : LocalStorage :=
  mkLocalStorage (vocalBoothUser ls) (Some (Json l)) (vocalBoothCurrentSession ls).
Definition setItem_CurrentSession (d : SessionData) (ls : LocalStorage) : LocalStorage :=
  mkLocalStorage (vocalBoothUser ls) (vocalBoothRecordings ls) (Some (Json d)).

(** ** App: state and the handlers both source variants share *)

Record App := mkApp {
  user : option User;
  currentStep : AppStep;
  recordings : list Recording;
  videoReady : bool;
  audioReady : bool;
  videoEnabled : bool;
  audioEnabled : bool;
  localStorage : LocalStorage;
  (** number of scheduled [setTimeout(() => removeItem('vocalBoothCurrentSession'), 1000)] *)
  pendingClears : nat
}.

(** The [useState] initial values, over the storage found at page load. *)
Definition initialApp (ls : LocalStorage) : App :=
  mkApp None LOGIN [] false false false false ls 0.

Definition setUser (u : option User) (a : App) : App :=
  mkApp u (currentStep a) (recordings a) (videoReady a) (audioReady a)
        (videoEnabled a) (audioEnabled a) (localStorage a) (pendingClears a).
Definition setCurrentStep (s : AppStep) (a : App) : App :=
  mkApp (user a) s (recordings a) (videoReady a) (audioReady a)
        (videoEnabled a) (audioEnabled a) (localStorage a) (pendingClears a).
Definition setRecordings (f : list Recording -> list Recording) (a : App) : App :=
  mkApp (user a) (currentStep a) (f (recordings a)) (videoReady a) (audioReady a)
        (videoEnabled a) (audioEnabled a) (localStorage a) (pendingClears a).
Definition setLocalStorage (f : LocalStorage -> LocalStorage) (a : App) : App :=
  mkApp (user a) (currentStep a) (recordings a) (videoReady a) (audioReady a)
        (videoEnabled a) (audioEnabled a) (f (localStorage a)) (pendingClears a).
Definition setTimeout_clear (a : App) : App :=
  mkApp (user a) (currentStep a) (recordings a) (videoReady a) (audioReady a)
        (videoEnabled a) (audioEnabled a) (localStorage a) (S (pendingClears a)).
(** [setVideoReady(false); setAudioReady(false); setVideoEnabled(false);
    setAudioEnabled(false)] *)
Definition resetDeviceStates (a : App) : App :=
  mkApp (user a) (currentStep a) (recordings a) false false false false
        (localStorage a) (pendingClears a).

(** Strings hold the UTF-8 bytes of the JavaScript string. [/\s/] matches
    the white space and line terminator characters of ECMAScript; these
    are the ones of one byte: U+0009 to U+000D and U+0020. *)
Definition is_whitespace (c : Ascii.ascii) : bool :=
  let n := Ascii.nat_of_ascii c in
  ((9 <=? n)%nat && (n <=? 13)%nat) || (n =? 32)%nat.

(** The one of two bytes: U+00A0 (C2 A0). *)
Definition is_whitespace2 (c1 c2 : Ascii.ascii) : bool :=
  (Ascii.nat_of_ascii c1 =? 194)%nat && (Ascii.nat_of_ascii c2 =? 160)%nat.

(** Those of three bytes: U+1680 (E1 9A 80), U+2000 to U+200A (E2 80 80 to
    E2 80 8A), U+2028, U+2029 and U+202F (E2 80 A8, A9, AF), U+205F
    (E2 81 9F), U+3000 (E3 80 80) and U+FEFF (EF BB BF). *)
Definition is_whitespace3 (c1 c2 c3 : Ascii.ascii) : bool :=
  let n1 := Ascii.nat_of_ascii c1 in
  let n2 := Ascii.nat_of_ascii c2 in
  let n3 := Ascii.nat_of_ascii c3 in
  ((n1 =? 225) && (n2 =? 154) && (n3 =? 128))%nat
  || ((n1 =? 226) && (n2 =? 128)
      && (((128 <=? n3) && (n3 <=? 138)) || (n3 =? 168) || (n3 =? 169) || (n3 =? 175)))%nat
  || ((n1 =? 226) && (n2 =? 129) && (n3 =? 159))%nat
  || ((n1 =? 227) && (n2 =? 128) && (n3 =? 128))%nat
  || ((n1 =? 239) && (n2 =? 187) && (n3 =? 191))%nat.

(** [s.replace(/\s+/g, '_')]: every maximal run of whitespace becomes one
    underscore. [in_run] says the previous character was whitespace. *)
Fixpoint replace_whitespace (in_run : bool) (s : string) : string :=
  match s with
  | EmptyString => EmptyString
  | String c1 rest1 =>
      let underscore (r : string) : string :=
        if in_run then r else String (Ascii.ascii_of_nat 95) r in
      if is_whitespace c1 then underscore (replace_whitespace true rest1)
      else
        match rest1 with
        | String c2 rest2 =>
            if is_whitespace2 c1 c2 then underscore (replace_whitespace true rest2)
            else
              match rest2 with
              | String c3 rest3 =>
                  if is_whitespace3 c1 c2 c3
                  then underscore (replace_whitespace true rest3)
                  else String c1 (replace_whitespace false rest1)
              | EmptyString => String c1 (replace_whitespace false rest1)
              end
        | EmptyString => String c1 (replace_whitespace false rest1)
        end
  end.

(** [`${user.fullName.replace(/\s+/g, '_')}_Session_${sessionId}.webm`] *)
Definition make_filename (u : User) (sid : Z) : string :=
  replace_whitespace false (fullName u) +:+ "_Session_" +:+ Z_to_string sid +:+ ".webm".

(** [prev.filter(r => r.sessionId !== sessionId)] followed by
    [[...filtered, newRecording]]. *)
Definition replaceRecording (newRecording : Recording) (prev : list Recording)
  : list Recording :=
  let filtered := filter (fun r => sessionId r ≠ sessionId newRecording) prev in
  filtered ++ [newRecording].

(** [saveSessionState(sessionId, isBreakScreen)]; [now] is [Date.now()]. *)
Definition saveSessionState (now : Z) (sid : Z) (isBreak : bool) (a : App) : App :=
  setLocalStorage (setItem_CurrentSession (mkSessionData sid isBreak now)) a.

(** [new Uint8Array(rec.blob)]: a Blob is neither a buffer, a typed array
    nor an iterable and has no [length], so the typed array is built from
    an array-like of length 0. *)
Definition Uint8Array_of_Blob (b : Blob) : list Z := [].

(** The object written per recording by the save effect. *)
Definition toSaved (r : Recording) : SavedRecording :=
  mkSavedRecording (sessionId r) (url r) (filename r) (Uint8Array_of_Blob (blob r)).

(** [{ ...rec, blob: new Blob([rec.blobData], { type: 'video/webm' }) }] *)
Definition restore (rec : SavedRecording) : Recording :=
  mkRecording (savedSessionId rec) (new_Blob [PartArray (blobData rec)])
              (savedUrl rec) (savedFilename rec).

(** Effect "Load recordings from localStorage on mount". *)
Definition loadRecordingsEffect (a : App) : App :=
  match vocalBoothRecordings (localStorage a) with
  | Some (Json parsedRecordings) =>
      setRecordings (fun _ => map restore parsedRecordings) a
  | Some Malformed => setLocalStorage removeItem_Recordings a
  | Some Blank | None => a
  end.

(** Effect "Save recordings to localStorage whenever they change", run with
    the [recordings] value of the render it belongs to. *)
Definition saveRecordingsEffect (recs : list Recording) (a : App) : App :=
  if (0 <? length recs)%nat
  then setLocalStorage (setItem_Recordings (map toSaved recs)) a
  else a.

(** Effect "Save break screen state when user is on break screen", run with
    the [currentStep] of the render it belongs to. *)
Definition breakEffect (now : Z) (step : AppStep) (a : App) : App :=
  match step with
  | BREAK_1 => saveSessionState now 1 true a
  | BREAK_2 => saveSessionState now 2 true a
  | _ => a
  end.

(** The effects React re-runs after a handler: the recordings effect when
    [setRecordings] produced a new array, the step effect when
    [currentStep] differs from the previous render. *)
Definition afterRender (now : Z) (prevStep : AppStep) (recordingsSet : bool) (a : App) : App :=
  let a1 := if recordingsSet then saveRecordingsEffect (recordings a) a else a in
  if decide (currentStep a1 = prevStep) then a1 else breakEffect now (currentStep a1) a1.

(** [saveRecording(blob, sessionId)]; [objectUrl] is what
    [URL.createObjectURL(blob)] returns. *)
Definition saveRecording (objectUrl : string) (b : Blob) (sid : Z) (a : App) : App :=
  match user a with
  | None => a
  | Some u =>
      let newRecording := mkRecording sid b objectUrl (make_filename u sid) in
      let a1 := setRecordings (replaceRecording newRecording) a in
      let a2 := setTimeout_clear a1 in
      if decide (sid = 1) then setCurrentStep BREAK_1 a2
      else if decide (sid = 2) then setCurrentStep BREAK_2 a2
      else if decide (sid = 3) then setCurrentStep COMPLETION a2
      else a2
  end.

(** [onComplete={(blob) => saveRecording(blob, n)}] followed by the effects
    of the next render (none when the guard returned early: no state was set). *)
Definition onComplete (now : Z) (objectUrl : string) (n : Z) (b : Blob) (a : App) : App :=
  match user a with
  | None => saveRecording objectUrl b n a
  | Some _ => afterRender now (currentStep a) true (saveRecording objectUrl b n a)
  end.

(** The scheduled [removeItem('vocalBoothCurrentSession')] firing. *)
Definition fireClear (a : App) : App :=
  match pendingClears a with
  | O => a
  | S k =>
      mkApp (user a) (currentStep a) (recordings a) (videoReady a) (audioReady a)
            (videoEnabled a) (audioEnabled a)
            (removeItem_CurrentSession (localStorage a)) k
  end.

(** [handleStartExam] with the effects of the next render. *)
Definition handleStartExam (now : Z) (a : App) : App :=
  afterRender now (currentStep a) false
    (saveSessionState now 1 false (setCurrentStep SESSION_1 a)).

(** [parsedRecordings.length >= 3] inside its own try/catch: a record that
    does not parse is logged and skipped. *)
Definition completedAll (ls : LocalStorage) : bool :=
  match vocalBoothRecordings ls with
  | Some (Json parsedRecordings) => (3 <=? length parsedRecordings)%nat
  | _ => false
  end.

(** The break-screen arm of the redirect, identical in both variants. *)
Definition resumeBreak (d : SessionData) : AppStep :=
  if decide (sessionNumber d = 1) then BREAK_1
  else if decide (sessionNumber d = 2) then BREAK_2
  else DASHBOARD.

(** Whether the load effect called [setRecordings] (a new array, so the
    recordings effect runs again after the first render). *)
Definition loadsRecordings (ls : LocalStorage) : bool :=
  match vocalBoothRecordings ls with
  | Some (Json _) => true
  | _ => false
  end.

(** ** Variant with the production check and the storage try/catch
       (src/unnamed/part_000) *)
Module Part000.

  (** The outer [catch]: "Clear corrupted data". State already set before
      the throw stays set. *)
Definition clearCorrupted (a : App) : App :=
    setLocalStorage
      (fun ls => removeItem_CurrentSession (removeItem_Recordings (removeItem_User ls))) a.

  (** The redirect once [sessionData] is parsed. *)
Definition redirect (d : SessionData) (a : App) : App :=
    if isBreakScreen d then setCurrentStep (resumeBreak d) a
    else if decide (sessionNumber d = 0) then a
    else setCurrentStep DASHBOARD a.

  (** Effect "Check for existing login and session state on mount". *)
Definition resumeEffect (a : App) : App :=
    match vocalBoothUser (localStorage a) with
    | Some (Json parsedUser) =>
        let a1 := setUser (Some parsedUser) a in
        if completedAll (localStorage a1) then setCurrentStep COMPLETION a1
        else
          match vocalBoothCurrentSession (localStorage a1) with
          | Some (Json sessionData) => resetDeviceStates (redirect sessionData a1)
          | Some Malformed => clearCorrupted a1
          | Some Blank | None => resetDeviceStates (setCurrentStep DASHBOARD a1)
          end
    | Some Malformed => clearCorrupted a
    | Some Blank | None => a
    end.

  (** Page load: the mount effects in declaration order, each seeing the
      state of the first render, then the effects of the re-render. The
      completion effect only touches the media stream, which is null here. *)
Definition mount (now : Z) (ls : LocalStorage) : App :=
    let a0 := initialApp ls in
    let a1 := loadRecordingsEffect a0 in
    let a2 := saveRecordingsEffect (recordings a0) a1 in
    let a3 := resumeEffect a2 in
    let a4 := breakEffect now (currentStep a0) a3 in
    afterRender now (currentStep a0) (loadsRecordings ls) a4.

End Part000.

(** ** Earlier variant (src/unnamed/part_001) *)
Module Part001.

  (** The [catch] around the whole resume: the recordings key is kept. *)
Definition clearCorrupted (a : App) : App :=
    setCurrentStep DASHBOARD
      (setLocalStorage (fun ls => removeItem_CurrentSession (removeItem_User ls)) a).

  (** The redirect once [sessionData] is parsed. *)
Definition redirect (d : SessionData) (a : App) : App :=
    if isBreakScreen d then setCurrentStep (resumeBreak d) a
    else if decide (sessionNumber d = 1) then setCurrentStep BREAK_1 a
    else if decide (sessionNumber d = 2) then setCurrentStep BREAK_2 a
    else if decide (sessionNumber d = 3) then setCurrentStep COMPLETION a
    else setCurrentStep DASHBOARD a.

  (** Effect "Check for existing login and session state on mount". *)
Definition resumeEffect (a : App) : App :=
    match vocalBoothUser (localStorage a) with
    | Some (Json parsedUser) =>
        let a1 := setUser (Some parsedUser) a in
        if completedAll (localStorage a1) then setCurrentStep COMPLETION a1
        else
          match vocalBoothCurrentSession (localStorage a1) with
          | Some (Json sessionData) => resetDeviceStates (redirect sessionData a1)
          | Some Malformed => clearCorrupted a1
          | Some Blank | None => resetDeviceStates (setCurrentStep DASHBOARD a1)
          end
    | Some Malformed => clearCorrupted a
    | Some Blank | None => a
    end.

Definition mount (now : Z) (ls : LocalStorage) : App :=
    let a0 := initialApp ls in
    let a1 := loadRecordingsEffect a0 in
    let a2 := saveRecordingsEffect (recordings a0) a1 in
    let a3 := resumeEffect a2 in
    let a4 := breakEffect now (currentStep a0) a3 in
    afterRender now (currentStep a0) (loadsRecordings ls) a4.

End Part001.

(** ** SessionRecorder (src/components/SessionRecorder.tsx) *)
Module SessionRecorder.

(** [MediaRecorder.state] *)
Inductive RecordingState := inactive | recording | paused.

Global Instance RecordingState_eq_dec : EqDecision RecordingState.
Proof. solve_decision. Defined.

(** The recorder object: its state and the data gathered since the last
    [dataavailable] event. *)
Record MediaRecorder := mkMediaRecorder {
  state : RecordingState;
  gathered : Blob
}.

(** An interval registered with the browser by [startTimer]: its id and
    the [error] value its callback closed over (the callback calls the
    [handleFinishSession] of the render that created it). *)
Record Interval := mkInterval {
  intervalId : nat;
  closureError : option string
}.

(** The component's state hooks and refs, the browser's interval table
    as far as this component fills it, and the [onComplete] calls made so
    far (oldest first). *)
Record Component := mkComponent {
  timeLeft : Z;
  isRecording : bool;
  error : option string;
  mediaRecorderRef : option MediaRecorder;
  chunksRef : list Blob;
  timerRef : option nat;
  isExpectedToEnd : bool;
  intervals : list Interval;
  nextIntervalId : nat;
  completed : list Blob
}.

(** [useState]/[useRef] initial values. *)
Definition initialComponent : Component :=
  mkComponent 60 false None None [] None false [] 0 [].

Definition setTimeLeft (t : Z) (s : Component) : Component :=
  mkComponent t (isRecording s) (error s) (mediaRecorderRef s) (chunksRef s)
    (timerRef s) (isExpectedToEnd s) (intervals s) (nextIntervalId s) (completed s).
Definition setIsRecording (b : bool) (s : Component) : Component :=
  mkComponent (timeLeft s) b (error s) (mediaRecorderRef s) (chunksRef s)
    (timerRef s) (isExpectedToEnd s) (intervals s) (nextIntervalId s) (completed s).
Definition setError (e : option string) (s : Component) : Component :=
  mkComponent (timeLeft s) (isRecording s) e (mediaRecorderRef s) (chunksRef s)
    (timerRef s) (isExpectedToEnd s) (intervals s) (nextIntervalId s) (completed s).
Definition setMediaRecorder (r : option MediaRecorder) (s : Component) : Component :=
  mkComponent (timeLeft s) (isRecording s) (error s) r (chunksRef s)
    (timerRef s) (isExpectedToEnd s) (intervals s) (nextIntervalId s) (completed s).
Definition pushChunk (c : Blob) (s : Component) : Component :=
  mkComponent (timeLeft s) (isRecording s) (error s) (mediaRecorderRef s) (chunksRef s ++ [c])
    (timerRef s) (isExpectedToEnd s) (intervals s) (nextIntervalId s) (completed s).
Definition setTimerRef (t : option nat) (s : Component) : Component :=
  mkComponent (timeLeft s) (isRecording s) (error s) (mediaRecorderRef s) (chunksRef s)
    t (isExpectedToEnd s) (intervals s) (nextIntervalId s) (completed s).
Definition setIsExpectedToEnd (b : bool) (s : Component) : Component :=
  mkComponent (timeLeft s) (isRecording s) (error s) (mediaRecorderRef s) (chunksRef s)
    (timerRef s) b (intervals s) (nextIntervalId s) (completed s).
(** [onComplete(blob)] *)
Definition call_onComplete (b : Blob) (s : Component) : Component :=
  mkComponent (timeLeft s) (isRecording s) (error s) (mediaRecorderRef s) (chunksRef s)
    (timerRef s) (isExpectedToEnd s) (intervals s) (nextIntervalId s) (completed s ++ [b]).

(** [clearInterval(id)] *)
Definition clearInterval (id : nat) (s : Component) : Component :=
  mkComponent (timeLeft s) (isRecording s) (error s) (mediaRecorderRef s) (chunksRef s)
    (timerRef s) (isExpectedToEnd s)
    (filter (fun iv => intervalId iv ≠ id) (intervals s)) (nextIntervalId s) (completed s).

(** [setInterval(callback, 1000)]: registers the callback and returns its id. *)
Definition setInterval (err : option string) (s : Component) : Component * nat :=
  (mkComponent (timeLeft s) (isRecording s) (error s) (mediaRecorderRef s) (chunksRef s)
     (timerRef s) (isExpectedToEnd s)
     (intervals s ++ [mkInterval (nextIntervalId s) err]) (S (nextIntervalId s)) (completed s),
   nextIntervalId s).

(** [startTimer], called from a render whose [error] was [err]. *)
Definition startTimer (err : option string) (s : Component) : Component :=
  let s1 := match timerRef s with
            | Some id => clearInterval id s
            | None => s
            end in
  let '(s2, id) := setInterval err s1 in
  setTimerRef (Some id) s2.

Definition stopTimer (s : Component) : Component :=
  match timerRef s with
  | Some id => setTimerRef None (clearInterval id s)
  | None => s
  end.

(** [recorder.ondataavailable] *)
Definition ondataavailable (data : Blob) (s : Component) : Component :=
  if (0 <? size data)%nat then pushChunk data s else s.

(** [recorder.onstop] *)
Definition onstop (s : Component) : Component :=
  if isExpectedToEnd s then call_onComplete (Blob_of_chunks (chunksRef s)) s else s.

(** [mediaRecorderRef.current.stop()] on a recorder that is not inactive:
    the recorder becomes inactive, hands over the gathered data and then
    fires [stop]. *)
Definition recorder_stop (r : MediaRecorder) (s : Component) : Component :=
  let s1 := setMediaRecorder (Some (mkMediaRecorder inactive emptyBlob)) s in
  onstop (ondataavailable (gathered r) s1).

(** JavaScript truthiness of [error : string | null]. *)
Definition truthy (e : option string) : bool :=
  match e with
  | Some (String _ _) => true
  | _ => false
  end.

(** [mediaRecorderRef.current && mediaRecorderRef.current.state !== 'inactive'] *)
Definition activeRecorder (s : Component) : bool :=
  match mediaRecorderRef s with
  | Some r => bool_decide (state r ≠ inactive)
  | None => false
  end.

(** [handleFinishSession] of a render whose [error] was [err]. *)
Definition handleFinishSession (err : option string) (s : Component) : Component :=
  if truthy err then call_onComplete emptyBlob (stopTimer s)
  else
    let s1 := stopTimer s in
    match mediaRecorderRef s1 with
    | Some r =>
        if decide (state r ≠ inactive)
        then recorder_stop r (setIsExpectedToEnd true s1)
        else call_onComplete emptyBlob s1
    | None => call_onComplete emptyBlob s1
    end.

(** The interval callback:
    [setTimeLeft(prev => { if (prev <= 1) { handleFinishSession(); return 0; } return prev - 1; })] *)
Definition intervalCallback (iv : Interval) (s : Component) : Component :=
  if decide (timeLeft s <= 1)
  then setTimeLeft 0 (handleFinishSession (closureError iv) s)
  else setTimeLeft (timeLeft s - 1) s.

(** The browser runs the callback of an interval only while it is registered. *)
Definition fire (iv : Interval) (s : Component) : Component :=
  if decide (intervalId iv ∈ map intervalId (intervals s)) then intervalCallback iv s else s.

(** One second passes: every interval registered at that moment is due. *)
Definition elapse (s : Component) : Component :=
  foldl (fun acc iv => fire iv acc) s (intervals s).

(** The successful path of [initializeRecorder], run from a render whose
    [error] was [err]: [setError(null)], [isExpectedToEnd.current = false],
    then [new MediaRecorder(mediaStream)], [recorder.start()],
    [setIsRecording(true)] and [startTimer()]. *)
Definition beginRecording (err : option string) (s : Component) : Component :=
  startTimer err
    (setIsRecording true
       (setMediaRecorder (Some (mkMediaRecorder recording emptyBlob))
          (setIsExpectedToEnd false (setError None s)))).

(** The failing branch of [checkStreamHealth]. *)
Definition healthFailure (s : Component) : Component :=
  let s1 := setError
    (Some "Camera was turned off. Please return to dashboard and restart session.") s in
  match mediaRecorderRef s1 with
  | Some r => if decide (state r = recording) then recorder_stop r s1 else s1
  | None => s1
  end.

(** The recorder gathers [bytes] more of media data while it records. *)
Definition capture (bytes : list Z) (s : Component) : Component :=
  match mediaRecorderRef s with
  | Some r =>
      if decide (state r = recording)
      then setMediaRecorder
             (Some (mkMediaRecorder recording (new_Blob (parts (gathered r) ++ [PartData bytes])))) s
      else s
  | None => s
  end.

(** The effect cleanup when the component goes away. *)
Definition unmount (s : Component) : Component :=
  let s1 := stopTimer s in
  match mediaRecorderRef s1 with
  | Some r => if decide (state r = recording) then recorder_stop r s1 else s1
  | None => s1
  end.

(** What can happen to a session once recording has begun. *)
Inductive Event :=
  | Tick
  | Capture (bytes : list Z)
  | HealthFailure
  | ClickFinish
  | Unmount.

Definition step (e : Event) (s : Component) : Component :=
  match e with
  | Tick => elapse s
  | Capture bytes => capture bytes s
  | HealthFailure => healthFailure s
  | ClickFinish => handleFinishSession (error s) s
  | Unmount => unmount s
  end.

Definition run (evs : list Event) (s : Component) : Component :=
  foldl (fun acc e => step e acc) s evs.

(** Events that leave the countdown alone: no user finish, no unmount. *)
Definition undisturbed (e : Event) : bool :=
  match e with
  | ClickFinish | Unmount => false
  | _ => true
  end.

Definition isTick (e : Event) : bool :=
  match e with Tick => true | _ => false end.

(** Number of seconds that pass in a trace. *)
Definition ticks (evs : list Event) : nat := length (filter (fun e => isTick e = true) evs).

(** Every registered interval is the one [timerRef] points at. *)
Definition tracked (s : Component) : Prop :=
  forall iv, iv ∈ intervals s -> timerRef s = Some (intervalId iv).

(** The countdown is running and [k] seconds have passed. *)
Definition Running (k : nat) (s : Component) : Prop :=
  (k < 60)%nat /\ timeLeft s = 60 - Z.of_nat k /\
  isExpectedToEnd s = false /\
  exists iv, intervals s = [iv] /\ timerRef s = Some (intervalId iv).

(** The countdown has fired and is gone. *)
Definition Done (s : Component) : Prop :=
  intervals s = [] /\ timeLeft s = 0 /\
  (isExpectedToEnd s = true ->
   forall r, mediaRecorderRef s = Some r -> state r = inactive).

End SessionRecorder.

(** ** Dashboard (src/components/Dashboard.tsx) *)
Module Dashboard.

Inductive Kind := video | audio.
Inductive ReadyState := live | ended.

Global Instance Kind_eq_dec : EqDecision Kind.
Proof. solve_decision. Defined.
Global Instance ReadyState_eq_dec : EqDecision ReadyState.
Proof. solve_decision. Defined.

Record MediaStreamTrack := mkTrack {
  kind : Kind;
  readyState : ReadyState;
  enabled : bool
}.

(** A [MediaStream] holds references to track objects; the objects live in
    the browser and are named here by their position in [tracks]. *)
Definition MediaStream := list nat.

(** The browser's track objects together with the component's ref and
    state hooks. *)
Record Component := mkComponent {
  tracks : list MediaStreamTrack;
  streamRef : option MediaStream;
  videoReady : bool;
  audioReady : bool;
  permissionError : bool;
  videoEnabled : bool;
  audioEnabled : bool
}.

Definition initialComponent : Component :=
  mkComponent [] None false false false false false.

Definition setTracks (f : list MediaStreamTrack -> list MediaStreamTrack) (s : Component) :=
  mkComponent (f (tracks s)) (streamRef s) (videoReady s) (audioReady s)
    (permissionError s) (videoEnabled s) (audioEnabled s).
Definition setStreamRef (r : option MediaStream) (s : Component) :=
  mkComponent (tracks s) r (videoReady s) (audioReady s)
    (permissionError s) (videoEnabled s) (audioEnabled s).
Definition setVideoReady (b : bool) (s : Component) :=
  mkComponent (tracks s) (streamRef s) b (audioReady s)
    (permissionError s) (videoEnabled s) (audioEnabled s).
Definition setAudioReady (b : bool) (s : Component) :=
  mkComponent (tracks s) (streamRef s) (videoReady s) b
    (permissionError s) (videoEnabled s) (audioEnabled s).
Definition setPermissionError (b : bool) (s : Component) :=
  mkComponent (tracks s) (streamRef s) (videoReady s) (audioReady s)
    b (videoEnabled s) (audioEnabled s).
Definition setVideoEnabled (b : bool) (s : Component) :=
  mkComponent (tracks s) (streamRef s) (videoReady s) (audioReady s)
    (permissionError s) b (audioEnabled s).
Definition setAudioEnabled (b : bool) (s : Component) :=
  mkComponent (tracks s) (streamRef s) (videoReady s) (audioReady s)
    (permissionError s) (videoEnabled s) b.

(** [track.stop()] *)
Definition stop (t : MediaStreamTrack) : MediaStreamTrack :=
  mkTrack (kind t) ended (enabled t).
(** [track.enabled = b] *)
Definition setEnabled (b : bool) (t : MediaStreamTrack) : MediaStreamTrack :=
  mkTrack (kind t) (readyState t) b.

(** [stream.getTracks()]: the objects the stream refers to. *)
Definition getTracks (s : Component) (stream : MediaStream) : list MediaStreamTrack :=
  omap (fun i => tracks s !! i) stream.
Definition getVideoTracks (s : Component) (stream : MediaStream) : list MediaStreamTrack :=
  filter (fun t => kind t = video) (getTracks s stream).
Definition getAudioTracks (s : Component) (stream : MediaStream) : list MediaStreamTrack :=
  filter (fun t => kind t = audio) (getTracks s stream).

(** [stream.getTracks().forEach(track => f(track))] for a mutation [f]. *)
Definition forEachTrack (f : MediaStreamTrack -> MediaStreamTrack)
    (stream : MediaStream) (s : Component) : Component :=
  setTracks (fun ts => foldl (fun acc i => alter f i acc) ts stream) s.

(** [tracks.some(track => track.readyState === r)] *)
Definition some_readyState (r : ReadyState) (ts : list MediaStreamTrack) : bool :=
  existsb (fun t => bool_decide (readyState t = r)) ts.

(** [videoTrack.enabled] of the first track, [false] without one. *)
Definition firstEnabled (ts : list MediaStreamTrack) : bool :=
  match ts with
  | t :: _ => enabled t
  | [] => false
  end.

(** [checkTrackStatus(stream)]. The boolean answers whether the function
    took the recovery branch and invoked [enableDevices()] instead of
    updating the status. *)
Definition checkTrackStatus (stream : option MediaStream) (s : Component) : Component * bool :=
  match stream with
  | None =>
      (setAudioEnabled false (setVideoEnabled false (setAudioReady false (setVideoReady false s))),
       false)
  | Some st =>
      let videoTracks := getVideoTracks s st in
      let audioTracks := getAudioTracks s st in
      let hasVideoTrack := (0 <? length videoTracks)%nat in
      let hasAudioTrack := (0 <? length audioTracks)%nat in
      let isVideoLive := hasVideoTrack && some_readyState live videoTracks in
      let isAudioLive := hasAudioTrack && some_readyState live audioTracks in
      let hasEndedVideoTrack := hasVideoTrack && some_readyState ended videoTracks in
      let hasEndedAudioTrack := hasAudioTrack && some_readyState ended audioTracks in
      if hasEndedVideoTrack || hasEndedAudioTrack then (s, true)
      else
        (setAudioEnabled (if hasAudioTrack then firstEnabled audioTracks else false)
           (setVideoEnabled (if hasVideoTrack then firstEnabled videoTracks else false)
              (setAudioReady isAudioLive (setVideoReady isVideoLive s))),
         false)
  end.

(** [navigator.mediaDevices.getUserMedia] for one kind: when the request
    is granted the browser creates one live, enabled track of that kind
    and resolves with a stream holding it; otherwise it rejects. *)
Definition getUserMedia (k : Kind) (granted : bool) (s : Component)
  : Component * option MediaStream :=
  if granted
  then (setTracks (fun ts => ts ++ [mkTrack k live true]) s, Some [length (tracks s)])
  else (s, None).

(** [enableDevices]; [videoGranted] and [audioGranted] are the outcomes of
    the two requests. The boolean is the recovery flag of the
    [checkTrackStatus(combinedStream)] call. *)
Definition enableDevices (videoGranted audioGranted : bool) (s : Component)
  : Component * bool :=
  let s0 := setPermissionError false s in
  let s1 := match streamRef s0 with
            | Some old => forEachTrack stop old s0
            | None => s0
            end in
  let '(s2, videoStream) := getUserMedia video videoGranted s1 in
  let s3 := if videoStream is None then setVideoEnabled false (setVideoReady false s2) else s2 in
  let '(s4, audioStream) := getUserMedia audio audioGranted s3 in
  let s5 := if audioStream is None then setAudioEnabled false (setAudioReady false s4) else s4 in
  match videoStream, audioStream with
  | None, None =>
      (setAudioEnabled false (setVideoEnabled false (setAudioReady false
         (setVideoReady false (setPermissionError true s5)))), false)
  | _, _ =>
      let combinedStream := default [] videoStream ++ default [] audioStream in
      checkTrackStatus (Some combinedStream) (setStreamRef (Some combinedStream) s5)
  end.

(** The track objects once [enableDevices] has stopped the stream held so far. *)
Definition stoppedTracks (s : Component) : list MediaStreamTrack :=
  match streamRef s with
  | Some old => foldl (fun acc i => alter stop i acc) (tracks s) old
  | None => tracks s
  end.

(** "Cleanup on unmount" *)
Definition cleanup (s : Component) : Component :=
  match streamRef s with
  | Some stream =>
      setStreamRef None (forEachTrack (fun t => setEnabled false (stop t)) stream s)
  | None => s
  end.

(** [toggleVideo] / [toggleAudio]: flips [enabled] on the tracks of one
    kind, then re-checks the status. *)
Definition toggle (k : Kind) (s : Component) : Component * bool :=
  match streamRef s with
  | Some stream =>
      let s1 := forEachTrack
        (fun t => if decide (kind t = k) then setEnabled (negb (enabled t)) t else t) stream s in
      checkTrackStatus (streamRef s1) s1
  | None => (s, false)
  end.

(** The environment ends a track (device unplugged, permission revoked). *)
Definition trackEnded (i : nat) (s : Component) : Component :=
  setTracks (alter stop i) s.

(** [const allSystemsGo = videoReady && audioReady && videoEnabled && audioEnabled] *)
Definition allSystemsGo (s : Component) : bool :=
  videoReady s && audioReady s && videoEnabled s && audioEnabled s.

(** The start button, [onClick={onStart} disabled={!allSystemsGo}]: a
    disabled button dispatches no click. *)
Definition clickStart (now : Z) (s : Component) (a : App) : App :=
  if allSystemsGo s then handleStartExam now a else a.

(** Operations on the controller, each run to completion: an acquisition
    here is a call of [enableDevices] whose two requests settle before
    anything else happens. Where a status check can start a recovery, the
    event carries the outcomes of the requests it would make. The code
    does not serialise these operations; [Acquisition] below splits
    [enableDevices] at its two [await]s and lets other events in between. *)
Inductive Event :=
  | Acquire (videoGranted audioGranted : bool)
  | Release
  | StatusCheck (videoGranted audioGranted : bool)
  | Toggle (k : Kind) (videoGranted audioGranted : bool)
  | TrackEnded (i : nat).

Definition recover (videoGranted audioGranted : bool) (r : Component * bool) : Component :=
  if r.2 then (enableDevices videoGranted audioGranted r.1).1 else r.1.

Definition step (e : Event) (s : Component) : Component :=
  match e with
  | Acquire vg ag => (enableDevices vg ag s).1
  | Release => cleanup s
  | StatusCheck vg ag => recover vg ag (checkTrackStatus (streamRef s) s)
  | Toggle k vg ag => recover vg ag (toggle k s)
  | TrackEnded i => trackEnded i s
  end.

Definition run (evs : list Event) (s : Component) : Component :=
  foldl (fun acc e => step e acc) s evs.

(** The ids of the tracks that are live. *)
Definition isLive (s : Component) (i : nat) : Prop :=
  exists t, tracks s !! i = Some t /\ readyState t = live.

(** No leaked track: whatever is live belongs to the stream held in [streamRef]. *)
Definition no_leak (s : Component) : Prop :=
  forall i, isLive s i -> exists stream, streamRef s = Some stream /\ i ∈ stream.

(** Every track the stream refers to has kind [k]. *)
Definition only_kind (k : Kind) (s : Component) (stream : MediaStream) : Prop :=
  forall t, t ∈ getTracks s stream -> kind t = k.

End Dashboard.

(** ** Dashboard: [enableDevices] as the asynchronous function it is *)
Module Acquisition.

(** Where a call of [enableDevices] stands: waiting for the camera
    request, waiting for the microphone request with what the camera
    request gave, or returned. *)
Inductive Call :=
  | AwaitVideo
  | AwaitAudio (videoStream : option Dashboard.MediaStream)
  | Returned.

(** The component and every call of [enableDevices] made so far, in the
    order in which they were made. *)
Record State := mkState {
  component : Dashboard.Component;
  calls : list Call
}.

Definition initialState : State := mkState Dashboard.initialComponent [].

(** [enableDevices] up to its first [await]: [setPermissionError(false)],
    the tracks of the stream held so far are stopped, the camera is
    requested. *)
Definition begin (s : Dashboard.Component) : Dashboard.Component :=
  let s0 := Dashboard.setPermissionError false s in
  match Dashboard.streamRef s0 with
  | Some old => Dashboard.forEachTrack Dashboard.stop old s0
  | None => s0
  end.

(** From the first [await] to the second: the camera request has settled,
    the microphone is requested. *)
Definition videoSettled (granted : bool) (s : Dashboard.Component)
  : Dashboard.Component * option Dashboard.MediaStream :=
  let '(s2, videoStream) := Dashboard.getUserMedia Dashboard.video granted s in
  (if videoStream is None
   then Dashboard.setVideoEnabled false (Dashboard.setVideoReady false s2) else s2,
   videoStream).

(** From the second [await] to the end: the microphone request has
    settled. The boolean is the recovery flag of the closing
    [checkTrackStatus(combinedStream)]. *)
Definition audioSettled (granted : bool) (videoStream : option Dashboard.MediaStream)
    (s : Dashboard.Component) : Dashboard.Component * bool :=
  let '(s4, audioStream) := Dashboard.getUserMedia Dashboard.audio granted s in
  let s5 := if audioStream is None
            then Dashboard.setAudioEnabled false (Dashboard.setAudioReady false s4) else s4 in
  match videoStream, audioStream with
  | None, None =>
      (Dashboard.setAudioEnabled false (Dashboard.setVideoEnabled false
         (Dashboard.setAudioReady false
            (Dashboard.setVideoReady false (Dashboard.setPermissionError true s5)))), false)
  | _, _ =>
      let combinedStream := default [] videoStream ++ default [] audioStream in
      Dashboard.checkTrackStatus (Some combinedStream)
        (Dashboard.setStreamRef (Some combinedStream) s5)
  end.

(** What can happen to the controller. A request settles for the call
    named by its position in [calls]. *)
Inductive Event :=
  | CallEnableDevices
  | VideoSettles (i : nat) (granted : bool)
  | AudioSettles (i : nat) (granted : bool)
  | Release
  | StatusCheck
  | Toggle (k : Dashboard.Kind)
  | TrackEnded (i : nat).

(** [enableDevices()] is called: it runs to its first [await]. *)
Definition call (st : State) : State :=
  mkState (begin (component st)) (calls st ++ [AwaitVideo]).

(** The recovery branch of [checkTrackStatus] calls [enableDevices()]. *)
Definition recover (r : Dashboard.Component * bool) (cs : list Call) : State :=
  if r.2 then call (mkState r.1 cs) else mkState r.1 cs.

Definition step (e : Event) (st : State) : State :=
  match e with
  | CallEnableDevices => call st
  | VideoSettles i granted =>
      match calls st !! i with
      | Some AwaitVideo =>
          let r := videoSettled granted (component st) in
          mkState r.1 (<[i := AwaitAudio r.2]> (calls st))
      | _ => st
      end
  | AudioSettles i granted =>
      match calls st !! i with
      | Some (AwaitAudio videoStream) =>
          recover (audioSettled granted videoStream (component st))
                  (<[i := Returned]> (calls st))
      | _ => st
      end
  | Release => mkState (Dashboard.cleanup (component st)) (calls st)
  | StatusCheck =>
      recover (Dashboard.checkTrackStatus (Dashboard.streamRef (component st)) (component st))
              (calls st)
  | Toggle k => recover (Dashboard.toggle k (component st)) (calls st)
  | TrackEnded i => mkState (Dashboard.trackEnded i (component st)) (calls st)
  end.

Definition run (evs : list Event) (st : State) : State :=
  foldl (fun acc e => step e acc) st evs.

(** Whether a call has not returned. *)
Definition pending (c : Call) : bool :=
  match c with
  | Returned => false
  | _ => true
  end.

(** Whether some call is waiting for a device request. *)
Definition waiting (st : State) : bool := existsb pending (calls st).

(** Events that start no operation: a request settles, or the environment
    ends a track. *)
Definition passive (e : Event) : bool :=
  match e with
  | VideoSettles _ _ | AudioSettles _ _ | TrackEnded _ => true
  | _ => false
  end.

(** No operation starts while a call is waiting: operations run to
    completion one after another. *)
Fixpoint serial (evs : list Event) (st : State) : bool :=
  match evs with
  | [] => true
  | e :: evs' => (passive e || negb (waiting st)) && serial evs' (step e st)
  end.

(** The tracks the waiting calls have been given so far. *)
Definition acquiring (st : State) : Dashboard.MediaStream :=
  flat_map (fun c => match c with
                     | AwaitAudio (Some videoStream) => videoStream
                     | _ => []
                     end) (calls st).

(** At most one stream is held: at most one call is waiting; while one
    is, every live track is one it has been given; while none is, every
    live track belongs to the stream in [streamRef]. *)
Definition oneStream (st : State) : Prop :=
  (length (filter (fun c => pending c = true) (calls st)) <= 1)%nat /\
  forall i, Dashboard.isLive (component st) i ->
    if waiting st then i ∈ acquiring st
    else exists stream, Dashboard.streamRef (component st) = Some stream /\ i ∈ stream.

(** The shape of the states of serial runs. *)
Definition wellHeld (st : State) : Prop :=
  exists k,
    (calls st = replicate k Returned /\ Dashboard.no_leak (component st))
    \/ (calls st = replicate k Returned ++ [AwaitVideo] /\
        forall i, ~ Dashboard.isLive (component st) i)
    \/ (exists videoStream,
          calls st = replicate k Returned ++ [AwaitAudio videoStream] /\
          forall i, Dashboard.isLive (component st) i -> i ∈ default [] videoStream).

End Acquisition.

(** ** App: login, logout and the remaining handlers *)

(** The four device-state setters at once. *)
Definition setDeviceStates (vr ar ve ae : bool) (a : App) : App :=
  mkApp (user a) (currentStep a) (recordings a) vr ar ve ae
        (localStorage a) (pendingClears a).

(** [handleLogin(fullName)] with the effects of the next render. *)
Definition handleLogin (now : Z) (name : string) (a : App) : App :=
  let userData := mkUser name name in
  let a1 := resetDeviceStates (setCurrentStep DASHBOARD (setUser (Some userData) a)) in
  afterRender now (currentStep a) false (setLocalStorage (setItem_User userData) a1).

(** What [handleLogout] does to the App's own state and to localStorage in
    both variants ([setMediaStream(null)] and the stream handling of the
    later variant act on the page, see [Page]); with the effects of the
    next render. *)
Definition logoutState (now : Z) (a : App) : App :=
  let a1 := setRecordings (fun _ => [])
              (resetDeviceStates (setCurrentStep LOGIN (setUser None a))) in
  let a2 := setLocalStorage
              (fun ls => removeItem_Recordings (removeItem_CurrentSession (removeItem_User ls)))
              a1 in
  afterRender now (currentStep a) true a2.

(** [onContinue] of the break after session [n]:
    [setCurrentStep(SESSION_(n+1)); saveSessionState(n+1, false)], for the
    two breaks the App renders. *)
Definition onContinue (now : Z) (a : App) : App :=
  match currentStep a with
  | BREAK_1 =>
      afterRender now BREAK_1 false (saveSessionState now 2 false (setCurrentStep SESSION_2 a))
  | BREAK_2 =>
      afterRender now BREAK_2 false (saveSessionState now 3 false (setCurrentStep SESSION_3 a))
  | _ => a
  end.

(** The session number of the [SessionRecorder] the App renders at a step. *)
Definition renderedSession (a : App) : option Z :=
  match user a, currentStep a with
  | Some _, SESSION_1 => Some 1
  | Some _, SESSION_2 => Some 2
  | Some _, SESSION_3 => Some 3
  | _, _ => None
  end.

(** The rendered recorder calls its [onComplete] prop with [b]: what the
    handler and the effects shared by both variants do to the App's state.
    The completion effect of the later variant, which acts on the stream
    and the device flags, is [Page.completionEffect]. *)
Definition sessionCompletes (now : Z) (objectUrl : string) (b : Blob) (a : App) : App :=
  match renderedSession a with
  | Some n => onComplete now objectUrl n b a
  | None => a
  end.

(** [order.indexOf(step)] for
    [[DASHBOARD, SESSION_1, BREAK_1, SESSION_2, BREAK_2, SESSION_3, COMPLETION]]. *)
Definition orderIndex (s : AppStep) : Z :=
  match s with
  | LOGIN => -1
  | DASHBOARD => 0
  | SESSION_1 => 1
  | BREAK_1 => 2
  | SESSION_2 => 3
  | BREAK_2 => 4
  | SESSION_3 => 5
  | COMPLETION => 6
  end.

(** [sessionNumber === 1 ? SESSION_1 : sessionNumber === 2 ? SESSION_2 : SESSION_3] *)
Definition sessionStepOf (n : Z) : AppStep :=
  if decide (n = 1) then SESSION_1 else if decide (n = 2) then SESSION_2 else SESSION_3.

(** [sessionNumber === 1 ? BREAK_1 : sessionNumber === 2 ? BREAK_2 : COMPLETION] *)
Definition breakStepOf (n : Z) : AppStep :=
  if decide (n = 1) then BREAK_1 else if decide (n = 2) then BREAK_2 else COMPLETION.

(** [recordings.find(r => r.sessionId === sessionNumber)] as a truth value. *)
Definition hasRecording (a : App) (n : Z) : bool :=
  bool_decide (Exists (fun r => sessionId r = n) (recordings a)).

Definition baseClass : string :=
  "flex items-center justify-between p-4 rounded-lg border transition-all ".

(** Sidebar logic of the later variant (src/unnamed/part_000). *)
Definition getSidebarItemClass (a : App) (n : Z) : string :=
  let isCurrentSession := bool_decide (currentStep a = sessionStepOf n) in
  let isCurrentBreak := bool_decide (currentStep a = breakStepOf n) in
  let isCompleted := hasRecording a n || bool_decide (currentStep a = breakStepOf n) in
  let isLocked := bool_decide (orderIndex (currentStep a) < orderIndex (sessionStepOf n))
                  && negb isCompleted in
  if isCurrentSession
  then baseClass +:+ "bg-amber-600 border-amber-500 text-black font-bold shadow-lg scale-105"
  else if isCurrentBreak
  then baseClass +:+ "bg-blue-900/30 border-blue-500/50 text-blue-400"
  else if isCompleted
  then baseClass +:+ "bg-green-900/30 border-green-500/50 text-green-400"
  else if isLocked
  then baseClass +:+ "bg-gray-900 border-gray-800 text-gray-600 opacity-60"
  else baseClass +:+ "bg-gray-900 border-gray-800 text-gray-600 opacity-60".

(** The [status] field of what [getSessionStatus] returns. *)
Definition getSessionStatus (a : App) (n : Z) : string :=
  let isCurrentSession := bool_decide (currentStep a = sessionStepOf n) in
  let isCurrentBreak := bool_decide (currentStep a = breakStepOf n) in
  let isCompleted := hasRecording a n || bool_decide (currentStep a = breakStepOf n) in
  let isLocked := bool_decide (orderIndex (currentStep a) < orderIndex (sessionStepOf n))
                  && negb isCompleted in
  if isCurrentSession then "active"
  else if isCurrentBreak then "break"
  else if isCompleted then "completed"
  else if isLocked then "locked"
  else "locked".

(** A UTF-8 continuation byte (80 to BF): never the first byte of a
    character. *)
Definition is_continuation (c : Ascii.ascii) : bool :=
  (128 <=? Ascii.nat_of_ascii c)%nat && (Ascii.nat_of_ascii c <? 192)%nat.

(** Whether a string starts with a character that [/\s/] matches. *)
Definition starts_with_whitespace (s : string) : bool :=
  match s with
  | EmptyString => false
  | String c1 rest1 =>
      is_whitespace c1
      || match rest1 with
         | String c2 rest2 =>
             is_whitespace2 c1 c2
             || match rest2 with
                | String c3 _ => is_whitespace3 c1 c2 c3
                | EmptyString => false
                end
         | EmptyString => false
         end
  end.

(** Whether a string has a character that [/\s/] matches. *)
Fixpoint has_whitespace (s : string) : bool :=
  match s with
  | EmptyString => false
  | String _ rest => starts_with_whitespace s || has_whitespace rest
  end.

(** Whether a string consists of characters that [/\s/] matches. *)
Fixpoint all_whitespace (s : string) : bool :=
  match s with
  | EmptyString => true
  | String c1 rest1 =>
      if is_whitespace c1 then all_whitespace rest1
      else
        match rest1 with
        | String c2 rest2 =>
            if is_whitespace2 c1 c2 then all_whitespace rest2
            else
              match rest2 with
              | String c3 rest3 => is_whitespace3 c1 c2 c3 && all_whitespace rest3
              | EmptyString => false
              end
        | EmptyString => false
        end
  end.

(** Whether a string is empty or begins with the first byte of a character. *)
Definition starts_at_character (s : string) : bool :=
  match s with
  | EmptyString => true
  | String c _ => negb (is_continuation c)
  end.
(** ** SessionRecorder: the functions that inspect the stream *)
Module SessionStream.

(** [stream.getTracks()] over the browser's track objects [ts]. *)
Definition tracksOf (ts : list Dashboard.MediaStreamTrack) (stream : Dashboard.MediaStream)
  : list Dashboard.MediaStreamTrack :=
  omap (fun i => ts !! i) stream.

(** [stream.active]: the stream has a track that has not ended. *)
Definition active (ts : list Dashboard.MediaStreamTrack) (stream : Dashboard.MediaStream) : bool :=
  Dashboard.some_readyState Dashboard.live (tracksOf ts stream).

(** [tracks.forEach(track => { if (!track.enabled) track.enabled = true })] *)
Definition enableAll (ts : list Dashboard.MediaStreamTrack) (stream : Dashboard.MediaStream)
  : list Dashboard.MediaStreamTrack :=
  foldl (fun acc i => alter (Dashboard.setEnabled true) i acc) ts stream.

Definition allLive (l : list Dashboard.MediaStreamTrack) : bool :=
  forallb (fun t => bool_decide (Dashboard.readyState t = Dashboard.live)) l.

(** [prepareStream(stream)]: the track objects afterwards and the result. *)
Definition prepareStream (ts : list Dashboard.MediaStreamTrack) (stream : Dashboard.MediaStream)
  : list Dashboard.MediaStreamTrack * bool :=
  if active ts stream
  then (enableAll ts stream, allLive (tracksOf ts stream))
  else (ts, false).

(** Where the synchronous part of [initializeRecorder] ends: with an
    error message set, with the recovery timer scheduled, or with the
    stream attached to the video element and the recorder about to start. *)
Inductive Outcome := Failed | Recovering | Attached.

Definition videoTracksOf (ts : list Dashboard.MediaStreamTrack) (stream : Dashboard.MediaStream)
  : list Dashboard.MediaStreamTrack :=
  filter (fun t => Dashboard.kind t = Dashboard.video) (tracksOf ts stream).

(** [videoTracks.forEach(track => { if (!track.enabled) track.enabled = true })] *)
Definition enableVideo (ts : list Dashboard.MediaStreamTrack) (stream : Dashboard.MediaStream)
  : list Dashboard.MediaStreamTrack :=
  foldl (fun acc i =>
           alter (fun t => if decide (Dashboard.kind t = Dashboard.video)
                           then Dashboard.setEnabled true t else t) i acc) ts stream.

(** [initializeRecorder] up to the point where it waits for the video
    element. [videoElement] says whether [videoRef.current] is set. *)
Definition initializeRecorder (videoElement : bool)
    (ts : list Dashboard.MediaStreamTrack) (mediaStream : option Dashboard.MediaStream)
    (s : SessionRecorder.Component)
  : list Dashboard.MediaStreamTrack * SessionRecorder.Component * Outcome :=
  match mediaStream with
  | None =>
      (ts, SessionRecorder.setError
             (Some "No media stream available. Please return to dashboard.") s, Failed)
  | Some stream =>
      let '(ts1, isStreamReady) := prepareStream ts stream in
      if negb isStreamReady then (enableAll ts1 stream, s, Recovering)
      else
        let tracks := tracksOf ts1 stream in
        if (length tracks =? 0)%nat
        then (ts1, SessionRecorder.setError
                     (Some "No camera or microphone tracks found. Please return to dashboard.") s,
              Failed)
        else if Dashboard.some_readyState Dashboard.ended tracks
        then (ts1, SessionRecorder.setError
                     (Some "Some devices have been disconnected. Please return to dashboard.") s,
              Failed)
        else
          let s1 := SessionRecorder.setIsExpectedToEnd false (SessionRecorder.setError None s) in
          if videoElement
          then if (length (videoTracksOf ts1 stream) =? 0)%nat
               then (ts1, SessionRecorder.setError
                            (Some "No camera tracks found. Please return to dashboard.") s1,
                     Failed)
               else (enableVideo ts1 stream, s1, Attached)
          else (ts1, SessionRecorder.setError
                       (Some "Video element not found. Please refresh page.") s1, Failed)
  end.

(** The recovery timer: [prepareStream] once more; the boolean says
    whether [initializeRecorder] is scheduled again. *)
Definition recoveryCheck (ts : list Dashboard.MediaStreamTrack) (stream : Dashboard.MediaStream)
    (s : SessionRecorder.Component)
  : list Dashboard.MediaStreamTrack * SessionRecorder.Component * bool :=
  let '(ts1, recovered) := prepareStream ts stream in
  if recovered then (ts1, s, true)
  else (ts1, SessionRecorder.setError
               (Some "Stream recovery failed. Please return to dashboard and restart.") s, false).

(** [videoTracks.some(t => t.enabled && t.readyState === 'live')] *)
Definition hasActiveVideo (ts : list Dashboard.MediaStreamTrack) (stream : Dashboard.MediaStream)
  : bool :=
  existsb (fun t => Dashboard.enabled t && bool_decide (Dashboard.readyState t = Dashboard.live))
          (videoTracksOf ts stream).

(** [checkStreamHealth] *)
Definition checkStreamHealth (ts : list Dashboard.MediaStreamTrack)
    (stream : Dashboard.MediaStream) (s : SessionRecorder.Component) : SessionRecorder.Component :=
  if negb (active ts stream) || negb (hasActiveVideo ts stream)
  then SessionRecorder.healthFailure s
  else s.

(** The monitoring effect: nothing without a stream or before recording. *)
Definition monitor (ts : list Dashboard.MediaStreamTrack)
    (mediaStream : option Dashboard.MediaStream) (s : SessionRecorder.Component)
  : SessionRecorder.Component :=
  match mediaStream with
  | Some stream =>
      if SessionRecorder.isRecording s then checkStreamHealth ts stream s else s
  | None => s
  end.

(** The draggable preview: [position], [isDragging], [dragStart]. Pointer
    and window coordinates are whole pixels. *)
Record Drag := mkDrag {
  position : Z * Z;
  isDragging : bool;
  dragStart : Z * Z
}.

Definition handleMouseDown (clientX clientY : Z) (d : Drag) : Drag :=
  mkDrag (position d) true (clientX - (position d).1, clientY - (position d).2).

Definition handleMouseMove (innerWidth innerHeight clientX clientY : Z) (d : Drag) : Drag :=
  if isDragging d
  then
    let newX := clientX - (dragStart d).1 in
    let newY := clientY - (dragStart d).2 in
    let maxX := innerWidth - 224 in
    let maxY := innerHeight - 168 in
    mkDrag (Z.max 0 (Z.min newX maxX), Z.max 0 (Z.min newY maxY)) (isDragging d) (dragStart d)
  else d.

Definition handleMouseUp (d : Drag) : Drag :=
  mkDrag (position d) false (dragStart d).

End SessionStream.

(** ** The page: App state, the App's [mediaStream], and the Dashboard
       with the browser's track objects *)
Module Page.

Record State := mkState {
  app : App;
  mediaStream : option Dashboard.MediaStream;
  (** whether the Dashboard is rendered, i.e. [dashboardRef.current] is set *)
  dashboardMounted : bool;
  dashboard : Dashboard.Component
}.

Definition setApp (f : App -> App) (p : State) : State :=
  mkState (f (app p)) (mediaStream p) (dashboardMounted p) (dashboard p).
Definition setMediaStream (m : option Dashboard.MediaStream) (p : State) : State :=
  mkState (app p) m (dashboardMounted p) (dashboard p).
Definition setDashboard (f : Dashboard.Component -> Dashboard.Component) (p : State) : State :=
  mkState (app p) (mediaStream p) (dashboardMounted p) (f (dashboard p)).

(** [handleDeviceStatusUpdate]; [None] stands for an argument left
    [undefined]. *)
Definition handleDeviceStatusUpdate (videoStatus audioStatus : bool)
    (videoToggleStatus audioToggleStatus : option bool)
    (stream : option (option Dashboard.MediaStream)) (p : State) : State :=
  let a := app p in
  mkState
    (setDeviceStates videoStatus audioStatus
       (default (videoEnabled a) videoToggleStatus)
       (default (audioEnabled a) audioToggleStatus) a)
    (default (mediaStream p) stream)
    (dashboardMounted p) (dashboard p).

(** The Dashboard's effect "Update parent component with device status". *)
Definition statusEffect (p : State) : State :=
  let d := dashboard p in
  handleDeviceStatusUpdate (Dashboard.videoReady d) (Dashboard.audioReady d)
    (Some (Dashboard.videoEnabled d)) (Some (Dashboard.audioEnabled d))
    (Some (Dashboard.streamRef d)) p.

(** The state hooks the status effect depends on. *)
Definition statusDeps (d : Dashboard.Component) : bool * bool * bool * bool :=
  (Dashboard.videoReady d, Dashboard.audioReady d,
   Dashboard.videoEnabled d, Dashboard.audioEnabled d).

(** After a Dashboard state update: the effect runs when a dependency changed. *)
Definition afterDashboardRender (prev : Dashboard.Component) (p : State) : State :=
  if decide (statusDeps (dashboard p) = statusDeps prev) then p else statusEffect p.

(** [currentStep === AppStep.DASHBOARD && user && <Dashboard ... />] *)
Definition rendersDashboard (a : App) : bool :=
  bool_decide (currentStep a = DASHBOARD) && bool_decide (is_Some (user a)).

(** The Dashboard mounts: fresh hooks and ref over the same track objects,
    then its effects. *)
Definition mountDashboard (p : State) : State :=
  statusEffect
    (mkState (app p) (mediaStream p) true
       (Dashboard.mkComponent (Dashboard.tracks (dashboard p)) None false false false false false)).

(** The Dashboard unmounts: "Cleanup on unmount". *)
Definition unmountDashboard (p : State) : State :=
  mkState (app p) (mediaStream p) false (Dashboard.cleanup (dashboard p)).

(** React commits the App's new state: the Dashboard appears or goes away. *)
Definition commit (p : State) : State :=
  if dashboardMounted p
  then if rendersDashboard (app p) then p else unmountDashboard p
  else if rendersDashboard (app p) then mountDashboard p else p.

(** The Dashboard's "Enable Camera & Microphone" button. *)
Definition clickEnableDevices (videoGranted audioGranted : bool) (p : State) : State :=
  if dashboardMounted p
  then afterDashboardRender (dashboard p)
         (setDashboard (fun d => (Dashboard.enableDevices videoGranted audioGranted d).1) p)
  else p.

(** The Dashboard's start button. *)
Definition clickStart (now : Z) (p : State) : State :=
  if dashboardMounted p
  then commit (setApp (Dashboard.clickStart now (dashboard p)) p)
  else p.

(** [stopAllStreams(stream)] of [handleLogout]: [track.stop(); track.enabled = false]. *)
Definition stopAllStreams (stream : option Dashboard.MediaStream) (d : Dashboard.Component)
  : Dashboard.Component :=
  match stream with
  | Some st => Dashboard.forEachTrack (fun t => Dashboard.setEnabled false (Dashboard.stop t)) st d
  | None => d
  end.

(** [getUserMedia({ video: true, audio: true })] in one request: both
    tracks or a rejection. *)
Definition getUserMediaBoth (granted : bool) (d : Dashboard.Component)
  : Dashboard.Component * option Dashboard.MediaStream :=
  if granted
  then (Dashboard.setTracks
          (fun ts => ts ++ [Dashboard.mkTrack Dashboard.video Dashboard.live true;
                            Dashboard.mkTrack Dashboard.audio Dashboard.live true]) d,
        Some [length (Dashboard.tracks d); S (length (Dashboard.tracks d))])
  else (d, None).

(** [handleLogout] of the earlier variant (src/unnamed/part_001). *)
Definition handleLogout001 (now : Z) (p : State) : State :=
  commit (mkState (logoutState now (app p)) None (dashboardMounted p) (dashboard p)).

(** [handleLogout] of the later variant (src/unnamed/part_000);
    [forceGranted] is the outcome of its own [getUserMedia] request, whose
    tracks it stops at once. The page reload it schedules is [mount]. *)
Definition handleLogout000 (forceGranted : bool) (now : Z) (p : State) : State :=
  let d1 := stopAllStreams (mediaStream p) (dashboard p) in
  let d2 := if dashboardMounted p then stopAllStreams (Dashboard.streamRef d1) d1 else d1 in
  let '(d3, forced) := getUserMediaBoth forceGranted d2 in
  let d4 := match forced with
            | Some st => Dashboard.forEachTrack Dashboard.stop st d3
            | None => d3
            end in
  commit (mkState (logoutState now (app p)) None (dashboardMounted p) d4).

(** [handleReloadDevices] as the break screens reach it, with no Dashboard
    mounted: one combined request. With a Dashboard mounted the handler
    delegates to [reloadDevices] and a timer; that interleaving is not
    given a result here ([None]). *)
Definition handleReloadDevices (granted : bool) (p : State) : option State :=
  if dashboardMounted p then None
  else
    let p0 := setMediaStream None (setApp resetDeviceStates p) in
    let '(d1, stream) := getUserMediaBoth granted (dashboard p0) in
    match stream with
    | Some st =>
        Some (mkState (setDeviceStates true true true true (app p0)) (Some st) false d1)
    | None => Some (mkState (app p0) (mediaStream p0) false d1)
    end.

(** BreakScreen's continue button, [disabled={!allDevicesReady}]. *)
Definition clickContinue (now : Z) (p : State) : State :=
  if videoReady (app p) && audioReady (app p)
  then commit (setApp (onContinue now) p)
  else p.

(** BreakScreen's "Attach stream to video element" effect: disabled video
    tracks of the stream are switched on. *)
Definition breakAttachEffect (p : State) : State :=
  match mediaStream p with
  | Some st => setDashboard (Dashboard.setTracks (fun ts => SessionStream.enableVideo ts st)) p
  | None => p
  end.

(** [stopAllStreams(stream)] of the completion effect: [track.stop()]. *)
Definition stopTracks (stream : option Dashboard.MediaStream) (d : Dashboard.Component)
  : Dashboard.Component :=
  match stream with
  | Some st => Dashboard.forEachTrack Dashboard.stop st d
  | None => d
  end.

(** Effect "Stop media stream when completion is reached" of the later
    variant (src/unnamed/part_000), run with the state of the render it
    belongs to. *)
Definition completionEffect (p : State) : State :=
  if decide (currentStep (app p) = COMPLETION)
  then
    let d1 := stopTracks (mediaStream p) (dashboard p) in
    let d2 := if dashboardMounted p then stopTracks (Dashboard.streamRef d1) d1 else d1 in
    mkState (resetDeviceStates (app p)) None (dashboardMounted p) d2
  else p.

(** The rendered SessionRecorder reports a clip, later variant: the
    completion effect runs when [currentStep] has changed. *)
Definition sessionCompletes000 (now : Z) (objectUrl : string) (b : Blob) (p : State) : State :=
  let p1 := commit (setApp (sessionCompletes now objectUrl b) p) in
  if decide (currentStep (app p1) = currentStep (app p)) then p1 else completionEffect p1.

(** The rendered SessionRecorder reports a clip, earlier variant
    (src/unnamed/part_001), which has no completion effect. *)
Definition sessionCompletes (now : Z) (objectUrl : string) (b : Blob) (p : State) : State :=
  commit (setApp (sessionCompletes now objectUrl b) p).

(** Page load over the storage found, with the tracks the browser holds.
    The completion effect of the later variant finds no stream and the
    device flags off at this point, so it changes nothing. *)
Definition load000 (now : Z) (ls : LocalStorage) (ts : list Dashboard.MediaStreamTrack) : State :=
  commit (mkState (Part000.mount now ls) None false
            (Dashboard.mkComponent ts None false false false false false)).
Definition load001 (now : Z) (ls : LocalStorage) (ts : list Dashboard.MediaStreamTrack) : State :=
  commit (mkState (Part001.mount now ls) None false
            (Dashboard.mkComponent ts None false false false false false)).

End Page.

(** ** BreakScreen: the reload button *)
Module BreakScreen.

(** [isReloading], the scheduled [setIsReloading(false)] timers, and the
    number of [onReload()] calls the button has made. *)
Record Component := mkComponent {
  isReloading : bool;
  pendingResets : nat;
  reloadCalls : nat
}.

Definition initialComponent : Component := mkComponent false 0 0.

(** [handleReloadClick], [onReload] being provided. *)
Definition handleReloadClick (s : Component) : Component :=
  if negb (isReloading s)
  then mkComponent true (S (pendingResets s)) (S (reloadCalls s))
  else s.

(** A click on the reload button, which is rendered only while
    [!allDevicesReady] and is [disabled={isReloading}]. *)
Definition clickReload (allDevicesReady : bool) (s : Component) : Component :=
  if allDevicesReady then s
  else if isReloading s then s
  else handleReloadClick s.

(** One of the 3-second timers fires: [setIsReloading(false)]. *)
Definition resetFires (s : Component) : Component :=
  match pendingResets s with
  | O => s
  | S k => mkComponent false k (reloadCalls s)
  end.

Inductive Event := ClickReload (allDevicesReady : bool) | ResetFires.

Definition step (e : Event) (s : Component) : Component :=
  match e with
  | ClickReload ready => clickReload ready s
  | ResetFires => resetFires s
  end.

Definition run (evs : list Event) (s : Component) : Component :=
  foldl (fun acc e => step e acc) s evs.

Definition isReset (e : Event) : bool :=
  match e with ResetFires => true | _ => false end.

(** The number of reset timers that fire in a trace. *)
Definition resetsIn (evs : list Event) : nat :=
  length (filter (fun e => isReset e = true) evs).

(** One reset timer is pending exactly while the button shows "Reloading",
    and every call of [onReload] is matched by a reset that has fired or is
    still pending. *)
Definition Debounced (resets : nat) (s : Component) : Prop :=
  pendingResets s = (if isReloading s then 1 else 0)%nat /\
  (reloadCalls s <= resets + pendingResets s)%nat.

End BreakScreen.

(** ** Login (src/components/Login.tsx) and the identity check
       (src/firebaseService.ts) *)
Module Login.

(** What [getDoc] gives for a name: a failure (network, invalid path), a
    snapshot of a missing document, or the document with its [Password]
    field when that is a string. *)
Inductive DocResult :=
  | Throws
  | NotExists
  | Exists_ (Password : option string).

(** [authenticateUser(fullName, passwordInput)], given the answer of
    [getDoc(doc(db, 'Cedar', fullName))]. *)
Definition authenticateUser (snapshot : DocResult) (passwordInput : string) : bool :=
  match snapshot with
  | Exists_ (Some p) => bool_decide (p = passwordInput)
  | _ => false
  end.

Record Component := mkComponent {
  fullNameInput : string;
  password : string;
  error : string;
  isLoading : bool
}.

(** [handleSubmit] with the App's [onLogin={handleLogin}]; [getDoc] is the
    collaborator. *)
Definition handleSubmit (getDoc : string -> DocResult) (now : Z)
    (s : Component) (a : App) : Component * App :=
  if bool_decide (fullNameInput s = "") || bool_decide (password s = "")
  then (mkComponent (fullNameInput s) (password s) "Please fill in all fields" false, a)
  else if authenticateUser (getDoc (fullNameInput s)) (password s)
  then (mkComponent (fullNameInput s) (password s) "" false,
        handleLogin now (fullNameInput s) a)
  else (mkComponent (fullNameInput s) (password s)
          "Authentication failed. Check your name and password format." false, a).

End Login.

(** ** SessionRecorder: the whole life of a recorder, restarts included *)
Module SessionLife.

(** Something happens to the session, or [initializeRecorder] gets to
    start a recording (again), from a render whose [error] was [err]. *)
Inductive Action :=
  | Happens (e : SessionRecorder.Event)
  | Begins (err : option string).

Definition act (x : Action) (s : SessionRecorder.Component) : SessionRecorder.Component :=
  match x with
  | Happens e => SessionRecorder.step e s
  | Begins err => SessionRecorder.beginRecording err s
  end.

Definition runActions (xs : list Action) (s : SessionRecorder.Component)
  : SessionRecorder.Component :=
  foldl (fun acc x => act x acc) s xs.

(** At most one interval is registered, and it is the one in [timerRef]. *)
Definition oneTimer (s : SessionRecorder.Component) : Prop :=
  (SessionRecorder.timerRef s = None /\ SessionRecorder.intervals s = []) \/
  (exists iv, SessionRecorder.intervals s = [iv] /\
              SessionRecorder.timerRef s = Some (SessionRecorder.intervalId iv)).

(** A recorder whose stop was requested by the finish handler is inactive. *)
Definition stoppedIfExpected (s : SessionRecorder.Component) : Prop :=
  SessionRecorder.isExpectedToEnd s = true ->
  forall r, SessionRecorder.mediaRecorderRef s = Some r ->
            SessionRecorder.state r = SessionRecorder.inactive.

(** What every reachable recorder state satisfies. *)
Definition Good (s : SessionRecorder.Component) : Prop := oneTimer s /\ stoppedIfExpected s.

(** The bytes handed to [capture] in a trace, in order. *)
Definition captured (evs : list SessionRecorder.Event) : list (list Z) :=
  omap (fun e => match e with SessionRecorder.Capture bytes => Some bytes | _ => None end) evs.

(** Only ticks and captures. *)
Definition recordingOnly (e : SessionRecorder.Event) : bool :=
  match e with
  | SessionRecorder.Tick | SessionRecorder.Capture _ => true
  | _ => false
  end.

End SessionLife.

(** ** Dashboard: the reconnect pass of the health monitor *)
Module Monitor.

(** [checkAndReconnect]; the outcomes are those of the requests it makes
    when it reconnects. *)
Definition checkAndReconnect (videoGranted audioGranted : bool) (d : Dashboard.Component)
  : Dashboard.Component :=
  if bool_decide (is_Some (Dashboard.streamRef d))
     && (negb (Dashboard.videoReady d) || negb (Dashboard.audioReady d))
  then (Dashboard.enableDevices videoGranted audioGranted d).1
  else d.

End Monitor.

(** * Properties *)

(** ** Resume after reload *)

Lemma saveRecordingsEffect_step recs a :
  currentStep (saveRecordingsEffect recs a) = currentStep a.
Proof. unfold saveRecordingsEffect. by destruct (0 <? length recs)%nat. Qed.

Lemma breakEffect_step now step a :
  currentStep (breakEffect now step a) = currentStep a.
Proof. by destruct step. Qed.

Lemma afterRender_step now prev b a :
  currentStep (afterRender now prev b a) = currentStep a.
Proof.
  unfold afterRender. destruct b; case_decide;
    rewrite ?breakEffect_step, ?saveRecordingsEffect_step; reflexivity.
Qed.

Lemma loadRecordingsEffect_user_key a :
  vocalBoothUser (localStorage (loadRecordingsEffect a)) = vocalBoothUser (localStorage a).
Proof.
  unfold loadRecordingsEffect.
  by destruct (vocalBoothRecordings (localStorage a)) as [[| |?]|].
Qed.

Lemma completedAll_true ls clips :
  vocalBoothRecordings ls = Some (Json clips) ->
  (3 <= length clips)%nat ->
  completedAll ls = true.
Proof.
  intros Hrec Hlen. unfold completedAll. rewrite Hrec.
  by apply Nat.leb_le.
Qed.

(** C1. On resume after a page reload with a persisted user, three or more
    persisted clips restore the COMPLETION step in both source variants,
    whatever the saved session/break checkpoint holds (nothing, an empty
    string, malformed text or any record). *)
Theorem resume_with_three_clips_is_completion :
  forall (now : Z) (u : User) (clips : list SavedRecording)
         (checkpoint : option (Stored SessionData)),
    (3 <= length clips)%nat ->
    let ls := mkLocalStorage (Some (Json u)) (Some (Json clips)) checkpoint in
    currentStep (Part000.mount now ls) = COMPLETION /\
    currentStep (Part001.mount now ls) = COMPLETION.
Proof.
  intros now u clips checkpoint Hlen ls.
  assert (Hall : completedAll ls = true) by by eapply completedAll_true.
  split.
  - unfold Part000.mount. rewrite afterRender_step, breakEffect_step.
    unfold Part000.resumeEffect; simpl. by rewrite Hall.
  - unfold Part001.mount. rewrite afterRender_step, breakEffect_step.
    unfold Part001.resumeEffect; simpl. by rewrite Hall.
Qed.

Lemma resume_with_three_clips_witness :
  currentStep
    (Part000.mount 0
       (mkLocalStorage (Some (Json (mkUser "Ada Lovelace" "Ada Lovelace")))
          (Some (Json [mkSavedRecording 1 "u1" "f1" []; mkSavedRecording 2 "u2" "f2" [];
                       mkSavedRecording 3 "u3" "f3" []]))
          (Some (Json (mkSessionData 1 true 7))))) = COMPLETION /\
  currentStep
    (Part001.mount 0
       (mkLocalStorage (Some (Json (mkUser "Ada Lovelace" "Ada Lovelace")))
          (Some (Json [mkSavedRecording 1 "u1" "f1" []; mkSavedRecording 2 "u2" "f2" [];
                       mkSavedRecording 3 "u3" "f3" []]))
          (Some (Json (mkSessionData 1 true 7))))) = COMPLETION.
Proof.
  apply (resume_with_three_clips_is_completion 0
           (mkUser "Ada Lovelace" "Ada Lovelace")
           [mkSavedRecording 1 "u1" "f1" []; mkSavedRecording 2 "u2" "f2" [];
            mkSavedRecording 3 "u3" "f3" []]
           (Some (Json (mkSessionData 1 true 7)))).
  simpl. lia.
Defined.

(** C8. A recordings record that does not parse is removed at page load,
    the application starts with no clip in memory, and the whole state
    after mount (step included) is the one reached when the record is
    absent; with a persisted user and no checkpoint that step is DASHBOARD. *)
Theorem malformed_recordings_are_discarded :
  forall (now : Z) (userRecord : option (Stored User))
         (checkpoint : option (Stored SessionData)),
    let ls := mkLocalStorage userRecord (Some Malformed) checkpoint in
    (Part000.mount now ls = Part000.mount now (removeItem_Recordings ls) /\
     vocalBoothRecordings (localStorage (Part000.mount now ls)) = None /\
     recordings (Part000.mount now ls) = []) /\
    (Part001.mount now ls = Part001.mount now (removeItem_Recordings ls) /\
     vocalBoothRecordings (localStorage (Part001.mount now ls)) = None /\
     recordings (Part001.mount now ls) = []) /\
    (forall u, userRecord = Some (Json u) -> checkpoint = None ->
       currentStep (Part000.mount now ls) = DASHBOARD /\
       currentStep (Part001.mount now ls) = DASHBOARD).
Proof.
  intros now userRecord checkpoint ls. subst ls.
  split; [|split].
  - destruct userRecord as [[| |u]|]; destruct checkpoint as [[| |d]|];
      try (repeat split; reflexivity).
    unfold Part000.mount, Part000.resumeEffect, Part000.redirect; simpl.
    destruct d as [n b t]; simpl.
    destruct b; simpl; unfold resumeBreak; simpl;
      repeat case_decide; repeat split; reflexivity.
  - destruct userRecord as [[| |u]|]; destruct checkpoint as [[| |d]|];
      try (repeat split; reflexivity).
    unfold Part001.mount, Part001.resumeEffect, Part001.redirect; simpl.
    destruct d as [n b t]; simpl.
    destruct b; simpl; unfold resumeBreak; simpl;
      repeat case_decide; repeat split; reflexivity.
  - intros u -> ->. split; reflexivity.
Qed.

Lemma malformed_recordings_witness :
  currentStep
    (Part000.mount 0 (mkLocalStorage (Some (Json (mkUser "Ada" "Ada"))) (Some Malformed) None))
  = DASHBOARD /\
  currentStep
    (Part001.mount 0 (mkLocalStorage (Some (Json (mkUser "Ada" "Ada"))) (Some Malformed) None))
  = DASHBOARD.
Proof.
  exact (proj2 (proj2 (malformed_recordings_are_discarded 0
                         (Some (Json (mkUser "Ada" "Ada"))) None))
               (mkUser "Ada" "Ada") eq_refl eq_refl).
Defined.

(** C9. The two variants of the resume logic disagree on a checkpoint that
    records a session in progress (not a break): with a persisted user and
    fewer than three clips, one restores DASHBOARD, the other the break
    after that session (COMPLETION after session 3). *)
Theorem resume_variants_disagree :
  forall (now : Z) (u : User) (clipsRecord : option (Stored (list SavedRecording)))
         (n t : Z),
    let ls := mkLocalStorage (Some (Json u)) clipsRecord
                (Some (Json (mkSessionData n false t))) in
    completedAll ls = false ->
    n = 1 \/ n = 2 \/ n = 3 ->
    currentStep (Part000.mount now ls) = DASHBOARD /\
    (n = 1 -> currentStep (Part001.mount now ls) = BREAK_1) /\
    (n = 2 -> currentStep (Part001.mount now ls) = BREAK_2) /\
    (n = 3 -> currentStep (Part001.mount now ls) = COMPLETION) /\
    Part000.mount now ls <> Part001.mount now ls.
Proof.
  intros now u clipsRecord n t ls Hfew Hn.
  assert (H0 : currentStep (Part000.mount now ls) = DASHBOARD).
  { unfold Part000.mount. rewrite afterRender_step, breakEffect_step.
    unfold Part000.resumeEffect, saveRecordingsEffect; simpl.
    rewrite loadRecordingsEffect_user_key; simpl.
    assert (Hc : completedAll (localStorage (loadRecordingsEffect (initialApp ls))) = false).
    { revert Hfew. unfold completedAll, loadRecordingsEffect, ls; simpl.
      by destruct clipsRecord as [[| |?]|]. }
    unfold setUser at 1; simpl. rewrite Hc.
    assert (Hs : vocalBoothCurrentSession (localStorage (loadRecordingsEffect (initialApp ls)))
                 = Some (Json (mkSessionData n false t))).
    { unfold loadRecordingsEffect, ls; simpl. by destruct clipsRecord as [[| |?]|]. }
    rewrite Hs. unfold Part000.redirect; simpl.
    case_decide; [lia | reflexivity]. }
  assert (H1 : currentStep (Part001.mount now ls) =
               if decide (n = 1) then BREAK_1
               else if decide (n = 2) then BREAK_2 else COMPLETION).
  { unfold Part001.mount. rewrite afterRender_step, breakEffect_step.
    unfold Part001.resumeEffect, saveRecordingsEffect; simpl.
    rewrite loadRecordingsEffect_user_key; simpl.
    assert (Hc : completedAll (localStorage (loadRecordingsEffect (initialApp ls))) = false).
    { revert Hfew. unfold completedAll, loadRecordingsEffect, ls; simpl.
      by destruct clipsRecord as [[| |?]|]. }
    unfold setUser at 1; simpl. rewrite Hc.
    assert (Hs : vocalBoothCurrentSession (localStorage (loadRecordingsEffect (initialApp ls)))
                 = Some (Json (mkSessionData n false t))).
    { unfold loadRecordingsEffect, ls; simpl. by destruct clipsRecord as [[| |?]|]. }
    rewrite Hs. unfold Part001.redirect; simpl.
    repeat case_decide; try reflexivity; lia. }
  split; [exact H0|].
  split; [intros ->; rewrite H1; reflexivity|].
  split; [intros ->; rewrite H1; reflexivity|].
  split; [intros ->; rewrite H1; reflexivity|].
  intros Heq. rewrite Heq, H1 in H0.
  repeat case_decide; discriminate.
Qed.

Lemma resume_variants_disagree_witness :
  currentStep (Part000.mount 5
    (mkLocalStorage (Some (Json (mkUser "Ada" "Ada"))) None
       (Some (Json (mkSessionData 2 false 4))))) = DASHBOARD /\
  currentStep (Part001.mount 5
    (mkLocalStorage (Some (Json (mkUser "Ada" "Ada"))) None
       (Some (Json (mkSessionData 2 false 4))))) = BREAK_2.
Proof.
  pose proof (resume_variants_disagree 5 (mkUser "Ada" "Ada") None 2 4
                eq_refl (or_intror (or_introl eq_refl))) as H.
  split; [apply H | apply H; reflexivity].
Defined.

(** ** Saving a clip *)

(** C10. Without a logged-in user [saveRecording] returns at once: the
    whole application state, and with it the recordings list, the
    persisted clips record and the current step, is left as it was. *)
Theorem saveRecording_without_user_is_noop :
  forall (now : Z) (objectUrl : string) (b : Blob) (sid : Z) (a : App),
    user a = None ->
    saveRecording objectUrl b sid a = a /\
    onComplete now objectUrl sid b a = a /\
    recordings (onComplete now objectUrl sid b a) = recordings a /\
    vocalBoothRecordings (localStorage (onComplete now objectUrl sid b a))
      = vocalBoothRecordings (localStorage a) /\
    currentStep (onComplete now objectUrl sid b a) = currentStep a.
Proof.
  intros now objectUrl b sid a Hu.
  assert (Hs : saveRecording objectUrl b sid a = a)
    by (unfold saveRecording; by rewrite Hu).
  assert (Ho : onComplete now objectUrl sid b a = a)
    by (unfold onComplete; by rewrite Hu).
  rewrite Ho. repeat split; assumption || reflexivity.
Qed.

Lemma saveRecording_without_user_witness :
  let a := mkApp None SESSION_2 [] true true true true emptyStorage 0 in
  saveRecording "blob:1" (new_Blob [PartData [1; 2; 3]]) 2 a = a /\
  currentStep (onComplete 9 "blob:1" 2 (new_Blob [PartData [1; 2; 3]]) a) = SESSION_2.
Proof.
  intros a.
  pose proof (saveRecording_without_user_is_noop 9 "blob:1"
                (new_Blob [PartData [1; 2; 3]]) 2 a eq_refl) as H.
  split; [apply H | apply H].
Defined.

Lemma replaceRecording_count newRecording prev :
  length (filter (fun r => sessionId r = sessionId newRecording)
            (replaceRecording newRecording prev)) = 1%nat.
Proof.
  unfold replaceRecording. rewrite filter_app, length_app.
  assert (Hnone : filter (fun r => sessionId r = sessionId newRecording)
                    (filter (fun r => sessionId r ≠ sessionId newRecording) prev) = []).
  { induction prev as [|r prev IH]; [reflexivity|].
    rewrite (filter_cons (fun r => sessionId r ≠ sessionId newRecording)).
    case_decide; [|exact IH].
    rewrite filter_cons. case_decide; [contradiction | exact IH]. }
  rewrite Hnone. rewrite filter_cons. case_decide; [reflexivity | contradiction].
Qed.

Lemma replaceRecording_NoDup newRecording prev :
  NoDup (map sessionId prev) ->
  NoDup (map sessionId (replaceRecording newRecording prev)).
Proof.
  intros Hnd. unfold replaceRecording. rewrite map_app. simpl.
  apply NoDup_app. split; [|split].
  - induction prev as [|r prev IH]; [constructor|].
    simpl in Hnd. apply NoDup_cons in Hnd as [Hnotin Hnd].
    rewrite filter_cons. case_decide; [|by apply IH].
    simpl. apply NoDup_cons. split; [|by apply IH].
    intros Hin. apply Hnotin.
    apply list_elem_of_fmap in Hin as (r' & -> & Hin).
    apply list_elem_of_filter in Hin as [_ Hin].
    apply list_elem_of_fmap. by exists r'.
  - intros x Hin Hx. apply list_elem_of_singleton in Hx as ->.
    apply list_elem_of_fmap in Hin as (r' & Heq & Hin).
    apply list_elem_of_filter in Hin as [Hne _]. congruence.
  - apply NoDup_singleton.
Qed.

(** C6. Saving the clip of session [sid] leaves exactly one clip with that
    session number in the list, whatever the list held before (earlier
    clips of that session are filtered out, the new one is appended last),
    and a list with at most one clip per session stays so. *)
Theorem saveRecording_one_clip_per_session :
  forall (objectUrl : string) (b : Blob) (sid : Z) (a : App) (u : User),
    user a = Some u ->
    let after := recordings (saveRecording objectUrl b sid a) in
    length (filter (fun r => sessionId r = sid) after) = 1%nat /\
    last after = Some (mkRecording sid b objectUrl (make_filename u sid)) /\
    (NoDup (map sessionId (recordings a)) -> NoDup (map sessionId after)).
Proof.
  intros objectUrl b sid a u Hu after.
  assert (Hafter : after = replaceRecording
                     (mkRecording sid b objectUrl (make_filename u sid)) (recordings a)).
  { unfold after, saveRecording. rewrite Hu. by repeat case_decide. }
  rewrite Hafter. split; [|split].
  - apply (replaceRecording_count (mkRecording sid b objectUrl (make_filename u sid))).
  - unfold replaceRecording. apply last_snoc.
  - apply replaceRecording_NoDup.
Qed.

Lemma saveRecording_one_clip_witness :
  length (filter (fun r => sessionId r = 1)
    (recordings (saveRecording "blob:new" emptyBlob 1
       (mkApp (Some (mkUser "Ada  Lovelace" "Ada  Lovelace")) SESSION_1
          [mkRecording 1 (new_Blob [PartData [7]]) "blob:old" "Ada_Lovelace_Session_1.webm";
           mkRecording 2 emptyBlob "blob:two" "Ada_Lovelace_Session_2.webm"]
          true true true true emptyStorage 0)))) = 1%nat.
Proof.
  apply (saveRecording_one_clip_per_session "blob:new" emptyBlob 1
           (mkApp (Some (mkUser "Ada  Lovelace" "Ada  Lovelace")) SESSION_1
              [mkRecording 1 (new_Blob [PartData [7]]) "blob:old" "Ada_Lovelace_Session_1.webm";
               mkRecording 2 emptyBlob "blob:two" "Ada_Lovelace_Session_2.webm"]
              true true true true emptyStorage 0)
           (mkUser "Ada  Lovelace" "Ada  Lovelace") eq_refl).
Defined.

Example make_filename_example :
  make_filename (mkUser "Ada  Lovelace" "Ada  Lovelace") 1 = "Ada_Lovelace_Session_1.webm".
Proof. reflexivity. Qed.

(** ** Finishing a session *)

Lemma stopTimer_frame s :
  SessionRecorder.completed (SessionRecorder.stopTimer s) = SessionRecorder.completed s /\
  SessionRecorder.mediaRecorderRef (SessionRecorder.stopTimer s)
    = SessionRecorder.mediaRecorderRef s /\
  SessionRecorder.chunksRef (SessionRecorder.stopTimer s) = SessionRecorder.chunksRef s /\
  SessionRecorder.isExpectedToEnd (SessionRecorder.stopTimer s)
    = SessionRecorder.isExpectedToEnd s /\
  SessionRecorder.timeLeft (SessionRecorder.stopTimer s) = SessionRecorder.timeLeft s.
Proof.
  unfold SessionRecorder.stopTimer.
  destruct (SessionRecorder.timerRef s); repeat split; reflexivity.
Qed.

Lemma onComplete_advances now objectUrl n b a u :
  user a = Some u ->
  currentStep (onComplete now objectUrl n b a) =
    if decide (n = 1) then BREAK_1
    else if decide (n = 2) then BREAK_2
    else if decide (n = 3) then COMPLETION
    else currentStep a.
Proof.
  intros Hu. unfold onComplete. rewrite Hu, afterRender_step.
  unfold saveRecording. rewrite Hu. by repeat case_decide.
Qed.

(** C5. [handleFinishSession] always ends the session: with an error set,
    or without an active recorder, it calls [onComplete] once with the
    empty, zero-length blob; otherwise it stops the recorder, which hands
    the captured chunks to [onComplete]. For a logged-in user [onComplete]
    of session 1, 2, 3 moves the flow to BREAK_1, BREAK_2, COMPLETION, so
    the empty clip advances the flow as well. *)
Theorem finish_always_completes :
  forall (err : option string) (s : SessionRecorder.Component),
    let s' := SessionRecorder.handleFinishSession err s in
    (SessionRecorder.truthy err = true \/ SessionRecorder.activeRecorder s = false ->
       SessionRecorder.completed s' = SessionRecorder.completed s ++ [emptyBlob]) /\
    (SessionRecorder.truthy err = false -> SessionRecorder.activeRecorder s = true ->
       SessionRecorder.activeRecorder s' = false /\
       SessionRecorder.completed s'
         = SessionRecorder.completed s ++ [Blob_of_chunks (SessionRecorder.chunksRef s')]) /\
    size emptyBlob = 0%nat /\
    (forall now objectUrl a u,
       user a = Some u ->
       currentStep (onComplete now objectUrl 1 emptyBlob a) = BREAK_1 /\
       currentStep (onComplete now objectUrl 2 emptyBlob a) = BREAK_2 /\
       currentStep (onComplete now objectUrl 3 emptyBlob a) = COMPLETION).
Proof.
  intros err s s'. subst s'.
  pose proof (stopTimer_frame s) as (Hc & Hr & Hk & He & _).
  unfold SessionRecorder.handleFinishSession, SessionRecorder.activeRecorder.
  split; [|split; [|split]].
  - intros [Ht | Hna].
    + rewrite Ht. simpl. by rewrite Hc.
    + destruct (SessionRecorder.truthy err); [simpl; by rewrite Hc|].
      rewrite Hr. destruct (SessionRecorder.mediaRecorderRef s) as [r|].
      * apply bool_decide_eq_false in Hna.
        case_decide; [contradiction|]. simpl. by rewrite Hc.
      * simpl. by rewrite Hc.
  - intros Ht Ha. rewrite Ht, Hr.
    destruct (SessionRecorder.mediaRecorderRef s) as [r|]; [|discriminate].
    apply bool_decide_eq_true in Ha. case_decide; [|contradiction].
    unfold SessionRecorder.recorder_stop, SessionRecorder.onstop,
      SessionRecorder.ondataavailable.
    destruct (0 <? size (SessionRecorder.gathered r))%nat; simpl;
      (split; [reflexivity | by rewrite Hc]).
  - reflexivity.
  - intros now objectUrl a u Hu.
    rewrite !(onComplete_advances _ _ _ _ _ u Hu). repeat split.
Qed.

Lemma finish_always_completes_witness :
  SessionRecorder.completed
    (SessionRecorder.handleFinishSession (Some "No media stream available. Please return to dashboard.")
       SessionRecorder.initialComponent) = [emptyBlob] /\
  currentStep
    (onComplete 3 "blob:e" 2 emptyBlob
       (mkApp (Some (mkUser "Ada" "Ada")) SESSION_2 [] false false false false emptyStorage 0))
  = BREAK_2.
Proof.
  pose proof (finish_always_completes
                (Some "No media stream available. Please return to dashboard.")
                SessionRecorder.initialComponent) as (Hempty & _ & _ & Hflow).
  split.
  - apply Hempty. left. reflexivity.
  - apply (Hflow 3 "blob:e"
             (mkApp (Some (mkUser "Ada" "Ada")) SESSION_2 [] false false false false emptyStorage 0)
             (mkUser "Ada" "Ada") eq_refl).
Defined.

(** ** The countdown *)

Module CountdownProofs.
Import SessionRecorder.

Lemma beginRecording_running err s0 :
  timeLeft s0 = 60 -> tracked s0 ->
  Running 0 (beginRecording err s0) /\
  completed (beginRecording err s0) = completed s0.
Proof.
  intros Ht Htr. destruct s0 as [tl ir er mr ch tr ie ivs nid comp].
  simpl in Ht. subst tl. unfold tracked in Htr. simpl in Htr.
  unfold beginRecording, startTimer, Running. simpl.
  assert (Hivs : match tr with
                 | Some id => filter (fun iv => intervalId iv ≠ id) ivs
                 | None => ivs
                 end = []).
  { destruct tr as [id|].
    - induction ivs as [|iv ivs IH]; [reflexivity|].
      rewrite filter_cons.
      assert (Some id = Some (intervalId iv)) as [= ->] by (apply Htr; left).
      case_decide; [contradiction|]. apply IH. intros iv' Hin. apply Htr. by right.
    - destruct ivs as [|iv ivs]; [reflexivity|].
      specialize (Htr iv (list_elem_of_here _ _)). discriminate. }
  destruct tr as [id|]; simpl; simpl in Hivs; rewrite Hivs; simpl.
  all: split; [repeat split; try lia; eexists; split; reflexivity | reflexivity].
Qed.

Lemma quiet_step_done e s :
  undisturbed e = true -> Done s ->
  Done (step e s) /\ completed (step e s) = completed s.
Proof.
  intros Hu (Hiv & Ht & Hrec).
  destruct s as [tl ir er mr ch tr ie ivs nid comp]. simpl in *. subst.
  destruct e; try discriminate; unfold Done; simpl.
  - repeat split; try reflexivity; exact Hrec.
  - unfold capture; simpl. destruct mr as [r|]; [|by repeat split].
    case_decide; simpl; [|by repeat split].
    repeat split; try reflexivity.
    intros Hie r' [= <-]. simpl.
    specialize (Hrec Hie r eq_refl). congruence.
  - unfold healthFailure; simpl. destruct mr as [r|]; simpl; [|by repeat split].
    case_decide; simpl.
    + unfold recorder_stop, onstop, ondataavailable; simpl.
      destruct ie.
      * specialize (Hrec eq_refl r eq_refl). congruence.
      * destruct (0 <? size (gathered r))%nat; simpl;
          repeat split; try reflexivity; intros; discriminate.
    + by repeat split.
Qed.

Lemma quiet_step_running e k s :
  undisturbed e = true -> isTick e = false -> Running k s ->
  Running k (step e s) /\ completed (step e s) = completed s.
Proof.
  intros Hu Hnt (Hk & Ht & Hie & iv & Hiv & Htr).
  destruct s as [tl ir er mr ch tr ie ivs nid comp]. simpl in *. subst.
  destruct e; try discriminate; unfold Running; simpl.
  - unfold capture; simpl. destruct mr as [r|]; [|by eauto 10].
    case_decide; simpl; eauto 10.
  - unfold healthFailure; simpl. destruct mr as [r|]; simpl; [|by eauto 10].
    case_decide; simpl; [|by eauto 10].
    unfold recorder_stop, onstop, ondataavailable; simpl.
    destruct (0 <? size (gathered r))%nat; simpl; eauto 10.
Qed.

Lemma clearInterval_single iv tl ir er mr ch tr ie nid comp :
  clearInterval (intervalId iv) (mkComponent tl ir er mr ch tr ie [iv] nid comp)
  = mkComponent tl ir er mr ch tr ie [] nid comp.
Proof.
  unfold clearInterval; simpl. rewrite filter_cons.
  destruct (decide (intervalId iv ≠ intervalId iv)); [contradiction | reflexivity].
Qed.

Lemma tick_running k s :
  Running k s ->
  (S k < 60)%nat /\ Running (S k) (step Tick s) /\ completed (step Tick s) = completed s
  \/ S k = 60%nat /\ Done (step Tick s) /\
     length (completed (step Tick s)) = S (length (completed s)).
Proof.
  intros (Hk & Ht & Hie & iv & Hiv & Htr).
  destruct s as [tl ir er mr ch tr ie ivs nid comp]. simpl in *. subst.
  unfold elapse, fire; simpl.
  case_decide as Hin; [|exfalso; apply Hin; left].
  unfold intervalCallback; simpl.
  case_decide as Hzero.
  - right. split; [lia|].
    unfold handleFinishSession, stopTimer; simpl.
    rewrite clearInterval_single.
    destruct (truthy (closureError iv)); simpl.
    + unfold Done; simpl. rewrite length_app; simpl.
      repeat split; try lia; try (intros; discriminate).
    + destruct mr as [r|]; simpl.
      * case_decide; simpl.
        -- unfold recorder_stop, onstop, ondataavailable; simpl.
           destruct (0 <? size (gathered r))%nat; simpl;
             unfold Done; simpl; rewrite length_app; simpl;
             (repeat split; try lia); try (by intros _ r' [= <-]).
        -- unfold Done; simpl. rewrite length_app; simpl.
           repeat split; try lia; try (intros; discriminate).
      * unfold Done; simpl. rewrite length_app; simpl.
        repeat split; try lia; try (intros; discriminate).
  - left. split; [lia|]. unfold Running; simpl.
    split; [|reflexivity].
    repeat split; try lia. eauto.
Qed.

Lemma ticks_cons e evs :
  ticks (e :: evs) = ((if isTick e then 1 else 0) + ticks evs)%nat.
Proof.
  unfold ticks. rewrite filter_cons. destruct (isTick e); case_decide; try done.
Qed.

Lemma run_done evs : forall s,
  forallb undisturbed evs = true -> Done s ->
  completed (run evs s) = completed s /\ timeLeft (run evs s) = 0.
Proof.
  induction evs as [|e evs IH]; intros s Hq Hd.
  - split; [reflexivity | apply Hd].
  - simpl in Hq. apply andb_prop in Hq as [He Hq].
    destruct (quiet_step_done e s He Hd) as [Hd' Hc'].
    unfold run; simpl. fold (run evs (step e s)).
    destruct (IH _ Hq Hd') as [Hc Ht]. split; congruence.
Qed.

Lemma run_running evs : forall k s,
  forallb undisturbed evs = true -> Running k s ->
  length (completed (run evs s))
    = (length (completed s) + (if (k + ticks evs <? 60)%nat then 0 else 1))%nat /\
  timeLeft (run evs s) = Z.max 0 (60 - Z.of_nat (k + ticks evs)).
Proof.
  induction evs as [|e evs IH]; intros k s Hq Hr.
  - unfold ticks; simpl. destruct Hr as (Hk & Ht & _).
    rewrite Nat.add_0_r. apply Nat.ltb_lt in Hk as Hk'. rewrite Hk'.
    split; [lia | simpl; lia].
  - simpl in Hq. apply andb_prop in Hq as [He Hq].
    unfold run; simpl. fold (run evs (step e s)).
    rewrite ticks_cons.
    destruct (isTick e) eqn:Htick.
    + destruct e; try discriminate.
      destruct (tick_running k s Hr) as [(Hlt & Hr' & Hc) | (Heq & Hd & Hc)].
      * destruct (IH _ _ Hq Hr') as [IHc IHt].
        replace (k + (1 + ticks evs))%nat with (S k + ticks evs)%nat by lia.
        rewrite IHc, IHt, Hc. split; reflexivity.
      * destruct (run_done evs _ Hq Hd) as [Hc' Ht'].
        rewrite Hc', Ht', Hc.
        assert (Hge : (k + (1 + ticks evs) <? 60)%nat = false) by (apply Nat.ltb_ge; lia).
        rewrite Hge. split; lia.
    + destruct (quiet_step_running e k s He Htick Hr) as [Hr' Hc].
      destruct (IH _ _ Hq Hr') as [IHc IHt].
      simpl. rewrite IHc, IHt, Hc. split; reflexivity.
Qed.

End CountdownProofs.

(** C2. Once recording has begun with 60 seconds left, and as long as the
    user does not finish by hand and the component stays mounted, the
    countdown calls [onComplete] exactly once: not at all during the first
    59 ticks, once at the 60th tick, where the remaining time reaches 0,
    and never again on later ticks. [stopTimer] is idempotent and does
    nothing when no countdown is running. *)
Theorem countdown_fires_completion_once :
  (forall (err : option string) (s0 : SessionRecorder.Component)
          (evs : list SessionRecorder.Event),
     SessionRecorder.timeLeft s0 = 60 ->
     SessionRecorder.tracked s0 ->
     forallb SessionRecorder.undisturbed evs = true ->
     let s := SessionRecorder.run evs (SessionRecorder.beginRecording err s0) in
     length (SessionRecorder.completed s)
       = (length (SessionRecorder.completed s0)
          + (if (SessionRecorder.ticks evs <? 60)%nat then 0 else 1))%nat /\
     SessionRecorder.timeLeft s = Z.max 0 (60 - Z.of_nat (SessionRecorder.ticks evs))) /\
  (forall s, SessionRecorder.stopTimer (SessionRecorder.stopTimer s)
             = SessionRecorder.stopTimer s) /\
  (forall s, SessionRecorder.timerRef s = None -> SessionRecorder.stopTimer s = s).
Proof.
  split; [|split].
  - intros err s0 evs Ht Htr Hq s.
    destruct (CountdownProofs.beginRecording_running err s0 Ht Htr) as [Hr Hc].
    destruct (CountdownProofs.run_running evs 0 _ Hq Hr) as [Hlen Htime].
    subst s. rewrite Hlen, Htime, Hc. split; reflexivity.
  - intros s. unfold SessionRecorder.stopTimer.
    destruct (SessionRecorder.timerRef s) eqn:Hs; simpl; [reflexivity|].
    by rewrite Hs.
  - intros s Hs. unfold SessionRecorder.stopTimer. by rewrite Hs.
Qed.

Lemma tracked_initialComponent : SessionRecorder.tracked SessionRecorder.initialComponent.
Proof. intros iv Hin. inversion Hin. Qed.

Lemma countdown_fires_completion_once_witness :
  length (SessionRecorder.completed
    (SessionRecorder.run (replicate 59 SessionRecorder.Tick)
       (SessionRecorder.beginRecording None SessionRecorder.initialComponent))) = 0%nat /\
  length (SessionRecorder.completed
    (SessionRecorder.run (replicate 60 SessionRecorder.Tick)
       (SessionRecorder.beginRecording None SessionRecorder.initialComponent))) = 1%nat /\
  length (SessionRecorder.completed
    (SessionRecorder.run
       (replicate 60 SessionRecorder.Tick
        ++ [SessionRecorder.HealthFailure; SessionRecorder.Tick; SessionRecorder.Tick])
       (SessionRecorder.beginRecording None SessionRecorder.initialComponent))) = 1%nat.
Proof.
  pose proof (proj1 countdown_fires_completion_once None
                SessionRecorder.initialComponent) as H.
  split; [|split].
  - exact (proj1 (H (replicate 59 SessionRecorder.Tick)
                    eq_refl tracked_initialComponent eq_refl)).
  - exact (proj1 (H (replicate 60 SessionRecorder.Tick)
                    eq_refl tracked_initialComponent eq_refl)).
  - exact (proj1 (H (replicate 60 SessionRecorder.Tick
                     ++ [SessionRecorder.HealthFailure; SessionRecorder.Tick;
                         SessionRecorder.Tick])
                    eq_refl tracked_initialComponent eq_refl)).
Defined.

(** ** The device stream *)

Module DeviceProofs.
Import Dashboard.

Lemma forEach_length (f : MediaStreamTrack -> MediaStreamTrack) (stream : MediaStream) :
  forall ts : list MediaStreamTrack,
  length (foldl (fun acc i => alter f i acc) ts stream) = length ts.
Proof.
  induction stream as [|j stream IH]; intros ts; simpl; [reflexivity|].
  rewrite IH. apply length_alter.
Qed.

(** A mutation that never revives a track leaves no track live that was
    not live before. *)
Lemma forEach_live_before (f : MediaStreamTrack -> MediaStreamTrack) (stream : MediaStream) :
  (forall t, readyState (f t) = live -> readyState t = live) ->
  forall (ts : list MediaStreamTrack) i t', foldl (fun acc j => alter f j acc) ts stream !! i = Some t' ->
    readyState t' = live ->
    exists t, ts !! i = Some t /\ readyState t = live.
Proof.
  intros Hf. induction stream as [|j stream IH]; intros ts i t' Hl Hlive; simpl in Hl.
  - eauto.
  - destruct (IH _ _ _ Hl Hlive) as (t1 & Hl1 & Hlive1).
    destruct (decide (j = i)) as [->|Hne].
    + rewrite list_lookup_alter_eq in Hl1.
      destruct (ts !! i) as [t|] eqn:Hti; simplify_eq/=.
      exists t. split; [reflexivity | by apply Hf].
    + rewrite list_lookup_alter_ne in Hl1 by done. eauto.
Qed.

(** A mutation that ends tracks leaves no track of the stream live. *)
Lemma forEach_ended (f : MediaStreamTrack -> MediaStreamTrack) (stream : MediaStream) :
  (forall t, readyState (f t) = ended) ->
  forall (ts : list MediaStreamTrack) i t', i ∈ stream ->
    foldl (fun acc j => alter f j acc) ts stream !! i = Some t' ->
    readyState t' = ended.
Proof.
  intros Hf. induction stream as [|j stream IH]; intros ts i t' Hin Hl.
  - inversion Hin.
  - simpl in Hl. destruct (decide (i ∈ stream)) as [Hin'|Hnin].
    + by eapply IH.
    + assert (i = j) as -> by (apply elem_of_cons in Hin as [|]; done).
      destruct (readyState t') eqn:Hr; [|reflexivity].
      assert (Hmono : forall t, readyState (f t) = live -> readyState t = live)
        by (intros t Ht; rewrite Hf in Ht; discriminate).
      destruct (forEach_live_before f stream Hmono _ _ _ Hl Hr) as (t1 & Hl1 & Hlive1).
      rewrite list_lookup_alter_eq in Hl1.
      destruct (ts !! j) as [t|]; simplify_eq/=.
      rewrite Hf in Hlive1. discriminate.
Qed.

Lemma checkTrackStatus_frame o s :
  tracks (checkTrackStatus o s).1 = tracks s /\
  streamRef (checkTrackStatus o s).1 = streamRef s.
Proof.
  unfold checkTrackStatus. destruct o as [st|]; [|by split].
  match goal with |- context [if ?c then _ else _] => destruct c end; by split.
Qed.

Lemma stoppedTracks_length s : length (stoppedTracks s) = length (tracks s).
Proof.
  unfold stoppedTracks. destruct (streamRef s); [apply forEach_length | reflexivity].
Qed.

Lemma lookup_fresh1 (ts1 ts : list MediaStreamTrack) t :
  length ts1 = length ts -> (ts1 ++ [t]) !! length ts = Some t.
Proof. intros <-. by apply list_lookup_middle. Qed.

Lemma lookup_fresh2a (ts1 ts : list MediaStreamTrack) t u :
  length ts1 = length ts -> ((ts1 ++ [t]) ++ [u]) !! length ts = Some t.
Proof. intros <-. rewrite <- app_assoc. by apply list_lookup_middle. Qed.

Lemma lookup_fresh2b (ts1 ts : list MediaStreamTrack) t u :
  length ts1 = length ts -> ((ts1 ++ [t]) ++ [u]) !! S (length ts) = Some u.
Proof.
  intros <-. apply list_lookup_middle. rewrite length_app. simpl. lia.
Qed.

Ltac fresh_lookups :=
  rewrite ?length_app, ?forEach_length; simpl; rewrite ?Nat.add_1_r;
  rewrite ?(lookup_fresh2a _ _ _ _ (forEach_length _ _ _)),
          ?(lookup_fresh2b _ _ _ _ (forEach_length _ _ _)),
          ?(lookup_fresh1 _ _ _ (forEach_length _ _ _)),
          ?(lookup_fresh2a _ _ _ _ eq_refl), ?(lookup_fresh2b _ _ _ _ eq_refl),
          ?(lookup_fresh1 _ _ _ eq_refl);
  simpl.

Ltac acquire_crunch :=
  cbv zeta;
  unfold enableDevices, getUserMedia, stoppedTracks; simpl;
  unfold checkTrackStatus, getVideoTracks, getAudioTracks, getTracks, forEachTrack; simpl;
  fresh_lookups; repeat split; try reflexivity; fresh_lookups; reflexivity.

Lemma enableDevices_video_only s :
  let r := (enableDevices true false s).1 in
  tracks r = stoppedTracks s ++ [mkTrack video live true] /\
  streamRef r = Some [length (tracks s)] /\
  getTracks r [length (tracks s)] = [mkTrack video live true] /\
  permissionError r = false /\ videoReady r = true /\ audioReady r = false /\
  (enableDevices true false s).2 = false.
Proof.
  destruct s as [ts [old|] vr ar pe ve ae]; acquire_crunch.
Qed.

Lemma enableDevices_audio_only s :
  let r := (enableDevices false true s).1 in
  tracks r = stoppedTracks s ++ [mkTrack audio live true] /\
  streamRef r = Some [length (tracks s)] /\
  getTracks r [length (tracks s)] = [mkTrack audio live true] /\
  permissionError r = false /\ videoReady r = false /\ audioReady r = true /\
  (enableDevices false true s).2 = false.
Proof.
  destruct s as [ts [old|] vr ar pe ve ae]; acquire_crunch.
Qed.

Lemma enableDevices_both s :
  let r := (enableDevices true true s).1 in
  tracks r = (stoppedTracks s ++ [mkTrack video live true]) ++ [mkTrack audio live true] /\
  streamRef r = Some [length (tracks s); S (length (tracks s))] /\
  getTracks r [length (tracks s); S (length (tracks s))]
    = [mkTrack video live true; mkTrack audio live true] /\
  permissionError r = false /\ videoReady r = true /\ audioReady r = true /\
  (enableDevices true true s).2 = false.
Proof.
  destruct s as [ts [old|] vr ar pe ve ae]; acquire_crunch.
Qed.

Lemma enableDevices_none s :
  let r := (enableDevices false false s).1 in
  tracks r = stoppedTracks s /\
  streamRef r = streamRef s /\
  permissionError r = true /\ videoReady r = false /\ audioReady r = false /\
  videoEnabled r = false /\ audioEnabled r = false /\
  (enableDevices false false s).2 = false.
Proof.
  destruct s as [ts [old|] vr ar pe ve ae]; acquire_crunch.
Qed.

(** The status check that closes [enableDevices] sees freshly granted,
    live tracks only, so it never starts a nested recovery. *)
Lemma enableDevices_never_recovers vg ag s : (enableDevices vg ag s).2 = false.
Proof.
  destruct vg, ag.
  - apply enableDevices_both.
  - apply enableDevices_video_only.
  - apply enableDevices_audio_only.
  - apply enableDevices_none.
Qed.

Lemma no_leak_frame s s' :
  tracks s' = tracks s -> streamRef s' = streamRef s -> no_leak s -> no_leak s'.
Proof.
  intros Ht Hs Hn i (t & Hl & Hlive). rewrite Hs. apply Hn.
  exists t. by rewrite <- Ht.
Qed.

Lemma stop_ended t : readyState (stop t) = ended.
Proof. reflexivity. Qed.

Lemma ended_not_revived (f : MediaStreamTrack -> MediaStreamTrack) :
  (forall t, readyState (f t) = ended) ->
  forall t, readyState (f t) = live -> readyState t = live.
Proof. intros Hf t Ht. rewrite Hf in Ht. discriminate. Qed.

(** Stopping the held stream leaves nothing live, provided nothing had leaked. *)
Lemma forEach_stops_everything (f : MediaStreamTrack -> MediaStreamTrack) s stream :
  (forall t, readyState (f t) = ended) ->
  no_leak s -> streamRef s = Some stream ->
  forall i t, foldl (fun acc j => alter f j acc) (tracks s) stream !! i = Some t ->
    readyState t = ended.
Proof.
  intros Hf Hn Hs i t Hl. destruct (readyState t) eqn:Hr; [|reflexivity].
  destruct (forEach_live_before f stream (ended_not_revived f Hf) _ _ _ Hl Hr)
    as (t0 & Hl0 & Hlive0).
  destruct (Hn i) as (stream' & Hs' & Hin); [by exists t0|].
  rewrite Hs in Hs'. injection Hs' as <-.
  rewrite (forEach_ended f stream Hf _ _ _ Hin Hl) in Hr. discriminate.
Qed.

Lemma stoppedTracks_ended s :
  no_leak s -> forall i t, stoppedTracks s !! i = Some t -> readyState t = ended.
Proof.
  intros Hn i t Hl. unfold stoppedTracks in Hl.
  destruct (streamRef s) as [old|] eqn:Hs.
  - by eapply (forEach_stops_everything stop).
  - destruct (readyState t) eqn:Hr; [|reflexivity].
    destruct (Hn i) as (stream & Hs' & _); [by exists t|]. congruence.
Qed.

(** After [enableDevices] only the freshly granted tracks are live, and
    they belong to the new stream. *)
Lemma enableDevices_no_leak vg ag s :
  no_leak s ->
  no_leak (enableDevices vg ag s).1 /\
  (forall i, (i < length (tracks s))%nat -> ~ isLive (enableDevices vg ag s).1 i).
Proof.
  intros Hn.
  pose proof (stoppedTracks_ended s Hn) as Hended.
  pose proof (stoppedTracks_length s) as Hlen.
  assert (Hold : forall news i t,
            (stoppedTracks s ++ news) !! i = Some t -> readyState t = live ->
            (length (tracks s) <= i)%nat /\ news !! (i - length (tracks s))%nat = Some t).
  { intros news i t Hl Hlive. apply lookup_app_Some in Hl as [Hl | [Hge Hl]].
    - rewrite (Hended _ _ Hl) in Hlive. discriminate.
    - rewrite Hlen in Hge, Hl. by split. }
  destruct vg, ag.
  - destruct (enableDevices_both s) as (Ht & Hs & _).
    rewrite <- app_assoc in Ht. split.
    + intros i (t & Hl & Hlive). rewrite Ht in Hl.
      destruct (Hold _ _ _ Hl Hlive) as [Hge Hnew].
      exists [length (tracks s); S (length (tracks s))]. split; [exact Hs|].
      destruct (i - length (tracks s))%nat as [|[|k]] eqn:Hk; simpl in Hnew;
        [ | | discriminate ].
      * replace i with (length (tracks s)) by lia. repeat constructor.
      * replace i with (S (length (tracks s))) by lia. repeat constructor.
    + intros i Hi (t & Hl & Hlive). rewrite Ht in Hl.
      destruct (Hold _ _ _ Hl Hlive) as [Hge _]. lia.
  - destruct (enableDevices_video_only s) as (Ht & Hs & _). split.
    + intros i (t & Hl & Hlive). rewrite Ht in Hl.
      destruct (Hold _ _ _ Hl Hlive) as [Hge Hnew].
      exists [length (tracks s)]. split; [exact Hs|].
      destruct (i - length (tracks s))%nat as [|k] eqn:Hk; simpl in Hnew;
        [ | discriminate ].
      replace i with (length (tracks s)) by lia. repeat constructor.
    + intros i Hi (t & Hl & Hlive). rewrite Ht in Hl.
      destruct (Hold _ _ _ Hl Hlive) as [Hge _]. lia.
  - destruct (enableDevices_audio_only s) as (Ht & Hs & _). split.
    + intros i (t & Hl & Hlive). rewrite Ht in Hl.
      destruct (Hold _ _ _ Hl Hlive) as [Hge Hnew].
      exists [length (tracks s)]. split; [exact Hs|].
      destruct (i - length (tracks s))%nat as [|k] eqn:Hk; simpl in Hnew;
        [ | discriminate ].
      replace i with (length (tracks s)) by lia. repeat constructor.
    + intros i Hi (t & Hl & Hlive). rewrite Ht in Hl.
      destruct (Hold _ _ _ Hl Hlive) as [Hge _]. lia.
  - destruct (enableDevices_none s) as (Ht & Hs & _).
    assert (Hnone : forall i, ~ isLive (enableDevices false false s).1 i).
    { intros i (t & Hl & Hlive). rewrite Ht in Hl.
      rewrite (Hended _ _ Hl) in Hlive. discriminate. }
    split; [intros i Hi; by destruct (Hnone i) | intros i _; apply Hnone].
Qed.

Lemma cleanup_releases s :
  no_leak s ->
  streamRef (cleanup s) = None /\ (forall i, ~ isLive (cleanup s) i).
Proof.
  intros Hn. unfold cleanup. destruct (streamRef s) as [stream|] eqn:Hs.
  - split; [reflexivity|]. intros i (t & Hl & Hlive). simpl in Hl.
    rewrite (forEach_stops_everything (fun t => setEnabled false (stop t)) s stream
               (fun _ => eq_refl) Hn Hs _ _ Hl) in Hlive.
    discriminate.
  - split; [exact Hs|]. intros i Hlive.
    destruct (Hn i Hlive) as (stream & Hs' & _). congruence.
Qed.

Lemma recover_no_leak vg ag r :
  no_leak r.1 -> no_leak (recover vg ag r).
Proof.
  intros Hn. unfold recover. destruct r.2; [|exact Hn].
  by apply enableDevices_no_leak.
Qed.

Lemma toggle_no_leak k s : no_leak s -> no_leak (toggle k s).1.
Proof.
  intros Hn. unfold toggle. destruct (streamRef s) as [stream|] eqn:Hs; [|exact Hn].
  match goal with |- no_leak (checkTrackStatus ?o ?s1).1 =>
    destruct (checkTrackStatus_frame o s1) as [Ht Hr];
    apply (no_leak_frame s1); [exact Ht | exact Hr |]
  end.
  intros i (t & Hl & Hlive). simpl in Hl.
  destruct (forEach_live_before _ stream
              (fun t => match decide (kind t = k) as d
                          return readyState (if d then setEnabled (negb (enabled t)) t else t) = live
                                 -> readyState t = live
                        with left _ => fun H => H | right _ => fun H => H end)
              _ _ _ Hl Hlive) as (t0 & Hl0 & Hlive0).
  simpl. rewrite Hs. rewrite <- Hs. apply Hn. by exists t0.
Qed.

Lemma trackEnded_no_leak j s : no_leak s -> no_leak (trackEnded j s).
Proof.
  intros Hn i (t & Hl & Hlive). simpl in Hl. apply Hn.
  destruct (decide (j = i)) as [->|Hne].
  - rewrite list_lookup_alter_eq in Hl.
    destruct (tracks s !! i); simplify_eq/=.
  - rewrite list_lookup_alter_ne in Hl by done. by exists t.
Qed.

Lemma step_no_leak e s : no_leak s -> no_leak (step e s).
Proof.
  intros Hn. destruct e as [vg ag| |vg ag|k vg ag|j]; simpl.
  - by apply enableDevices_no_leak.
  - destruct (cleanup_releases s Hn) as [_ Hnone]. intros i Hi. by destruct (Hnone i).
  - apply recover_no_leak.
    destruct (checkTrackStatus_frame (streamRef s) s) as [Ht Hr].
    by apply (no_leak_frame s).
  - apply recover_no_leak. by apply toggle_no_leak.
  - by apply trackEnded_no_leak.
Qed.

Lemma run_no_leak evs : forall s, no_leak s -> no_leak (run evs s).
Proof.
  induction evs as [|e evs IH]; intros s Hn; [exact Hn|].
  apply (IH (step e s)). by apply step_no_leak.
Qed.

Lemma initial_no_leak : no_leak initialComponent.
Proof. intros i (t & Hl & _). inversion Hl. Qed.

End DeviceProofs.

(** C3. [enableDevices] asks for camera and microphone separately. When
    only one request is granted the new stream holds exactly the track of
    that kind; when both are granted it holds the video track and the
    audio track; when both fail the permission error is raised, no track
    is created and [streamRef] receives no new stream (it stays empty when
    it was empty). *)
Theorem enableDevices_independent_grants :
  forall s : Dashboard.Component,
    let r := fun vg ag => (Dashboard.enableDevices vg ag s).1 in
    (exists stream,
       Dashboard.streamRef (r true false) = Some stream /\
       Dashboard.getTracks (r true false) stream
         = [Dashboard.mkTrack Dashboard.video Dashboard.live true] /\
       Dashboard.only_kind Dashboard.video (r true false) stream /\
       Dashboard.permissionError (r true false) = false) /\
    (exists stream,
       Dashboard.streamRef (r false true) = Some stream /\
       Dashboard.getTracks (r false true) stream
         = [Dashboard.mkTrack Dashboard.audio Dashboard.live true] /\
       Dashboard.only_kind Dashboard.audio (r false true) stream /\
       Dashboard.permissionError (r false true) = false) /\
    (exists stream,
       Dashboard.streamRef (r true true) = Some stream /\
       Dashboard.getTracks (r true true) stream
         = [Dashboard.mkTrack Dashboard.video Dashboard.live true;
            Dashboard.mkTrack Dashboard.audio Dashboard.live true] /\
       Dashboard.permissionError (r true true) = false) /\
    (Dashboard.permissionError (r false false) = true /\
     Dashboard.streamRef (r false false) = Dashboard.streamRef s /\
     length (Dashboard.tracks (r false false)) = length (Dashboard.tracks s) /\
     (Dashboard.streamRef s = None -> Dashboard.streamRef (r false false) = None)).
Proof.
  intros s r. subst r. cbv beta.
  destruct (DeviceProofs.enableDevices_video_only s) as (_ & Hvs & Hvt & Hvp & _).
  destruct (DeviceProofs.enableDevices_audio_only s) as (_ & Has & Hat & Hap & _).
  destruct (DeviceProofs.enableDevices_both s) as (_ & Hbs & Hbt & Hbp & _).
  destruct (DeviceProofs.enableDevices_none s) as (Hnt & Hns & Hnp & _).
  split; [|split; [|split]].
  - eexists. split; [exact Hvs|]. split; [exact Hvt|]. split; [|exact Hvp].
    intros t Hin. rewrite Hvt in Hin. apply list_elem_of_singleton in Hin as ->. reflexivity.
  - eexists. split; [exact Has|]. split; [exact Hat|]. split; [|exact Hap].
    intros t Hin. rewrite Hat in Hin. apply list_elem_of_singleton in Hin as ->. reflexivity.
  - eexists. split; [exact Hbs|]. split; [exact Hbt | exact Hbp].
  - split; [exact Hnp|]. split; [exact Hns|]. split.
    + rewrite Hnt. apply DeviceProofs.stoppedTracks_length.
    + intros Hs. by rewrite Hns.
Qed.

Lemma enableDevices_independent_grants_witness :
  Dashboard.permissionError
    (Dashboard.enableDevices false false Dashboard.initialComponent).1 = true /\
  Dashboard.streamRef
    (Dashboard.enableDevices false false Dashboard.initialComponent).1 = None.
Proof.
  pose proof (enableDevices_independent_grants Dashboard.initialComponent)
    as (_ & _ & _ & Hp & _ & _ & Hnone).
  split; [exact Hp | exact (Hnone eq_refl)].
Defined.

(** Operations that run to completion one after another: whatever
    sequence of acquisitions, releases, status checks, toggles and track
    endings the controller goes through, every live track belongs to the
    one stream held in [streamRef]. *)
Lemma completed_operations_hold_one_stream :
  forall evs : list Dashboard.Event,
    Dashboard.no_leak (Dashboard.run evs Dashboard.initialComponent).
Proof. intros evs. apply DeviceProofs.run_no_leak, DeviceProofs.initial_no_leak. Qed.

(** ** Acquisitions that wait for their device requests *)

Module AcquisitionProofs.
Import Dashboard Acquisition.

(** The three phases make up [enableDevices]. *)
Lemma enableDevices_phases vg ag s :
  enableDevices vg ag s
  = audioSettled ag (videoSettled vg (begin s)).2 (videoSettled vg (begin s)).1.
Proof. by destruct vg, ag. Qed.

Lemma begin_frame s :
  tracks (begin s) = stoppedTracks s /\ streamRef (begin s) = streamRef s.
Proof.
  unfold begin, stoppedTracks. cbn [streamRef setPermissionError].
  by destruct (streamRef s) eqn:Hs.
Qed.

(** The first phase leaves no track live, provided nothing had leaked. *)
Lemma begin_kills s : no_leak s -> forall i, ~ isLive (begin s) i.
Proof.
  intros Hn i (t & Hl & Hlive). rewrite (proj1 (begin_frame s)) in Hl.
  rewrite (DeviceProofs.stoppedTracks_ended s Hn _ _ Hl) in Hlive. discriminate.
Qed.

Lemma videoSettled_shape g s :
  tracks (videoSettled g s).1 = tracks s ++ (if g then [mkTrack video live true] else []) /\
  streamRef (videoSettled g s).1 = streamRef s /\
  (videoSettled g s).2 = if g then Some [length (tracks s)] else None.
Proof. destruct g; simpl; by rewrite ?app_nil_r. Qed.

Lemma audioSettled_shape g vs s :
  tracks (audioSettled g vs s).1 = tracks s ++ (if g then [mkTrack audio live true] else []) /\
  streamRef (audioSettled g vs s).1
  = match vs, g with
    | None, false => streamRef s
    | _, _ => Some (default [] vs ++ (if g then [length (tracks s)] else []))
    end.
Proof.
  unfold audioSettled, getUserMedia.
  destruct g, vs as [v|]; cbn [fst snd default];
    try match goal with
        | |- context [checkTrackStatus ?o ?c] =>
            destruct (DeviceProofs.checkTrackStatus_frame o c) as [-> ->]
        end;
    simpl; by rewrite ?app_nil_r.
Qed.

(** What is live after tracks were appended. *)
Lemma isLive_app (s s' : Component) news i :
  tracks s' = tracks s ++ news -> isLive s' i ->
  isLive s i \/ exists t, news !! (i - length (tracks s))%nat = Some t /\
                          (length (tracks s) <= i)%nat.
Proof.
  intros Ht (t & Hl & Hlive). rewrite Ht in Hl.
  apply lookup_app_Some in Hl as [Hl | [Hge Hl]]; [left; by exists t | right; by exists t].
Qed.

Lemma videoSettled_holds g s i :
  (forall j, ~ isLive s j) ->
  isLive (videoSettled g s).1 i -> i ∈ default [] (videoSettled g s).2.
Proof.
  intros Hnone Hl. destruct (videoSettled_shape g s) as (Ht & _ & ->).
  destruct (isLive_app s _ _ i Ht Hl) as [Hold | (t & Hnew & Hge)]; [by destruct (Hnone i)|].
  destruct g; [|discriminate].
  destruct (i - length (tracks s))%nat as [|k] eqn:Hk; [|discriminate].
  replace i with (length (tracks s)) by lia. simpl. left.
Qed.

Lemma audioSettled_no_leak g vs s :
  (forall i, isLive s i -> i ∈ default [] vs) -> no_leak (audioSettled g vs s).1.
Proof.
  intros Hheld i Hl. destruct (audioSettled_shape g vs s) as (Ht & Hs).
  destruct (isLive_app s _ _ i Ht Hl) as [Hold | (t & Hnew & Hge)].
  - specialize (Hheld i Hold). rewrite Hs.
    destruct vs as [v|]; [|by inversion Hheld].
    destruct g; eexists; (split; [reflexivity|]); apply elem_of_app; by left.
  - destruct g; [|discriminate]. rewrite Hs.
    destruct (i - length (tracks s))%nat as [|k] eqn:Hk; [|discriminate].
    replace i with (length (tracks s)) by lia.
    destruct vs as [v|]; eexists; (split; [reflexivity|]); apply elem_of_app; right; left.
Qed.

Lemma trackEnded_live j s i : isLive (trackEnded j s) i -> isLive s i.
Proof.
  intros (t & Hl & Hlive). simpl in Hl.
  destruct (decide (j = i)) as [->|Hne].
  - rewrite list_lookup_alter_eq in Hl. destruct (tracks s !! i); simplify_eq/=.
  - rewrite list_lookup_alter_ne in Hl by done. by exists t.
Qed.

(** The calls of serial runs: returned ones, and at most one more. *)
Lemma returned_lookup k i c : replicate k Returned !! i = Some c -> c = Returned.
Proof. intros H. by apply lookup_replicate in H as [-> _]. Qed.

Lemma last_lookup k (c c' : Call) i :
  (replicate k Returned ++ [c]) !! i = Some c' -> c' = Returned \/ (i = k /\ c' = c).
Proof.
  intros H. apply lookup_app_Some in H as [H | [Hge H]].
  - left. by eapply returned_lookup.
  - right. rewrite length_replicate in Hge, H.
    destruct (i - k)%nat as [|n] eqn:Hk; [|discriminate].
    simplify_eq/=. split; [lia | reflexivity].
Qed.

Lemma last_insert k (c c' : Call) :
  <[k := c']> (replicate k Returned ++ [c]) = replicate k Returned ++ [c'].
Proof.
  rewrite insert_app_r_alt by (rewrite length_replicate; lia).
  rewrite length_replicate, Nat.sub_diag. reflexivity.
Qed.

Lemma returned_snoc k : replicate k Returned ++ [Returned] = replicate (S k) Returned.
Proof. induction k as [|k IH]; [reflexivity|]. simpl. by rewrite IH. Qed.

Lemma waiting_returned c k : waiting (mkState c (replicate k Returned)) = false.
Proof. unfold waiting. simpl. induction k as [|k IH]; [reflexivity | exact IH]. Qed.

Lemma waiting_last c k x :
  waiting (mkState c (replicate k Returned ++ [x])) = pending x.
Proof.
  unfold waiting. simpl. rewrite existsb_app. simpl. rewrite orb_false_r.
  replace (existsb pending (replicate k Returned)) with false; [reflexivity|].
  symmetry. apply (waiting_returned c k).
Qed.

Lemma pending_returned k : filter (fun c => pending c = true) (replicate k Returned) = [].
Proof.
  induction k as [|k IH]; [reflexivity|]. simpl. rewrite filter_cons.
  destruct (decide (pending Returned = true)) as [Habs|_]; [discriminate | exact IH].
Qed.

Lemma acquiring_returned c k : acquiring (mkState c (replicate k Returned)) = [].
Proof. unfold acquiring. simpl. induction k as [|k IH]; [reflexivity | exact IH]. Qed.

Lemma acquiring_last c k x :
  acquiring (mkState c (replicate k Returned ++ [x]))
  = match x with AwaitAudio (Some v) => v | _ => [] end.
Proof.
  unfold acquiring. simpl. rewrite flat_map_app. simpl. rewrite app_nil_r.
  replace (flat_map _ (replicate k Returned)) with (@nil nat); [reflexivity|].
  symmetry. apply (acquiring_returned c k).
Qed.

(** A call made while none is waiting. *)
Lemma call_wellHeld c k :
  no_leak c -> wellHeld (call (mkState c (replicate k Returned))).
Proof.
  intros Hn. exists k. right. left. split; [reflexivity|]. by apply begin_kills.
Qed.

Lemma recover_wellHeld r k :
  no_leak r.1 -> wellHeld (recover r (replicate k Returned)).
Proof.
  intros Hn. unfold recover. destruct r.2; [by apply call_wellHeld|].
  exists k. left. by split.
Qed.

Lemma step_wellHeld e st :
  wellHeld st -> passive e = true \/ waiting st = false -> wellHeld (step e st).
Proof.
  intros (k & Hst) Hadm. destruct st as [c cs]. simpl in Hst.
  destruct Hst as [[-> Hn] | [[-> Hnone] | (vs & -> & Hheld)]].
  - (* no call is waiting *)
    destruct e as [|i g|i g| | |kd|j]; cbn [step calls component].
    + by apply call_wellHeld.
    + destruct (replicate k Returned !! i) as [x|] eqn:Hi;
        [rewrite (returned_lookup _ _ _ Hi)|]; exists k; left; by split.
    + destruct (replicate k Returned !! i) as [x|] eqn:Hi;
        [rewrite (returned_lookup _ _ _ Hi)|]; exists k; left; by split.
    + exists k. left. split; [reflexivity|].
      destruct (DeviceProofs.cleanup_releases c Hn) as [Hs Hl].
      intros i Hi. by destruct (Hl i).
    + apply recover_wellHeld.
      destruct (DeviceProofs.checkTrackStatus_frame (streamRef c) c) as [Ht Hs].
      by apply (DeviceProofs.no_leak_frame c).
    + apply recover_wellHeld. by apply DeviceProofs.toggle_no_leak.
    + exists k. left. split; [reflexivity|]. by apply DeviceProofs.trackEnded_no_leak.
  - (* a call waits for the camera *)
    destruct Hadm as [Hp | Hw]; [|by rewrite waiting_last in Hw].
    destruct e as [|i g|i g| | |kd|j]; try discriminate; cbn [step calls component].
    + destruct ((replicate k Returned ++ [AwaitVideo]) !! i) as [x|] eqn:Hi.
      * destruct (last_lookup _ _ _ _ Hi) as [-> | [-> ->]].
        -- exists k. right. left. by split.
        -- rewrite last_insert. exists k. right. right.
           exists (videoSettled g c).2. split; [reflexivity|].
           intros i. by apply videoSettled_holds.
      * exists k. right. left. by split.
    + destruct ((replicate k Returned ++ [AwaitVideo]) !! i) as [x|] eqn:Hi.
      * destruct (last_lookup _ _ _ _ Hi) as [-> | [-> ->]];
          exists k; right; left; by split.
      * exists k. right. left. by split.
    + exists k. right. left. split; [reflexivity|].
      intros i Hi. apply (Hnone i). by eapply trackEnded_live.
  - (* a call waits for the microphone *)
    destruct Hadm as [Hp | Hw]; [|by rewrite waiting_last in Hw].
    destruct e as [|i g|i g| | |kd|j]; try discriminate; cbn [step calls component].
    + destruct ((replicate k Returned ++ [AwaitAudio vs]) !! i) as [x|] eqn:Hi.
      * destruct (last_lookup _ _ _ _ Hi) as [-> | [-> ->]];
          exists k; right; right; exists vs; by split.
      * exists k. right. right. exists vs. by split.
    + destruct ((replicate k Returned ++ [AwaitAudio vs]) !! i) as [x|] eqn:Hi.
      * destruct (last_lookup _ _ _ _ Hi) as [-> | [-> ->]].
        -- exists k. right. right. exists vs. by split.
        -- rewrite last_insert, returned_snoc. apply recover_wellHeld.
           by apply audioSettled_no_leak.
      * exists k. right. right. exists vs. by split.
    + exists k. right. right. exists vs. split; [reflexivity|].
      intros i Hi. apply Hheld. by eapply trackEnded_live.
Qed.

Lemma run_wellHeld evs : forall st,
  wellHeld st -> serial evs st = true -> wellHeld (run evs st).
Proof.
  induction evs as [|e evs IH]; intros st Hst Hser; [exact Hst|].
  cbn [serial] in Hser. apply andb_true_iff in Hser as [Hadm Hser].
  unfold run. cbn [foldl]. apply IH; [|exact Hser].
  apply step_wellHeld; [exact Hst|].
  apply orb_true_iff in Hadm as [Hp | Hw]; [by left | right; by apply negb_true_iff].
Qed.

Lemma initial_wellHeld : wellHeld initialState.
Proof. exists 0%nat. left. split; [reflexivity | apply DeviceProofs.initial_no_leak]. Qed.

Lemma wellHeld_oneStream st : wellHeld st -> oneStream st.
Proof.
  intros (k & Hst). destruct st as [c cs]. simpl in Hst. unfold oneStream.
  cbn [calls component].
  destruct Hst as [[-> Hn] | [[-> Hnone] | (vs & -> & Hheld)]].
  - rewrite pending_returned, waiting_returned. split; [simpl; lia | exact Hn].
  - rewrite filter_app, pending_returned, waiting_last. split.
    + rewrite filter_cons, filter_nil. by destruct (decide _).
    + intros i Hi. by destruct (Hnone i).
  - rewrite filter_app, pending_returned, waiting_last, acquiring_last. split.
    + rewrite filter_cons, filter_nil. by destruct (decide _).
    + intros i Hi. specialize (Hheld i Hi). by destruct vs.
Qed.

(** An acquisition that runs to completion is [enableDevices]. *)
Lemma completed_acquisition vg ag st :
  wellHeld st -> waiting st = false ->
  component (run [CallEnableDevices; VideoSettles (length (calls st)) vg;
                  AudioSettles (length (calls st)) ag] st)
  = (enableDevices vg ag (component st)).1.
Proof.
  intros (k & Hst) Hw. destruct st as [c cs]. simpl in Hst.
  destruct Hst as [[-> Hn] | [[-> _] | (vs & -> & _)]];
    [|by rewrite waiting_last in Hw|by rewrite waiting_last in Hw].
  unfold run. cbn [foldl step call calls component].
  rewrite length_replicate.
  assert (Hk : (replicate k Returned ++ [AwaitVideo]) !! k = Some AwaitVideo)
    by (apply list_lookup_middle; by rewrite length_replicate).
  rewrite Hk. cbn [calls component]. rewrite last_insert.
  assert (Hk' : forall x, (replicate k Returned ++ [x]) !! k = Some x)
    by (intros x; apply list_lookup_middle; by rewrite length_replicate).
  rewrite Hk'. rewrite enableDevices_phases.
  unfold recover.
  assert (Hflag : (audioSettled ag (videoSettled vg (begin c)).2 (videoSettled vg (begin c)).1).2
                  = false).
  { rewrite <- enableDevices_phases. apply DeviceProofs.enableDevices_never_recovers. }
  by rewrite Hflag.
Qed.

End AcquisitionProofs.

(** C4. As long as no operation starts while a call of [enableDevices] is
    still waiting for a device request, the controller holds at most one
    stream at any instant, whatever the sequence of acquisitions,
    releases, status checks, toggles, settled requests and track endings:
    at most one call is waiting; while one is, every live track is one it
    has been given; while none is, every live track belongs to the stream
    in [streamRef]. Then an acquisition first stops every track of the
    stream held so far, an acquisition that runs to completion is
    [enableDevices], and a release leaves no stream and no live track. *)
Theorem serial_operations_hold_one_stream :
  forall evs : list Acquisition.Event,
    Acquisition.serial evs Acquisition.initialState = true ->
    let st := Acquisition.run evs Acquisition.initialState in
    Acquisition.oneStream st /\
    (Acquisition.waiting st = false ->
     (forall i, ~ Dashboard.isLive
                  (Acquisition.component (Acquisition.step Acquisition.CallEnableDevices st)) i) /\
     (forall vg ag,
        Acquisition.component
          (Acquisition.run
             [Acquisition.CallEnableDevices;
              Acquisition.VideoSettles (length (Acquisition.calls st)) vg;
              Acquisition.AudioSettles (length (Acquisition.calls st)) ag] st)
        = (Dashboard.enableDevices vg ag (Acquisition.component st)).1) /\
     Dashboard.streamRef (Acquisition.component (Acquisition.step Acquisition.Release st))
       = None /\
     (forall i, ~ Dashboard.isLive
                  (Acquisition.component (Acquisition.step Acquisition.Release st)) i)).
Proof.
  intros evs Hser st.
  assert (Hst : Acquisition.wellHeld st)
    by (apply AcquisitionProofs.run_wellHeld;
        [apply AcquisitionProofs.initial_wellHeld | exact Hser]).
  split; [by apply AcquisitionProofs.wellHeld_oneStream|].
  intros Hw.
  assert (Hn : Dashboard.no_leak (Acquisition.component st)).
  { destruct Hst as (k & [[_ Hn] | [[Hc _] | (vs & Hc & _)]]); [exact Hn| |];
      destruct st as [c cs]; simpl in Hc; subst cs;
      by rewrite AcquisitionProofs.waiting_last in Hw. }
  split; [|split].
  - cbn [Acquisition.step Acquisition.call Acquisition.component].
    by apply AcquisitionProofs.begin_kills.
  - intros vg ag. by apply AcquisitionProofs.completed_acquisition.
  - cbn [Acquisition.step Acquisition.component].
    by apply DeviceProofs.cleanup_releases.
Qed.

Lemma serial_operations_hold_one_stream_witness :
  let st := Acquisition.run
              [Acquisition.CallEnableDevices; Acquisition.VideoSettles 0 true;
               Acquisition.AudioSettles 0 true; Acquisition.TrackEnded 0]
              Acquisition.initialState in
  Acquisition.oneStream st /\
  Dashboard.isLive (Acquisition.component st) 1 /\
  forall i,
    ~ Dashboard.isLive
        (Acquisition.component (Acquisition.step Acquisition.CallEnableDevices st)) i.
Proof.
  pose proof (serial_operations_hold_one_stream
                [Acquisition.CallEnableDevices; Acquisition.VideoSettles 0 true;
                 Acquisition.AudioSettles 0 true; Acquisition.TrackEnded 0]
                eq_refl) as [Hone Hrest].
  split; [exact Hone|]. split; [eexists; split; reflexivity|].
  exact (proj1 (Hrest eq_refl)).
Defined.

(** Without that proviso the invariant fails. Two calls of
    [enableDevices] that overlap: both stop what is held (nothing) and
    wait; the first is granted camera and microphone, then the second is.
    [streamRef] then holds the second call's tracks 2 and 3 while tracks 0
    and 1 of the first are still live and no longer reachable. And a
    release while a call waits: the cleanup finds nothing to stop, the
    requests are granted afterwards and [streamRef] holds a live stream
    after the release. *)
Lemma overlapping_acquisitions_leak :
  let overlapped :=
    Acquisition.run
      [Acquisition.CallEnableDevices; Acquisition.CallEnableDevices;
       Acquisition.VideoSettles 0 true; Acquisition.AudioSettles 0 true;
       Acquisition.VideoSettles 1 true; Acquisition.AudioSettles 1 true]
      Acquisition.initialState in
  let released :=
    Acquisition.run
      [Acquisition.CallEnableDevices; Acquisition.Release;
       Acquisition.VideoSettles 0 true; Acquisition.AudioSettles 0 true]
      Acquisition.initialState in
  (Acquisition.waiting overlapped = false /\
   Dashboard.streamRef (Acquisition.component overlapped) = Some [2%nat; 3%nat] /\
   Dashboard.isLive (Acquisition.component overlapped) 0 /\
   Dashboard.isLive (Acquisition.component overlapped) 2 /\
   ~ Acquisition.oneStream overlapped) /\
  (Dashboard.streamRef (Acquisition.component released) = Some [0%nat; 1%nat] /\
   Dashboard.isLive (Acquisition.component released) 0).
Proof.
  assert (Hlive0 : Dashboard.isLive
            (Acquisition.component
               (Acquisition.run
                  [Acquisition.CallEnableDevices; Acquisition.CallEnableDevices;
                   Acquisition.VideoSettles 0 true; Acquisition.AudioSettles 0 true;
                   Acquisition.VideoSettles 1 true; Acquisition.AudioSettles 1 true]
                  Acquisition.initialState)) 0)
    by (eexists; split; reflexivity).
  split.
  - split; [reflexivity|]. split; [reflexivity|]. split; [exact Hlive0|].
    split; [eexists; split; reflexivity|].
    intros [_ Hone]. specialize (Hone 0%nat Hlive0).
    destruct Hone as (stream & [= <-] & Hin).
    repeat (apply elem_of_cons in Hin as [Hin|Hin]; [discriminate|]). inversion Hin.
  - split; [reflexivity|]. eexists; split; reflexivity.
Qed.

(** C7. The start button fires only when both media kinds are ready: with
    [videoReady] or [audioReady] false the button is disabled and a click
    leaves the application where it was; a click that does move the flow
    from DASHBOARD to SESSION_1 implies both were ready. After an
    acquisition in which only the microphone was granted the button is
    disabled. *)
Theorem start_requires_both_kinds_ready :
  forall (now : Z) (d : Dashboard.Component) (a : App),
    (Dashboard.videoReady d = false \/ Dashboard.audioReady d = false ->
       Dashboard.allSystemsGo d = false /\ Dashboard.clickStart now d a = a) /\
    (currentStep a = DASHBOARD ->
     currentStep (Dashboard.clickStart now d a) = SESSION_1 ->
       Dashboard.videoReady d = true /\ Dashboard.audioReady d = true) /\
    (let d' := (Dashboard.enableDevices false true d).1 in
     Dashboard.videoReady d' = false /\ Dashboard.allSystemsGo d' = false /\
     Dashboard.clickStart now d' a = a).
Proof.
  intros now d a. split; [|split].
  - intros Hnot. assert (Hgo : Dashboard.allSystemsGo d = false).
    { unfold Dashboard.allSystemsGo. destruct Hnot as [-> | ->]; [reflexivity|].
      by destruct (Dashboard.videoReady d). }
    split; [exact Hgo|]. unfold Dashboard.clickStart. by rewrite Hgo.
  - intros Hdash Hstart. unfold Dashboard.clickStart in Hstart.
    destruct (Dashboard.allSystemsGo d) eqn:Hgo; [|congruence].
    unfold Dashboard.allSystemsGo in Hgo.
    destruct (Dashboard.videoReady d), (Dashboard.audioReady d); try discriminate.
    by split.
  - destruct (DeviceProofs.enableDevices_audio_only d) as (_ & _ & _ & _ & Hv & _).
    simpl. assert (Hgo : Dashboard.allSystemsGo (Dashboard.enableDevices false true d).1 = false)
      by (unfold Dashboard.allSystemsGo; by rewrite Hv).
    split; [exact Hv|]. split; [exact Hgo|].
    unfold Dashboard.clickStart. by rewrite Hgo.
Qed.

Lemma start_requires_both_kinds_ready_witness :
  Dashboard.clickStart 1
    (Dashboard.enableDevices false true Dashboard.initialComponent).1
    (mkApp (Some (mkUser "Ada" "Ada")) DASHBOARD [] false false false false emptyStorage 0)
  = mkApp (Some (mkUser "Ada" "Ada")) DASHBOARD [] false false false false emptyStorage 0.
Proof.
  apply (proj1 (start_requires_both_kinds_ready 1
                  (Dashboard.enableDevices false true Dashboard.initialComponent).1
                  (mkApp (Some (mkUser "Ada" "Ada")) DASHBOARD [] false false false false
                     emptyStorage 0))).
  left. reflexivity.
Defined.

(** * Further properties of the code *)

(** ** Login, logout and reload *)

Lemma saveRecordingsEffect_frame recs a :
  user (saveRecordingsEffect recs a) = user a /\
  recordings (saveRecordingsEffect recs a) = recordings a /\
  pendingClears (saveRecordingsEffect recs a) = pendingClears a.
Proof. unfold saveRecordingsEffect. by destruct (0 <? length recs)%nat. Qed.

Lemma breakEffect_frame now step a :
  user (breakEffect now step a) = user a /\
  recordings (breakEffect now step a) = recordings a /\
  pendingClears (breakEffect now step a) = pendingClears a /\
  vocalBoothUser (localStorage (breakEffect now step a)) = vocalBoothUser (localStorage a) /\
  vocalBoothRecordings (localStorage (breakEffect now step a))
    = vocalBoothRecordings (localStorage a).
Proof. by destruct step. Qed.

Lemma afterRender_frame now prev b a :
  user (afterRender now prev b a) = user a /\
  recordings (afterRender now prev b a) = recordings a /\
  pendingClears (afterRender now prev b a) = pendingClears a.
Proof.
  unfold afterRender.
  set (a1 := if b then saveRecordingsEffect (recordings a) a else a).
  assert (H1 : user a1 = user a /\ recordings a1 = recordings a
               /\ pendingClears a1 = pendingClears a).
  { unfold a1. destruct b; [apply saveRecordingsEffect_frame | by repeat split]. }
  destruct H1 as (Hu & Hr & Hp).
  case_decide; [by repeat split|].
  destruct (breakEffect_frame now (currentStep a1) a1) as (Hu' & Hr' & Hp' & _).
  repeat split; congruence.
Qed.

(** What the resume effect is run on at page load. *)
Lemma mount000_resume now ls :
  currentStep (Part000.mount now ls)
    = currentStep (Part000.resumeEffect (loadRecordingsEffect (initialApp ls))) /\
  user (Part000.mount now ls)
    = user (Part000.resumeEffect (loadRecordingsEffect (initialApp ls))) /\
  recordings (Part000.mount now ls)
    = recordings (Part000.resumeEffect (loadRecordingsEffect (initialApp ls))).
Proof.
  unfold Part000.mount.
  rewrite afterRender_step, breakEffect_step.
  destruct (afterRender_frame now (currentStep (initialApp ls)) (loadsRecordings ls)
              (breakEffect now (currentStep (initialApp ls))
                 (Part000.resumeEffect
                    (saveRecordingsEffect (recordings (initialApp ls))
                       (loadRecordingsEffect (initialApp ls)))))) as (Hu & Hr & _).
  rewrite Hu, Hr. repeat split; reflexivity.
Qed.

Lemma mount001_resume now ls :
  currentStep (Part001.mount now ls)
    = currentStep (Part001.resumeEffect (loadRecordingsEffect (initialApp ls))) /\
  user (Part001.mount now ls)
    = user (Part001.resumeEffect (loadRecordingsEffect (initialApp ls))) /\
  recordings (Part001.mount now ls)
    = recordings (Part001.resumeEffect (loadRecordingsEffect (initialApp ls))).
Proof.
  unfold Part001.mount.
  rewrite afterRender_step, breakEffect_step.
  destruct (afterRender_frame now (currentStep (initialApp ls)) (loadsRecordings ls)
              (breakEffect now (currentStep (initialApp ls))
                 (Part001.resumeEffect
                    (saveRecordingsEffect (recordings (initialApp ls))
                       (loadRecordingsEffect (initialApp ls)))))) as (Hu & Hr & _).
  rewrite Hu, Hr. repeat split; reflexivity.
Qed.

(** The load effect leaves the user and checkpoint keys alone and keeps a
    parseable clips record. *)
Lemma loadRecordingsEffect_storage a :
  vocalBoothUser (localStorage (loadRecordingsEffect a)) = vocalBoothUser (localStorage a) /\
  vocalBoothCurrentSession (localStorage (loadRecordingsEffect a))
    = vocalBoothCurrentSession (localStorage a) /\
  completedAll (localStorage (loadRecordingsEffect a)) = completedAll (localStorage a) /\
  user (loadRecordingsEffect a) = user a /\
  currentStep (loadRecordingsEffect a) = currentStep a.
Proof.
  unfold loadRecordingsEffect, completedAll.
  destruct (vocalBoothRecordings (localStorage a)) as [[| |l]|] eqn:Hr; simpl;
    rewrite ?Hr; repeat split; reflexivity.
Qed.

Lemma resume000_user a u :
  vocalBoothUser (localStorage a) = Some (Json u) ->
  user (Part000.resumeEffect a) = Some u.
Proof.
  intros Hu. unfold Part000.resumeEffect. rewrite Hu. simpl.
  destruct (completedAll (localStorage a)); [reflexivity|].
  destruct (vocalBoothCurrentSession (localStorage a)) as [[| |d]|]; try reflexivity.
  unfold Part000.redirect. destruct (isBreakScreen d); [reflexivity|].
  case_decide; reflexivity.
Qed.

Lemma resume001_user a u :
  vocalBoothUser (localStorage a) = Some (Json u) ->
  user (Part001.resumeEffect a) = Some u.
Proof.
  intros Hu. unfold Part001.resumeEffect. rewrite Hu. simpl.
  destruct (completedAll (localStorage a)); [reflexivity|].
  destruct (vocalBoothCurrentSession (localStorage a)) as [[| |d]|]; try reflexivity.
  unfold Part001.redirect. destruct (isBreakScreen d); [reflexivity|].
  repeat case_decide; reflexivity.
Qed.

Lemma mount_user_restored now ls u :
  vocalBoothUser ls = Some (Json u) ->
  user (Part000.mount now ls) = Some u /\ user (Part001.mount now ls) = Some u.
Proof.
  intros Hu.
  destruct (mount000_resume now ls) as (_ & H0 & _).
  destruct (mount001_resume now ls) as (_ & H1 & _).
  destruct (loadRecordingsEffect_storage (initialApp ls)) as (Hk & _).
  rewrite H0, H1. split; [apply resume000_user | apply resume001_user];
    by rewrite Hk.
Qed.

(** X1. [handleLogin] persists the user so that a reload restores the same
    user in both variants; from a storage with no clips and no checkpoint
    the reload lands on DASHBOARD. *)
Theorem login_survives_reload :
  forall (now now' : Z) (name : string) (a : App),
    let ls := localStorage (handleLogin now name a) in
    user (handleLogin now name a) = Some (mkUser name name) /\
    currentStep (handleLogin now name a) = DASHBOARD /\
    user (Part000.mount now' ls) = Some (mkUser name name) /\
    user (Part001.mount now' ls) = Some (mkUser name name) /\
    (vocalBoothRecordings (localStorage a) = None ->
     vocalBoothCurrentSession (localStorage a) = None ->
     currentStep (Part000.mount now' ls) = DASHBOARD /\
     currentStep (Part001.mount now' ls) = DASHBOARD).
Proof.
  intros now now' name a ls.
  assert (Hls : ls = setItem_User (mkUser name name) (localStorage a)).
  { unfold ls, handleLogin, afterRender. simpl. case_decide; [reflexivity|].
    unfold breakEffect. simpl. reflexivity. }
  assert (Hkey : vocalBoothUser ls = Some (Json (mkUser name name))) by (by rewrite Hls).
  destruct (mount_user_restored now' ls _ Hkey) as [H0 H1].
  split; [|split; [|split; [|split]]]; try assumption.
  - unfold handleLogin. unfold afterRender. simpl. case_decide; reflexivity.
  - unfold handleLogin. rewrite afterRender_step. reflexivity.
  - intros Hr Hc. rewrite Hls. destruct (localStorage a) as [ur rr cr].
    simpl in Hr, Hc. subst rr cr. split; reflexivity.
Qed.

Lemma login_survives_reload_witness :
  currentStep
    (Part000.mount 2 (localStorage (handleLogin 1 "Ada Lovelace" (initialApp emptyStorage))))
  = DASHBOARD.
Proof.
  exact (proj1 (proj2 (proj2 (proj2 (proj2
           (login_survives_reload 1 2 "Ada Lovelace" (initialApp emptyStorage)))))
           eq_refl eq_refl)).
Defined.

Lemma logoutState_result now a :
  logoutState now a
  = mkApp None LOGIN [] false false false false emptyStorage (pendingClears a).
Proof.
  unfold logoutState, afterRender, saveRecordingsEffect. simpl.
  case_decide; reflexivity.
Qed.

(** X2. Logout, in both variants, leaves the App without user and clips on
    LOGIN with none of the three keys in storage, whatever the state it
    starts from; the save effect that follows does not write the clips
    back, and a reload then starts on LOGIN with nothing restored. *)
Theorem logout_clears_state_and_storage :
  forall (forceGranted : bool) (now now' : Z) (p : Page.State),
    Page.app (Page.handleLogout000 forceGranted now p)
      = mkApp None LOGIN [] false false false false emptyStorage (pendingClears (Page.app p)) /\
    Page.app (Page.handleLogout001 now p)
      = mkApp None LOGIN [] false false false false emptyStorage (pendingClears (Page.app p)) /\
    Page.mediaStream (Page.handleLogout000 forceGranted now p) = None /\
    Page.mediaStream (Page.handleLogout001 now p) = None /\
    Page.dashboardMounted (Page.handleLogout000 forceGranted now p) = false /\
    Page.dashboardMounted (Page.handleLogout001 now p) = false /\
    Part000.mount now' (localStorage (Page.app (Page.handleLogout000 forceGranted now p)))
      = initialApp emptyStorage /\
    Part001.mount now' (localStorage (Page.app (Page.handleLogout001 now p)))
      = initialApp emptyStorage.
Proof.
  intros forceGranted now now' p.
  unfold Page.handleLogout000, Page.handleLogout001.
  destruct (Page.getUserMediaBoth forceGranted _) as [d3 forced].
  rewrite !logoutState_result.
  unfold Page.commit, Page.rendersDashboard, Page.unmountDashboard. simpl.
  destruct (Page.dashboardMounted p); simpl; repeat split; reflexivity.
Qed.
Lemma isLive_forEach_ended (f : Dashboard.MediaStreamTrack -> Dashboard.MediaStreamTrack)
    (stream : Dashboard.MediaStream) (d : Dashboard.Component) (i : nat) :
  (forall t, Dashboard.readyState (f t) = Dashboard.ended) ->
  Dashboard.isLive (Dashboard.forEachTrack f stream d) i ->
  Dashboard.isLive d i /\ i ∉ stream.
Proof.
  intros Hf (t & Hl & Hlive). simpl in Hl. split.
  - destruct (DeviceProofs.forEach_live_before f stream
                (DeviceProofs.ended_not_revived f Hf) _ _ _ Hl Hlive) as (t0 & Hl0 & Hlive0).
    by exists t0.
  - intros Hin. rewrite (DeviceProofs.forEach_ended f stream Hf _ _ _ Hin Hl) in Hlive.
    discriminate.
Qed.

Lemma isLive_stopAllStreams stream d i :
  Dashboard.isLive (Page.stopAllStreams stream d) i ->
  Dashboard.isLive d i /\ (forall st, stream = Some st -> i ∉ st).
Proof.
  unfold Page.stopAllStreams. destruct stream as [st|]; intros Hl.
  - apply isLive_forEach_ended in Hl as [Hl Hnin]; [|reflexivity].
    split; [exact Hl|]. by intros st' [= <-].
  - split; [exact Hl | discriminate].
Qed.

Lemma isLive_cleanup d i :
  Dashboard.isLive (Dashboard.cleanup d) i -> Dashboard.isLive d i.
Proof.
  unfold Dashboard.cleanup. destruct (Dashboard.streamRef d) as [st|]; [|done].
  intros (t & Hl & Hlive). simpl in Hl.
  destruct (DeviceProofs.forEach_live_before
              (fun t => Dashboard.setEnabled false (Dashboard.stop t)) st
              (fun t H => match H in (_ = r) return
                            match r with Dashboard.live => _ | Dashboard.ended => True end
                          with eq_refl => I end) _ _ _ Hl Hlive) as (t0 & Hl0 & Hlive0).
  by exists t0.
Qed.

(** X3. Logout in the later variant releases what the page holds: a track
    that is still live afterwards was live before and belongs neither to
    the App's stream nor to the stream of a mounted Dashboard; the tracks
    of its own forced request are ended as well. *)
Theorem logout000_stops_held_streams :
  forall (forceGranted : bool) (now : Z) (p : Page.State) (i : nat),
    Dashboard.isLive (Page.dashboard (Page.handleLogout000 forceGranted now p)) i ->
    Dashboard.isLive (Page.dashboard p) i /\
    (forall st, Page.mediaStream p = Some st -> i ∉ st) /\
    (Page.dashboardMounted p = true ->
     forall st, Dashboard.streamRef (Page.dashboard p) = Some st -> i ∉ st).
Proof.
  intros forceGranted now p i.
  unfold Page.handleLogout000.
  set (d1 := Page.stopAllStreams (Page.mediaStream p) (Page.dashboard p)).
  set (d2 := if Page.dashboardMounted p
             then Page.stopAllStreams (Dashboard.streamRef d1) d1 else d1).
  assert (Hfinal : forall d4,
            Dashboard.isLive
              (Page.dashboard (Page.commit
                 (Page.mkState (logoutState now (Page.app p)) None (Page.dashboardMounted p) d4))) i ->
            Dashboard.isLive d4 i).
  { intros d4. rewrite logoutState_result.
    unfold Page.commit, Page.rendersDashboard, Page.unmountDashboard. simpl.
    destruct (Page.dashboardMounted p); simpl; [apply isLive_cleanup | done]. }
  assert (Hd2 : Dashboard.isLive d2 i ->
            Dashboard.isLive (Page.dashboard p) i /\
            (forall st, Page.mediaStream p = Some st -> i ∉ st) /\
            (Page.dashboardMounted p = true ->
             forall st, Dashboard.streamRef (Page.dashboard p) = Some st -> i ∉ st)).
  { intros Hl.
    assert (Hsr : Dashboard.streamRef d1 = Dashboard.streamRef (Page.dashboard p)).
    { unfold d1, Page.stopAllStreams. by destruct (Page.mediaStream p). }
    unfold d2 in Hl. destruct (Page.dashboardMounted p).
    - apply isLive_stopAllStreams in Hl as [Hl Hs].
      apply isLive_stopAllStreams in Hl as [Hl Hm].
      split; [exact Hl|]. split; [exact Hm|]. intros _ st Hst. apply Hs. by rewrite Hsr.
    - apply isLive_stopAllStreams in Hl as [Hl Hm].
      split; [exact Hl|]. split; [exact Hm | discriminate]. }
  unfold Page.getUserMediaBoth. destruct forceGranted.
  - intros Hl. apply Hfinal in Hl.
    apply isLive_forEach_ended in Hl as [Hl Hnin]; [|reflexivity].
    apply Hd2. destruct Hl as (t & Hl & Hlive). simpl in Hl.
    apply lookup_app_Some in Hl as [Hl | [Hge Hl]]; [by exists t|].
    exfalso. apply Hnin.
    destruct (i - length (Dashboard.tracks d2))%nat as [|[|k]] eqn:Hk; simpl in Hl;
      [ | | discriminate ].
    + replace i with (length (Dashboard.tracks d2)) by lia. repeat constructor.
    + replace i with (S (length (Dashboard.tracks d2))) by lia. repeat constructor.
  - intros Hl. apply Hfinal in Hl. by apply Hd2.
Qed.

Lemma logout000_stops_held_streams_witness :
  ~ Dashboard.isLive
      (Page.dashboard
         (Page.handleLogout000 true 5
            (Page.clickEnableDevices true true
               (Page.load000 1
                  (mkLocalStorage (Some (Json (mkUser "Ada" "Ada"))) None None) [])))) 0.
Proof.
  intros Hl.
  destruct (logout000_stops_held_streams true 5 _ 0%nat Hl) as (_ & Hm & _).
  apply (Hm [0%nat; 1%nat] eq_refl). repeat constructor.
Defined.

(** ** The break checkpoint *)

Lemma sessionCompletes_result now objectUrl b a u n :
  user a = Some u -> renderedSession a = Some n -> n = 1 \/ n = 2 ->
  let recs := replaceRecording (mkRecording n b objectUrl (make_filename u n)) (recordings a) in
  sessionCompletes now objectUrl b a
  = mkApp (Some u) (if decide (n = 1) then BREAK_1 else BREAK_2) recs
      (videoReady a) (audioReady a) (videoEnabled a) (audioEnabled a)
      (mkLocalStorage (vocalBoothUser (localStorage a)) (Some (Json (map toSaved recs)))
         (Some (Json (mkSessionData n true now))))
      (S (pendingClears a)).
Proof.
  intros Hu Hn Hcase recs.
  assert (Hlen : (0 <? length recs)%nat = true).
  { apply Nat.ltb_lt. unfold recs, replaceRecording. rewrite length_app. simpl. lia. }
  unfold sessionCompletes. rewrite Hn.
  destruct a as [ua st rs vr ar ve ae ls pc]. simpl in Hu. subst ua.
  unfold renderedSession in Hn. simpl in Hn, recs.
  unfold onComplete, saveRecording, afterRender, saveRecordingsEffect. simpl.
  destruct Hcase as [-> | ->]; destruct st; try discriminate; simpl;
    fold recs; rewrite Hlen; reflexivity.
Qed.

(** X4. When session 1 or 2 completes with fewer than three clips in the
    list, the break step and its checkpoint are persisted at once: a reload
    right then restores the same break, in both variants. *)
Theorem break_checkpoint_resumes_break :
  forall (now now' : Z) (objectUrl : string) (b : Blob) (a : App) (u u0 : User),
    user a = Some u ->
    vocalBoothUser (localStorage a) = Some (Json u0) ->
    currentStep a = SESSION_1 \/ currentStep a = SESSION_2 ->
    let a' := sessionCompletes now objectUrl b a in
    (length (recordings a') < 3)%nat ->
    (currentStep a' = BREAK_1 \/ currentStep a' = BREAK_2) /\
    vocalBoothCurrentSession (localStorage a')
      = Some (Json (mkSessionData (if decide (currentStep a = SESSION_1) then 1 else 2) true now)) /\
    currentStep (Part000.mount now' (localStorage a')) = currentStep a' /\
    currentStep (Part001.mount now' (localStorage a')) = currentStep a'.
Proof.
  intros now now' objectUrl b a u u0 Hu Hkey Hstep a' Hlen.
  assert (Hn : exists n, renderedSession a = Some n /\ (n = 1 \/ n = 2) /\
                         (if decide (currentStep a = SESSION_1) then 1 else 2) = n).
  { unfold renderedSession. rewrite Hu.
    destruct Hstep as [-> | ->]; [exists 1 | exists 2]; by repeat split; auto. }
  destruct Hn as (n & Hn & Hcase & Hsel). rewrite Hsel.
  pose proof (sessionCompletes_result now objectUrl b a u n Hu Hn Hcase) as Heq.
  cbv zeta in Heq. fold a' in Heq.
  set (recs := replaceRecording (mkRecording n b objectUrl (make_filename u n)) (recordings a))
    in Heq.
  assert (Hrecs : recordings a' = recs) by (by rewrite Heq).
  rewrite Hrecs in Hlen.
  assert (Hnot : completedAll (localStorage a') = false).
  { rewrite Heq. unfold completedAll. cbn [localStorage vocalBoothRecordings].
    apply Nat.leb_gt. by rewrite length_map. }
  destruct (mount000_resume now' (localStorage a')) as (H0 & _).
  destruct (mount001_resume now' (localStorage a')) as (H1 & _).
  destruct (loadRecordingsEffect_storage (initialApp (localStorage a')))
    as (Hk & Hc & Hall & _ & _).
  simpl in Hk, Hc, Hall.
  rewrite H0, H1.
  unfold Part000.resumeEffect, Part001.resumeEffect.
  rewrite Hk. simpl. rewrite Hall, Hnot, Hc.
  rewrite Heq. simpl. rewrite Hkey. simpl.
  unfold Part000.redirect, Part001.redirect, resumeBreak. simpl.
  destruct Hcase as [-> | ->]; simpl; repeat split; auto.
Qed.

Lemma break_checkpoint_resumes_break_witness :
  currentStep
    (Part000.mount 9
       (localStorage
          (sessionCompletes 4 "blob:1" emptyBlob
             (mkApp (Some (mkUser "Ada" "Ada")) SESSION_1 [] true true true true
                (mkLocalStorage (Some (Json (mkUser "Ada" "Ada"))) None None) 0))))
  = BREAK_1.
Proof.
  pose proof (break_checkpoint_resumes_break 4 9 "blob:1" emptyBlob
                (mkApp (Some (mkUser "Ada" "Ada")) SESSION_1 [] true true true true
                   (mkLocalStorage (Some (Json (mkUser "Ada" "Ada"))) None None) 0)
                (mkUser "Ada" "Ada") (mkUser "Ada" "Ada") eq_refl eq_refl
                (or_introl eq_refl)) as H.
  cbv zeta in H. destruct H as (_ & _ & H0 & _); [simpl; lia|].
  exact H0.
Defined.

(** X5. The timer that [saveRecording] schedules removes the checkpoint a
    second later, the break's own checkpoint included: once it has fired, a
    reload during that break lands on DASHBOARD in both variants. *)
Theorem break_checkpoint_is_cleared_by_timer :
  forall (now now' : Z) (objectUrl : string) (b : Blob) (a : App) (u u0 : User),
    user a = Some u ->
    vocalBoothUser (localStorage a) = Some (Json u0) ->
    currentStep a = SESSION_1 \/ currentStep a = SESSION_2 ->
    let a' := fireClear (sessionCompletes now objectUrl b a) in
    (length (recordings a') < 3)%nat ->
    (currentStep a' = BREAK_1 \/ currentStep a' = BREAK_2) /\
    vocalBoothCurrentSession (localStorage a') = None /\
    currentStep (Part000.mount now' (localStorage a')) = DASHBOARD /\
    currentStep (Part001.mount now' (localStorage a')) = DASHBOARD.
Proof.
  intros now now' objectUrl b a u u0 Hu Hkey Hstep a' Hlen.
  assert (Hn : exists n, renderedSession a = Some n /\ (n = 1 \/ n = 2)).
  { unfold renderedSession. rewrite Hu.
    destruct Hstep as [-> | ->]; [exists 1 | exists 2]; by split; auto. }
  destruct Hn as (n & Hn & Hcase).
  pose proof (sessionCompletes_result now objectUrl b a u n Hu Hn Hcase) as Heq.
  cbv zeta in Heq.
  set (recs := replaceRecording (mkRecording n b objectUrl (make_filename u n)) (recordings a))
    in Heq.
  assert (Ha' : a' = mkApp (Some u) (if decide (n = 1) then BREAK_1 else BREAK_2) recs
                  (videoReady a) (audioReady a) (videoEnabled a) (audioEnabled a)
                  (mkLocalStorage (vocalBoothUser (localStorage a))
                     (Some (Json (map toSaved recs))) None)
                  (pendingClears a)).
  { unfold a'. rewrite Heq. reflexivity. }
  rewrite Ha' in Hlen. simpl in Hlen.
  assert (Hnot : completedAll (localStorage a') = false).
  { rewrite Ha'. unfold completedAll. cbn [localStorage vocalBoothRecordings].
    apply Nat.leb_gt. by rewrite length_map. }
  destruct (mount000_resume now' (localStorage a')) as (H0 & _).
  destruct (mount001_resume now' (localStorage a')) as (H1 & _).
  destruct (loadRecordingsEffect_storage (initialApp (localStorage a')))
    as (Hk & Hc & Hall & _ & _).
  simpl in Hk, Hc, Hall.
  rewrite H0, H1.
  unfold Part000.resumeEffect, Part001.resumeEffect.
  rewrite Hk. simpl. rewrite Hall, Hnot, Hc.
  rewrite Ha'. simpl. rewrite Hkey. simpl.
  destruct Hcase as [-> | ->]; simpl; repeat split; auto.
Qed.

Lemma break_checkpoint_is_cleared_witness :
  currentStep
    (Part000.mount 9
       (localStorage
          (fireClear
             (sessionCompletes 4 "blob:1" emptyBlob
                (mkApp (Some (mkUser "Ada" "Ada")) SESSION_1 [] true true true true
                   (mkLocalStorage (Some (Json (mkUser "Ada" "Ada"))) None None) 0)))))
  = DASHBOARD.
Proof.
  pose proof (break_checkpoint_is_cleared_by_timer 4 9 "blob:1" emptyBlob
                (mkApp (Some (mkUser "Ada" "Ada")) SESSION_1 [] true true true true
                   (mkLocalStorage (Some (Json (mkUser "Ada" "Ada"))) None None) 0)
                (mkUser "Ada" "Ada") (mkUser "Ada" "Ada") eq_refl eq_refl
                (or_introl eq_refl)) as H.
  cbv zeta in H. destruct H as (_ & _ & H0 & _); [simpl; lia|].
  exact H0.
Defined.
(** ** The whole exam *)

Lemma handleStartExam_result now a :
  handleStartExam now a
  = mkApp (user a) SESSION_1 (recordings a) (videoReady a) (audioReady a)
      (videoEnabled a) (audioEnabled a)
      (setItem_CurrentSession (mkSessionData 1 false now) (localStorage a)) (pendingClears a).
Proof.
  unfold handleStartExam, afterRender. cbn [currentStep setCurrentStep saveSessionState
    setLocalStorage]. case_decide; reflexivity.
Qed.

Lemma onContinue_result now u rs vr ar ve ae ls pc st n :
  (st = BREAK_1 /\ n = 2) \/ (st = BREAK_2 /\ n = 3) ->
  onContinue now (mkApp u st rs vr ar ve ae ls pc)
  = mkApp u (if decide (n = 2) then SESSION_2 else SESSION_3) rs vr ar ve ae
      (setItem_CurrentSession (mkSessionData n false now) ls) pc.
Proof. intros [[-> ->] | [-> ->]]; reflexivity. Qed.

Lemma sessionCompletes_session3 now objectUrl b u rs vr ar ve ae ls pc :
  let recs := replaceRecording (mkRecording 3 b objectUrl (make_filename u 3)) rs in
  sessionCompletes now objectUrl b (mkApp (Some u) SESSION_3 rs vr ar ve ae ls pc)
  = mkApp (Some u) COMPLETION recs vr ar ve ae
      (setItem_Recordings (map toSaved recs) ls) (S pc).
Proof.
  intros recs.
  assert (Hlen : (0 <? length recs)%nat = true).
  { apply Nat.ltb_lt. unfold recs, replaceRecording. rewrite length_app. simpl. lia. }
  unfold sessionCompletes, renderedSession, onComplete, saveRecording, afterRender,
    saveRecordingsEffect. simpl. fold recs. rewrite Hlen. reflexivity.
Qed.

(** X6. Start, finish session 1, continue, finish session 2, continue,
    finish session 3: the flow ends on COMPLETION, the list holds the clips
    kept from other sessions followed by the three new clips in order, the
    persisted record mirrors the list, and with a persisted user a reload
    restores COMPLETION in both variants. *)
Theorem three_sessions_reach_completion :
  forall (now now' : Z) (url1 url2 url3 : string) (b1 b2 b3 : Blob) (a : App) (u : User),
    user a = Some u ->
    let final :=
      sessionCompletes now url3 b3
        (onContinue now
           (sessionCompletes now url2 b2
              (onContinue now
                 (sessionCompletes now url1 b1 (handleStartExam now a))))) in
    currentStep final = COMPLETION /\
    recordings final
      = filter (fun r => sessionId r ≠ 3)
          (filter (fun r => sessionId r ≠ 2)
             (filter (fun r => sessionId r ≠ 1) (recordings a)))
        ++ [mkRecording 1 b1 url1 (make_filename u 1);
            mkRecording 2 b2 url2 (make_filename u 2);
            mkRecording 3 b3 url3 (make_filename u 3)] /\
    vocalBoothRecordings (localStorage final) = Some (Json (map toSaved (recordings final))) /\
    (forall u0, vocalBoothUser (localStorage a) = Some (Json u0) ->
       currentStep (Part000.mount now' (localStorage final)) = COMPLETION /\
       currentStep (Part001.mount now' (localStorage final)) = COMPLETION).
Proof.
  intros now now' url1 url2 url3 b1 b2 b3 a u Hu final.
  set (r1 := mkRecording 1 b1 url1 (make_filename u 1)).
  set (r2 := mkRecording 2 b2 url2 (make_filename u 2)).
  set (r3 := mkRecording 3 b3 url3 (make_filename u 3)).
  set (kept := filter (fun r => sessionId r ≠ 3)
                 (filter (fun r => sessionId r ≠ 2)
                    (filter (fun r => sessionId r ≠ 1) (recordings a)))).
  assert (Hrecs : replaceRecording r3 (replaceRecording r2 (replaceRecording r1 (recordings a)))
                  = kept ++ [r1; r2; r3]).
  { unfold replaceRecording, kept. simpl.
    rewrite !filter_app. simpl.
    rewrite !(filter_cons _ r1), !(filter_cons _ r2), !filter_nil. simpl.
    repeat case_decide; try done.
    rewrite <- !app_assoc. reflexivity. }
  assert (Hfinal : exists ls',
            final = mkApp (Some u) COMPLETION (kept ++ [r1; r2; r3])
                      (videoReady a) (audioReady a) (videoEnabled a) (audioEnabled a)
                      ls' (S (S (S (pendingClears a)))) /\
            vocalBoothUser ls' = vocalBoothUser (localStorage a) /\
            vocalBoothRecordings ls' = Some (Json (map toSaved (kept ++ [r1; r2; r3])))).
  { unfold final. clear final. destruct a as [ua st rs vr ar ve ae ls pc].
    simpl in Hu. subst ua. cbn [recordings] in kept, Hrecs.
    rewrite handleStartExam_result.
    cbn [user recordings videoReady audioReady videoEnabled audioEnabled localStorage
         pendingClears].
    erewrite (sessionCompletes_result now url1 b1); [|reflexivity|reflexivity|by left].
    cbn [recordings videoReady audioReady videoEnabled audioEnabled localStorage
         pendingClears]. fold r1.
    rewrite (onContinue_result now _ _ _ _ _ _ _ _ BREAK_1 2) by (left; by split).
    erewrite (sessionCompletes_result now url2 b2); [|reflexivity|reflexivity|by right].
    cbn [recordings videoReady audioReady videoEnabled audioEnabled localStorage
         pendingClears]. fold r2.
    rewrite (onContinue_result now _ _ _ _ _ _ _ _ BREAK_2 3) by (right; by split).
    rewrite sessionCompletes_session3. fold r3. rewrite Hrecs.
    eexists. split; [reflexivity|]. split; reflexivity. }
  destruct Hfinal as (ls' & Hfinal & Hkey' & Hrec').
  rewrite Hfinal. cbn [currentStep recordings localStorage].
  split; [reflexivity|]. split; [reflexivity|]. split; [exact Hrec'|].
  intros u0 Hkey.
  assert (Hall : completedAll ls' = true).
  { apply (completedAll_true ls' (map toSaved (kept ++ [r1; r2; r3]))); [exact Hrec'|].
    rewrite length_map, length_app. simpl. lia. }
  destruct (mount000_resume now' ls') as (H0 & _).
  destruct (mount001_resume now' ls') as (H1 & _).
  destruct (loadRecordingsEffect_storage (initialApp ls')) as (Hk & _ & Hc & _).
  cbn [localStorage initialApp] in Hk, Hc.
  rewrite H0, H1. unfold Part000.resumeEffect, Part001.resumeEffect.
  rewrite Hk, Hkey', Hkey.
  cbn [localStorage setUser]. rewrite Hc, Hall.
  split; reflexivity.
Qed.

Lemma three_sessions_reach_completion_witness :
  currentStep
    (sessionCompletes 1 "u3" emptyBlob
       (onContinue 1
          (sessionCompletes 1 "u2" emptyBlob
             (onContinue 1
                (sessionCompletes 1 "u1" emptyBlob
                   (handleStartExam 1
                      (mkApp (Some (mkUser "Ada" "Ada")) DASHBOARD [] true true true true
                         emptyStorage 0)))))))
  = COMPLETION.
Proof.
  exact (proj1 (three_sessions_reach_completion 1 2 "u1" "u2" "u3"
                  emptyBlob emptyBlob emptyBlob
                  (mkApp (Some (mkUser "Ada" "Ada")) DASHBOARD [] true true true true
                     emptyStorage 0)
                  (mkUser "Ada" "Ada") eq_refl)).
Defined.

(** ** Persisted clips *)

(** X7. A clip written by the save effect and read back by the load effect
    keeps its session number, url and filename, but not its bytes: the
    stored [blobData] is empty, so every reloaded blob has size 0. *)
Theorem persisted_clips_lose_their_bytes :
  forall (recs : list Recording) (a : App),
    recs <> [] ->
    let reloaded :=
      recordings (loadRecordingsEffect
                    (initialApp (localStorage (saveRecordingsEffect recs a)))) in
    map sessionId reloaded = map sessionId recs /\
    map url reloaded = map url recs /\
    map filename reloaded = map filename recs /\
    Forall (fun r => size (blob r) = 0%nat) reloaded.
Proof.
  intros recs a Hne reloaded.
  assert (Hre : reloaded = map restore (map toSaved recs)).
  { unfold reloaded, saveRecordingsEffect.
    destruct recs as [|r recs]; [done|]. reflexivity. }
  rewrite Hre. rewrite !map_map.
  repeat split; try reflexivity.
  apply Forall_forall. intros r Hin.
  apply list_elem_of_fmap in Hin as (r0 & -> & _). reflexivity.
Qed.

Lemma persisted_clips_lose_their_bytes_witness :
  Forall (fun r => size (blob r) = 0%nat)
    (recordings
       (loadRecordingsEffect
          (initialApp
             (localStorage
                (saveRecordingsEffect
                   [mkRecording 1 (new_Blob [PartData [1; 2; 3]]) "blob:1" "f.webm"]
                   (initialApp emptyStorage)))))).
Proof.
  apply (persisted_clips_lose_their_bytes
           [mkRecording 1 (new_Blob [PartData [1; 2; 3]]) "blob:1" "f.webm"]
           (initialApp emptyStorage)).
  discriminate.
Defined.
(** ** The two resume variants *)

Lemma mount_same_resume now ls :
  Part000.resumeEffect (loadRecordingsEffect (initialApp ls))
    = Part001.resumeEffect (loadRecordingsEffect (initialApp ls)) ->
  Part000.mount now ls = Part001.mount now ls.
Proof.
  intros H. unfold Part000.mount, Part001.mount.
  change (saveRecordingsEffect (recordings (initialApp ls)) (loadRecordingsEffect (initialApp ls)))
    with (loadRecordingsEffect (initialApp ls)).
  by rewrite H.
Qed.

(** X8. Apart from records that do not parse and from a checkpoint of a
    session in progress, the two variants resume alike: when the user
    record is absent, empty or parses, and either three clips are stored
    or the checkpoint is absent, empty, a break checkpoint, or a checkpoint
    whose session number is below 0 or above 3, both page loads give the
    same state. A checkpoint without the break flag whose session number
    is 0 is where they still differ: with a stored user and fewer than
    three clips the later variant stays on LOGIN and the earlier one goes
    to DASHBOARD, both with the user restored. *)
Theorem resume_variants_agree_elsewhere :
  forall (now : Z) (ls : LocalStorage),
    (vocalBoothUser ls <> Some Malformed ->
     (completedAll ls = true \/
      match vocalBoothCurrentSession ls with
      | Some Malformed => False
      | Some (Json d) =>
          isBreakScreen d = true \/ sessionNumber d < 0 \/ 3 < sessionNumber d
      | Some Blank | None => True
      end) ->
     Part000.mount now ls = Part001.mount now ls) /\
    (forall (u : User) (d : SessionData),
       vocalBoothUser ls = Some (Json u) ->
       completedAll ls = false ->
       vocalBoothCurrentSession ls = Some (Json d) ->
       isBreakScreen d = false ->
       sessionNumber d = 0 ->
       currentStep (Part000.mount now ls) = LOGIN /\
       currentStep (Part001.mount now ls) = DASHBOARD /\
       user (Part000.mount now ls) = Some u /\
       user (Part001.mount now ls) = Some u).
Proof.
  intros now ls.
  destruct (loadRecordingsEffect_storage (initialApp ls)) as (Hk & Hc & Hall & _ & Hstep).
  cbn [localStorage initialApp] in Hk, Hc, Hall.
  split.
  - intros Huser Hcond. apply mount_same_resume.
    unfold Part000.resumeEffect, Part001.resumeEffect.
    rewrite Hk.
    destruct (vocalBoothUser ls) as [[| |u]|]; try reflexivity; [done|].
    cbn [localStorage setUser]. rewrite Hall, Hc.
    destruct (completedAll ls); [reflexivity|].
    destruct Hcond as [Habs | Hcond]; [discriminate|].
    destruct (vocalBoothCurrentSession ls) as [[| |d]|]; try reflexivity; [done|].
    unfold Part000.redirect, Part001.redirect.
    destruct (isBreakScreen d); [reflexivity|].
    destruct Hcond as [Habs | Hn]; [discriminate|].
    repeat case_decide; try reflexivity; lia.
  - intros u d Hu Hnot Hd Hb Hn.
    destruct (mount000_resume now ls) as (H0 & _).
    destruct (mount001_resume now ls) as (H1 & _).
    destruct (mount_user_restored now ls u Hu) as [Hu0 Hu1].
    rewrite H0, H1. unfold Part000.resumeEffect, Part001.resumeEffect.
    rewrite Hk, Hu. cbn [localStorage setUser]. rewrite Hall, Hnot, Hc, Hd.
    unfold Part000.redirect, Part001.redirect. rewrite Hb, Hn.
    repeat case_decide; try lia.
    cbn [resetDeviceStates setUser setCurrentStep currentStep]. rewrite Hstep.
    repeat split; assumption.
Qed.

Lemma resume_variants_agree_witness :
  Part000.mount 3
    (mkLocalStorage (Some (Json (mkUser "Ada" "Ada"))) None
       (Some (Json (mkSessionData 2 true 1))))
  = Part001.mount 3
      (mkLocalStorage (Some (Json (mkUser "Ada" "Ada"))) None
         (Some (Json (mkSessionData 2 true 1)))) /\
  currentStep
    (Part000.mount 3
       (mkLocalStorage (Some (Json (mkUser "Ada" "Ada"))) None
          (Some (Json (mkSessionData 0 false 1))))) = LOGIN /\
  currentStep
    (Part001.mount 3
       (mkLocalStorage (Some (Json (mkUser "Ada" "Ada"))) None
          (Some (Json (mkSessionData 0 false 1))))) = DASHBOARD.
Proof.
  split.
  - apply (proj1 (resume_variants_agree_elsewhere 3
                    (mkLocalStorage (Some (Json (mkUser "Ada" "Ada"))) None
                       (Some (Json (mkSessionData 2 true 1)))))).
    + discriminate.
    + right. left. reflexivity.
  - destruct (proj2 (resume_variants_agree_elsewhere 3
                       (mkLocalStorage (Some (Json (mkUser "Ada" "Ada"))) None
                          (Some (Json (mkSessionData 0 false 1)))))
                (mkUser "Ada" "Ada") (mkSessionData 0 false 1)
                eq_refl eq_refl eq_refl eq_refl eq_refl) as (H0 & H1 & _).
    split; [exact H0 | exact H1].
Defined.

(** X9. A user record that does not parse: the later variant stays on
    LOGIN, the earlier one moves to DASHBOARD, both without a user and with
    the user and checkpoint keys removed. In both, a parseable non-empty
    clips record is in storage again after the page load, because the save
    effect writes the loaded clips back; in the later variant this undoes
    the removal done by its catch block. *)
Theorem corrupted_user_record_handling :
  forall (now : Z) (clipsRecord : option (Stored (list SavedRecording)))
         (checkpoint : option (Stored SessionData)),
    let ls := mkLocalStorage (Some Malformed) clipsRecord checkpoint in
    let a0 := Part000.mount now ls in
    let a1 := Part001.mount now ls in
    (currentStep a0 = LOGIN /\ currentStep a1 = DASHBOARD) /\
    (user a0 = None /\ user a1 = None) /\
    (vocalBoothUser (localStorage a0) = None /\
     vocalBoothUser (localStorage a1) = None) /\
    (vocalBoothCurrentSession (localStorage a0) = None /\
     vocalBoothCurrentSession (localStorage a1) = None) /\
    (forall clips, clipsRecord = Some (Json clips) -> clips <> [] ->
       vocalBoothRecordings (localStorage a0) = Some (Json (map toSaved (map restore clips))) /\
       vocalBoothRecordings (localStorage a1) = Some (Json (map toSaved (map restore clips))) /\
       recordings a0 = map restore clips) /\
    (clipsRecord = None -> vocalBoothRecordings (localStorage a0) = None).
Proof.
  intros now clipsRecord checkpoint ls a0 a1. subst a0 a1 ls.
  unfold Part000.mount, Part001.mount, Part000.resumeEffect, Part001.resumeEffect.
  destruct clipsRecord as [[| |clips]|]; simpl.
  1,2,4: repeat split; try reflexivity; intros; discriminate.
  destruct clips as [|c clips]; simpl.
  - repeat split; try reflexivity; try (intros; discriminate).
    all: repeat match goal with
                | H : Some (Json _) = Some (Json _) |- _ => injection H as <-
                end; try reflexivity; congruence.
  - repeat split; try reflexivity; try (intros; discriminate).
    all: repeat match goal with
                | H : Some (Json _) = Some (Json _) |- _ => injection H as <-
                end; reflexivity.
Qed.

Lemma corrupted_user_record_witness :
  vocalBoothRecordings
    (localStorage
       (Part000.mount 1
          (mkLocalStorage (Some Malformed)
             (Some (Json [mkSavedRecording 1 "u" "f" [7]])) None)))
  = Some (Json [mkSavedRecording 1 "u" "f" []]).
Proof.
  exact (proj1 (proj1 (proj2 (proj2 (proj2 (proj2
           (corrupted_user_record_handling 1
              (Some (Json [mkSavedRecording 1 "u" "f" [7]])) None)))))
           [mkSavedRecording 1 "u" "f" [7]] eq_refl ltac:(discriminate))).
Defined.
(** ** File names *)

Module FileNames.

Ltac byte_facts :=
  unfold is_whitespace, is_whitespace2, is_whitespace3, is_continuation in *;
  cbv zeta in *;
  repeat match goal with
         | H : _ = false |- _ => apply not_true_iff_false in H
         | |- _ = false => apply not_true_iff_false
         end;
  repeat first [ rewrite andb_true_iff in * | rewrite orb_true_iff in *
               | rewrite Nat.eqb_eq in * | rewrite Nat.leb_le in * | rewrite Nat.ltb_lt in * ];
  lia.

Lemma app_cons c (w t : string) : String c w +:+ t = String c (w +:+ t).
Proof. reflexivity. Qed.

Lemma app_empty (t : string) : EmptyString +:+ t = t.
Proof. reflexivity. Qed.

Ltac unfold_app := rewrite ?app_cons, ?app_empty.

Lemma ws2_continuation c1 c2 : is_continuation c2 = false -> is_whitespace2 c1 c2 = false.
Proof. intros H. byte_facts. Qed.

Lemma ws3_continuation2 c1 c2 c3 :
  is_continuation c2 = false -> is_whitespace3 c1 c2 c3 = false.
Proof. intros H. byte_facts. Qed.

Lemma ws3_continuation3 c1 c2 c3 :
  is_continuation c3 = false -> is_whitespace3 c1 c2 c3 = false.
Proof. intros H. byte_facts. Qed.

Lemma ws1_first c : is_whitespace c = true -> is_continuation c = false.
Proof. intros H. byte_facts. Qed.

Lemma ws2_first c1 c2 : is_whitespace2 c1 c2 = true -> is_continuation c1 = false.
Proof. intros H. byte_facts. Qed.

Lemma ws3_first c1 c2 c3 : is_whitespace3 c1 c2 c3 = true -> is_continuation c1 = false.
Proof. intros H. byte_facts. Qed.

(** A byte below C2 that is not one-byte whitespace starts no whitespace. *)
Lemma starts_low c r :
  is_whitespace c = false -> (Ascii.nat_of_ascii c <? 194)%nat = true ->
  starts_with_whitespace (String c r) = false.
Proof.
  intros Hw Hc. destruct r as [|c2 [|c3 r]]; cbn [starts_with_whitespace];
    (apply orb_false_iff; split; [exact Hw|]); [reflexivity| |].
  - apply orb_false_iff. split; [byte_facts | reflexivity].
  - apply orb_false_iff. split; byte_facts.
Qed.

Lemma starts_underscore r : starts_with_whitespace (String (Ascii.ascii_of_nat 95) r) = false.
Proof. by apply starts_low. Qed.

(** What [starts_with_whitespace] says about the three tests. *)
Lemma starts_false1 c1 r : starts_with_whitespace (String c1 r) = false -> is_whitespace c1 = false.
Proof. cbn [starts_with_whitespace]. intros H. by apply orb_false_iff in H as [? _]. Qed.

Lemma starts_false2 c1 c2 r :
  starts_with_whitespace (String c1 (String c2 r)) = false -> is_whitespace2 c1 c2 = false.
Proof.
  cbn [starts_with_whitespace]. intros H.
  apply orb_false_iff in H as [_ H]. by apply orb_false_iff in H as [? _].
Qed.

Lemma starts_false3 c1 c2 c3 r :
  starts_with_whitespace (String c1 (String c2 (String c3 r))) = false ->
  is_whitespace3 c1 c2 c3 = false.
Proof.
  cbn [starts_with_whitespace]. intros H.
  apply orb_false_iff in H as [_ H]. by apply orb_false_iff in H as [_ ?].
Qed.

(** A string that starts with whitespace starts at a character. *)
Lemma starts_true_boundary s :
  starts_with_whitespace s = true -> starts_at_character s = true.
Proof.
  destruct s as [|c1 r1]; [discriminate|]. cbn [starts_with_whitespace starts_at_character].
  intros H. apply negb_true_iff.
  apply orb_true_iff in H as [H|H]; [by apply ws1_first|].
  destruct r1 as [|c2 r2]; [discriminate|].
  apply orb_true_iff in H as [H|H]; [by apply (ws2_first c1 c2)|].
  destruct r2 as [|c3 r3]; [discriminate|]. by apply (ws3_first c1 c2 c3).
Qed.

(** The two ways [replace_whitespace] goes on. *)
Lemma replace_keep b c1 r1 :
  starts_with_whitespace (String c1 r1) = false ->
  replace_whitespace b (String c1 r1) = String c1 (replace_whitespace false r1).
Proof.
  intros H. cbn [replace_whitespace]. rewrite (starts_false1 _ _ H).
  destruct r1 as [|c2 r2]; [reflexivity|]. rewrite (starts_false2 _ _ _ H).
  destruct r2 as [|c3 r3]; [reflexivity|]. by rewrite (starts_false3 _ _ _ _ H).
Qed.

Lemma replace_skip b s :
  starts_with_whitespace s = true ->
  exists r, (String.length r < String.length s)%nat /\
            replace_whitespace b s
            = if b then replace_whitespace true r
              else String (Ascii.ascii_of_nat 95) (replace_whitespace true r).
Proof.
  destruct s as [|c1 r1]; [discriminate|]. cbn [starts_with_whitespace replace_whitespace].
  destruct (is_whitespace c1).
  { intros _. exists r1. split; [simpl; lia | by destruct b]. }
  destruct r1 as [|c2 r2]; [discriminate|].
  destruct (is_whitespace2 c1 c2).
  { intros _. exists r2. split; [simpl; lia | by destruct b]. }
  destruct r2 as [|c3 r3]; [discriminate|].
  destruct (is_whitespace3 c1 c2 c3); [|discriminate].
  intros _. exists r3. split; [simpl; lia | by destruct b].
Qed.

(** How the result begins. *)
Lemma replace_false_shape s :
  s = EmptyString
  \/ (exists t, replace_whitespace false s = String (Ascii.ascii_of_nat 95) t)
  \/ (exists c r, s = String c r /\ starts_with_whitespace s = false /\
                  replace_whitespace false s = String c (replace_whitespace false r)).
Proof.
  destruct s as [|c r]; [by left|]. right.
  destruct (starts_with_whitespace (String c r)) eqn:Hs.
  - left. destruct (replace_skip false _ Hs) as (t & _ & ->). eauto.
  - right. exists c, r. by rewrite (replace_keep _ _ _ Hs).
Qed.

(** A kept byte does not become the start of whitespace. *)
Lemma starts_after_replace c1 r1 :
  starts_with_whitespace (String c1 r1) = false ->
  starts_with_whitespace (String c1 (replace_whitespace false r1)) = false.
Proof.
  intros H. pose proof (starts_false1 _ _ H) as H1.
  destruct (replace_false_shape r1) as [-> | [(t & ->) | (c2 & r2 & -> & Hs2 & ->)]].
  - exact H.
  - destruct t; cbn [starts_with_whitespace];
      (apply orb_false_iff; split; [exact H1|]);
      (apply orb_false_iff; split; [by apply ws2_continuation|]);
      [reflexivity | by apply ws3_continuation2].
  - pose proof (starts_false2 _ _ _ H) as H2.
    destruct (replace_false_shape r2) as [-> | [(t & ->) | (c3 & r3 & -> & _ & ->)]];
      cbn [starts_with_whitespace replace_whitespace];
      (apply orb_false_iff; split; [exact H1|]);
      (apply orb_false_iff; split; [exact H2|]).
    + reflexivity.
    + by apply ws3_continuation3.
    + exact (starts_false3 _ _ _ _ H).
Qed.

Lemma replace_whitespace_clean_n n : forall s b,
  (String.length s <= n)%nat -> has_whitespace (replace_whitespace b s) = false.
Proof.
  induction n as [|n IH]; intros s b Hn.
  - destruct s; [reflexivity | simpl in Hn; lia].
  - destruct s as [|c1 r1]; [reflexivity|].
    destruct (starts_with_whitespace (String c1 r1)) eqn:Hs.
    + destruct (replace_skip b _ Hs) as (r & Hlen & ->).
      assert (Hr : has_whitespace (replace_whitespace true r) = false)
        by (apply IH; lia).
      destruct b; [exact Hr|].
      cbn [has_whitespace]. by rewrite starts_underscore, Hr.
    + rewrite (replace_keep _ _ _ Hs). cbn [has_whitespace].
      rewrite (starts_after_replace _ _ Hs). apply IH. simpl in Hn. lia.
Qed.

Lemma replace_whitespace_clean s b : has_whitespace (replace_whitespace b s) = false.
Proof. by apply (replace_whitespace_clean_n (String.length s)). Qed.

Lemma replace_whitespace_id s : forall b,
  has_whitespace s = false -> replace_whitespace b s = s.
Proof.
  induction s as [|c s IH]; intros b H; [reflexivity|].
  cbn [has_whitespace] in H. apply orb_false_iff in H as [Hs Hr].
  rewrite (replace_keep _ _ _ Hs). f_equal. by apply IH.
Qed.

(** Appending at a character boundary creates no whitespace. *)
Lemma starts_app c1 w t :
  starts_with_whitespace (String c1 w) = false -> starts_at_character t = true ->
  starts_with_whitespace (String c1 (w +:+ t)) = false.
Proof.
  intros H Ht. pose proof (starts_false1 _ _ H) as H1.
  assert (Hhead : forall c r, t = String c r -> is_continuation c = false).
  { intros c r ->. by apply negb_true_iff in Ht. }
  destruct w as [|c2 [|c3 w]].
  - unfold_app. destruct t as [|c [|c' r]]; cbn [starts_with_whitespace];
      [by rewrite H1| |].
    + apply orb_false_iff. split; [exact H1|].
      apply orb_false_iff. split; [|reflexivity].
      apply ws2_continuation. by eapply Hhead.
    + apply orb_false_iff. split; [exact H1|].
      apply orb_false_iff. split; [apply ws2_continuation | apply ws3_continuation2];
        by eapply Hhead.
  - pose proof (starts_false2 _ _ _ H) as H2.
    unfold_app. destruct t as [|c r]; cbn [starts_with_whitespace].
    + exact H.
    + apply orb_false_iff. split; [exact H1|].
      apply orb_false_iff. split; [exact H2|].
      apply ws3_continuation3. by eapply Hhead.
  - exact H.
Qed.

Lemma has_whitespace_app w t :
  has_whitespace w = false -> has_whitespace t = false -> starts_at_character t = true ->
  has_whitespace (w +:+ t) = false.
Proof.
  intros Hw Ht Hb. induction w as [|c w IH]; [exact Ht|].
  cbn [has_whitespace] in Hw. apply orb_false_iff in Hw as [Hs Hr].
  unfold_app. cbn [has_whitespace]. by rewrite (starts_app _ _ _ Hs Hb), (IH Hr).
Qed.

(** Text without whitespace is kept, up to the next character. *)
Lemma replace_word w t :
  has_whitespace w = false -> starts_at_character t = true ->
  replace_whitespace false (w +:+ t) = w +:+ replace_whitespace false t.
Proof.
  intros Hw Hb. induction w as [|c w IH]; [reflexivity|].
  cbn [has_whitespace] in Hw. apply orb_false_iff in Hw as [Hs Hr].
  unfold_app. rewrite (replace_keep _ _ _ (starts_app _ _ _ Hs Hb)). by rewrite (IH Hr).
Qed.

(** A run of whitespace is consumed whole. *)
Lemma replace_run_n n : forall ws rest,
  (String.length ws <= n)%nat -> all_whitespace ws = true ->
  replace_whitespace true (ws +:+ rest) = replace_whitespace true rest.
Proof.
  induction n as [|n IH]; intros ws rest Hn Hall.
  - destruct ws; [reflexivity | simpl in Hn; lia].
  - destruct ws as [|c1 r1]; [reflexivity|]. simpl in Hn.
    cbn [all_whitespace] in Hall. unfold_app. cbn [replace_whitespace].
    destruct (is_whitespace c1); [apply IH; [lia | exact Hall]|].
    destruct r1 as [|c2 r2]; [discriminate|]. simpl in Hn. unfold_app.
    destruct (is_whitespace2 c1 c2); [apply IH; [lia | exact Hall]|].
    destruct r2 as [|c3 r3]; [discriminate|]. simpl in Hn. unfold_app.
    apply andb_true_iff in Hall as [H3 Hall]. rewrite H3.
    apply IH; [lia | exact Hall].
Qed.

Lemma all_whitespace_starts ws rest :
  ws <> EmptyString -> all_whitespace ws = true ->
  starts_with_whitespace (ws +:+ rest) = true.
Proof.
  destruct ws as [|c1 r1]; [done|]. intros _. unfold_app.
  cbn [all_whitespace starts_with_whitespace].
  destruct (is_whitespace c1); [reflexivity|].
  destruct r1 as [|c2 r2]; [discriminate|]. unfold_app.
  destruct (is_whitespace2 c1 c2); [reflexivity|].
  destruct r2 as [|c3 r3]; [discriminate|]. unfold_app.
  intros H. apply andb_true_iff in H as [H _]. by rewrite H.
Qed.

Lemma replace_run ws rest :
  ws <> EmptyString -> all_whitespace ws = true ->
  replace_whitespace false (ws +:+ rest)
  = String (Ascii.ascii_of_nat 95) (replace_whitespace true rest).
Proof.
  intros Hne Hall.
  destruct ws as [|c1 r1]; [done|].
  pose proof (replace_run_n (String.length (String c1 r1)) (String c1 r1) rest
                (Nat.le_refl _) Hall) as Hrun.
  revert Hrun. cbn [all_whitespace] in Hall. unfold_app. cbn [replace_whitespace].
  destruct (is_whitespace c1); [by intros ->|].
  destruct r1 as [|c2 r2]; [discriminate|]. unfold_app.
  destruct (is_whitespace2 c1 c2); [by intros ->|].
  destruct r2 as [|c3 r3]; [discriminate|]. unfold_app.
  apply andb_true_iff in Hall as [H3 Hall]. rewrite H3. by intros ->.
Qed.

Lemma replace_after_run rest :
  starts_with_whitespace rest = false ->
  replace_whitespace true rest = replace_whitespace false rest.
Proof.
  destruct rest as [|c r]; [reflexivity|]. intros H. by rewrite !(replace_keep _ _ _ H).
Qed.

Lemma string_app_assoc (a b c : string) : (a +:+ b) +:+ c = a +:+ (b +:+ c).
Proof. induction a as [|x a IH]; [reflexivity|]. rewrite !app_cons. by rewrite IH. Qed.

Lemma string_of_uint_plain d :
  has_whitespace (NilEmpty.string_of_uint d) = false /\
  starts_at_character (NilEmpty.string_of_uint d) = true.
Proof.
  induction d as [|d [IH _]|d [IH _]|d [IH _]|d [IH _]|d [IH _]|d [IH _]|d [IH _]
                  |d [IH _]|d [IH _]|d [IH _]];
    (split; [|reflexivity]);
    try reflexivity;
    cbn [NilEmpty.string_of_uint has_whitespace]; rewrite IH, starts_low; reflexivity.
Qed.

Lemma Z_to_string_plain n :
  has_whitespace (Z_to_string n) = false /\ starts_at_character (Z_to_string n) = true.
Proof.
  unfold Z_to_string, NilZero.string_of_int, NilZero.string_of_uint.
  destruct (Z.to_int n) as [d|d].
  - destruct d; try (split; reflexivity); apply string_of_uint_plain.
  - split; [|reflexivity].
    cbn [has_whitespace]. rewrite starts_low by reflexivity.
    destruct d; try reflexivity; apply string_of_uint_plain.
Qed.

(** What follows the name in [make_filename]. *)
Lemma suffix_plain sid :
  has_whitespace ("_Session_" +:+ Z_to_string sid +:+ ".webm") = false /\
  starts_at_character ("_Session_" +:+ Z_to_string sid +:+ ".webm") = true.
Proof.
  destruct (Z_to_string_plain sid) as [Hz Hb].
  split; [|reflexivity].
  apply (has_whitespace_app "_Session_"); [reflexivity| |].
  - apply has_whitespace_app; [exact Hz | reflexivity | reflexivity].
  - destruct (Z_to_string sid); [reflexivity | exact Hb].
Qed.

(** "Ada", U+00A0, U+3000, tab, "B", U+200B (no whitespace), U+FEFF, "c". *)
Example replace_whitespace_beyond_ascii :
  let b (n : nat) := Ascii.ascii_of_nat n in
  let str := foldr String EmptyString in
  replace_whitespace false
    (str [b 65%nat; b 100%nat; b 97%nat; b 194%nat; b 160%nat; b 227%nat; b 128%nat; b 128%nat; b 9%nat; b 66%nat;
          b 226%nat; b 128%nat; b 139%nat; b 239%nat; b 187%nat; b 191%nat; b 99%nat])
  = str [b 65%nat; b 100%nat; b 97%nat; b 95%nat; b 66%nat; b 226%nat; b 128%nat; b 139%nat; b 95%nat; b 99%nat].
Proof. reflexivity. Qed.

End FileNames.

(** X10. The file name given to a clip never contains whitespace, whatever
    the user's name is, and every run of whitespace in the name has become
    exactly one underscore: a name that is a part without whitespace, then
    a run of whitespace, then a rest that starts with none gives that
    part, one underscore and the file name of the rest. Replacing again
    changes nothing, and a name without whitespace is kept as it is. *)
Theorem filename_has_no_whitespace :
  forall (u : User) (sid : Z),
    has_whitespace (make_filename u sid) = false /\
    (forall w ws rest : string,
       fullName u = w +:+ ws +:+ rest ->
       has_whitespace w = false ->
       ws <> EmptyString -> all_whitespace ws = true ->
       starts_with_whitespace rest = false ->
       make_filename u sid = w +:+ "_" +:+ make_filename (mkUser rest (docId u)) sid) /\
    replace_whitespace false (replace_whitespace false (fullName u))
      = replace_whitespace false (fullName u) /\
    (has_whitespace (fullName u) = false ->
     make_filename u sid = fullName u +:+ "_Session_" +:+ Z_to_string sid +:+ ".webm").
Proof.
  intros u sid. destruct (FileNames.suffix_plain sid) as [Hsuf Hb].
  split; [|split; [|split]].
  - unfold make_filename.
    apply FileNames.has_whitespace_app; [apply FileNames.replace_whitespace_clean | exact Hsuf | exact Hb].
  - intros w ws rest Hname Hw Hne Hall Hrest. unfold make_filename. rewrite Hname.
    cbn [fullName].
    rewrite FileNames.replace_word;
      [| exact Hw
       | apply FileNames.starts_true_boundary, FileNames.all_whitespace_starts; assumption].
    rewrite FileNames.replace_run by assumption.
    rewrite (FileNames.replace_after_run _ Hrest).
    rewrite FileNames.string_app_assoc. reflexivity.
  - apply FileNames.replace_whitespace_id, FileNames.replace_whitespace_clean.
  - intros H. unfold make_filename. by rewrite FileNames.replace_whitespace_id.
Qed.

Lemma filename_has_no_whitespace_witness :
  make_filename (mkUser "Ada  Lovelace" "Ada  Lovelace") 2 = "Ada_Lovelace_Session_2.webm".
Proof.
  apply (proj1 (proj2 (filename_has_no_whitespace (mkUser "Ada  Lovelace" "Ada  Lovelace") 2))
           "Ada" "  " "Lovelace"); try reflexivity.
  discriminate.
Defined.

(** ** The sidebar *)

(** X11. In the later variant the class of a sidebar item and the status
    of the same item are computed separately but always agree: amber with
    "active", blue with "break", green with "completed", grey with
    "locked". The item is locked exactly when the flow is neither in that
    session nor on its break and no clip of the session exists; the
    position-based [isLocked] flag has no influence. *)
Theorem sidebar_class_matches_status :
  forall (a : App) (n : Z),
    (getSessionStatus a n = "active" /\
     getSidebarItemClass a n
       = baseClass +:+ "bg-amber-600 border-amber-500 text-black font-bold shadow-lg scale-105"
     \/ getSessionStatus a n = "break" /\
        getSidebarItemClass a n = baseClass +:+ "bg-blue-900/30 border-blue-500/50 text-blue-400"
     \/ getSessionStatus a n = "completed" /\
        getSidebarItemClass a n = baseClass +:+ "bg-green-900/30 border-green-500/50 text-green-400"
     \/ getSessionStatus a n = "locked" /\
        getSidebarItemClass a n
          = baseClass +:+ "bg-gray-900 border-gray-800 text-gray-600 opacity-60") /\
    (getSessionStatus a n = "locked" <->
     currentStep a <> sessionStepOf n /\ currentStep a <> breakStepOf n /\
     hasRecording a n = false).
Proof.
  intros a n. unfold getSessionStatus, getSidebarItemClass.
  destruct (bool_decide (currentStep a = sessionStepOf n)) eqn:Hs;
    destruct (bool_decide (currentStep a = breakStepOf n)) eqn:Hb;
    destruct (hasRecording a n) eqn:Hr;
    destruct (bool_decide (orderIndex (currentStep a) < orderIndex (sessionStepOf n)));
    simpl;
    try apply bool_decide_eq_true in Hs; try apply bool_decide_eq_false in Hs;
    try apply bool_decide_eq_true in Hb; try apply bool_decide_eq_false in Hb;
    (split; [tauto | split; [discriminate || tauto | try tauto; intros (? & ? & ?); done]]).
Qed.

Lemma sidebar_class_matches_status_witness :
  getSessionStatus (initialApp emptyStorage) 1 = "locked".
Proof.
  apply (proj2 (proj2 (sidebar_class_matches_status (initialApp emptyStorage) 1))).
  split; [discriminate | split; [discriminate | reflexivity]].
Defined.
(** ** Track objects under [forEach] *)

Module TrackLemmas.

Lemma foldl_alter_notin (f : Dashboard.MediaStreamTrack -> Dashboard.MediaStreamTrack)
    (stream : list nat) : forall (ts : list Dashboard.MediaStreamTrack) i,
  i ∉ stream -> foldl (fun acc j => alter f j acc) ts stream !! i = ts !! i.
Proof.
  induction stream as [|j stream IH]; intros ts i Hnin; simpl; [reflexivity|].
  apply not_elem_of_cons in Hnin as [Hne Hnin].
  rewrite IH by done. by apply list_lookup_alter_ne.
Qed.

(** An idempotent mutation applied along a stream: each of its tracks is
    changed as by one application, the others are left alone. *)
Lemma foldl_alter_idem (f : Dashboard.MediaStreamTrack -> Dashboard.MediaStreamTrack)
    (stream : list nat) :
  (forall t, f (f t) = f t) ->
  forall (ts : list Dashboard.MediaStreamTrack) i,
    foldl (fun acc j => alter f j acc) ts stream !! i
    = if decide (i ∈ stream) then f <$> ts !! i else ts !! i.
Proof.
  intros Hf. induction stream as [|j stream IH]; intros ts i; cbn [foldl].
  - destruct (decide (i ∈ @nil nat)) as [Hin|]; [inversion Hin | reflexivity].
  - rewrite IH. destruct (decide (j = i)) as [-> | Hne].
    + rewrite list_lookup_alter_eq.
      destruct (decide (i ∈ stream)), (decide (i ∈ i :: stream)) as [|Hn];
        try reflexivity; try (exfalso; apply Hn; left).
      destruct (ts !! i); simpl; [by rewrite Hf | reflexivity].
    + rewrite list_lookup_alter_ne by done.
      destruct (decide (i ∈ stream)) as [Hin | Hnin],
               (decide (i ∈ j :: stream)) as [Hin' | Hnin']; try reflexivity.
      * exfalso. apply Hnin'. by right.
      * exfalso. apply elem_of_cons in Hin' as [-> | Hin']; done.
Qed.

Lemma foldl_alter_length (f : Dashboard.MediaStreamTrack -> Dashboard.MediaStreamTrack)
    (stream : list nat) (ts : list Dashboard.MediaStreamTrack) :
  length (foldl (fun acc j => alter f j acc) ts stream) = length ts.
Proof. apply DeviceProofs.forEach_length. Qed.

(** A mutation that keeps an attribute keeps the list of that attribute. *)
Lemma foldl_alter_keeps {B} (g : Dashboard.MediaStreamTrack -> B)
    (f : Dashboard.MediaStreamTrack -> Dashboard.MediaStreamTrack) (stream : list nat) :
  (forall t, g (f t) = g t) ->
  forall ts : list Dashboard.MediaStreamTrack,
    map g (foldl (fun acc j => alter f j acc) ts stream) = map g ts.
Proof.
  intros Hg. induction stream as [|j stream IH]; intros ts; simpl; [reflexivity|].
  rewrite IH. apply list_eq. intros i.
  rewrite !list_lookup_fmap.
  destruct (decide (j = i)) as [-> | Hne].
  - rewrite list_lookup_alter_eq. destruct (ts !! i); simpl; [by rewrite Hg | reflexivity].
  - by rewrite list_lookup_alter_ne.
Qed.

(** The tracks of a stream after an idempotent mutation along it. *)
Lemma tracksOf_foldl_alter (f : Dashboard.MediaStreamTrack -> Dashboard.MediaStreamTrack)
    (stream : list nat) (ts : list Dashboard.MediaStreamTrack) :
  (forall t, f (f t) = f t) ->
  SessionStream.tracksOf (foldl (fun acc j => alter f j acc) ts stream) stream
  = map f (SessionStream.tracksOf ts stream).
Proof.
  intros Hf. unfold SessionStream.tracksOf.
  assert (H : forall sub, (forall i, i ∈ sub -> i ∈ stream) ->
            omap (fun i => foldl (fun acc j => alter f j acc) ts stream !! i) sub
            = map f (omap (fun i => ts !! i) sub)).
  { induction sub as [|i sub IH]; intros Hsub; [reflexivity|].
    assert (IH' := IH (fun k Hk => Hsub k (proj2 (elem_of_cons sub k i) (or_intror Hk)))).
    assert (Hi : i ∈ stream) by (apply Hsub; left).
    change (omap ?g (i :: sub)) with
      (match g i with Some y => y :: omap g sub | None => omap g sub end).
    cbv beta. rewrite IH', (foldl_alter_idem f stream Hf).
    destruct (decide (i ∈ stream)) as [_|Hn]; [|done].
    destruct (ts !! i); reflexivity. }
  by apply H.
Qed.

Lemma some_readyState_map (f : Dashboard.MediaStreamTrack -> Dashboard.MediaStreamTrack) r l :
  (forall t, Dashboard.readyState (f t) = Dashboard.readyState t) ->
  Dashboard.some_readyState r (map f l) = Dashboard.some_readyState r l.
Proof.
  intros Hf. unfold Dashboard.some_readyState.
  induction l as [|t l IH]; simpl; [reflexivity|]. by rewrite Hf, IH.
Qed.

Lemma allLive_map (f : Dashboard.MediaStreamTrack -> Dashboard.MediaStreamTrack) l :
  (forall t, Dashboard.readyState (f t) = Dashboard.readyState t) ->
  SessionStream.allLive (map f l) = SessionStream.allLive l.
Proof.
  intros Hf. unfold SessionStream.allLive.
  induction l as [|t l IH]; simpl; [reflexivity|]. by rewrite Hf, IH.
Qed.

Lemma allLive_Forall l :
  SessionStream.allLive l = true <->
  Forall (fun t => Dashboard.readyState t = Dashboard.live) l.
Proof.
  unfold SessionStream.allLive. induction l as [|t l IH]; simpl.
  - split; [constructor | reflexivity].
  - rewrite andb_true_iff, IH, bool_decide_eq_true, Forall_cons. reflexivity.
Qed.

(** A stream of live tracks only is active as soon as it has a track. *)
Lemma allLive_active l :
  SessionStream.allLive l = true -> l <> [] ->
  Dashboard.some_readyState Dashboard.live l = true.
Proof.
  destruct l as [|t l]; [done|]. unfold SessionStream.allLive. simpl.
  intros H _. apply andb_true_iff in H as [H _]. by rewrite H.
Qed.

Lemma allLive_no_ended l :
  SessionStream.allLive l = true ->
  Dashboard.some_readyState Dashboard.ended l = false.
Proof.
  unfold SessionStream.allLive, Dashboard.some_readyState.
  induction l as [|t l IH]; simpl; [reflexivity|].
  intros H. apply andb_true_iff in H as [Ht Hl].
  apply bool_decide_eq_true in Ht. rewrite Ht, (IH Hl). reflexivity.
Qed.

Lemma enableAll_tracksOf ts stream :
  SessionStream.tracksOf (SessionStream.enableAll ts stream) stream
  = map (Dashboard.setEnabled true) (SessionStream.tracksOf ts stream).
Proof. by apply tracksOf_foldl_alter. Qed.

Lemma enableAll_idem ts stream :
  SessionStream.enableAll (SessionStream.enableAll ts stream) stream
  = SessionStream.enableAll ts stream.
Proof.
  apply list_eq. intros i. unfold SessionStream.enableAll.
  rewrite !(foldl_alter_idem (Dashboard.setEnabled true) stream) by done.
  case_decide; [|reflexivity]. by destruct (ts !! i).
Qed.

Lemma active_enableAll ts stream :
  SessionStream.active (SessionStream.enableAll ts stream) stream
  = SessionStream.active ts stream.
Proof.
  unfold SessionStream.active. rewrite enableAll_tracksOf.
  by apply some_readyState_map.
Qed.

End TrackLemmas.

(** ** Preparing the stream *)

Lemma prepareStream_ready_iff ts stream :
  (SessionStream.prepareStream ts stream).2 = true <->
  SessionStream.tracksOf ts stream <> [] /\
  Forall (fun t => Dashboard.readyState t = Dashboard.live) (SessionStream.tracksOf ts stream).
Proof.
  unfold SessionStream.prepareStream.
  destruct (SessionStream.active ts stream) eqn:Hact; cbn [snd].
  - rewrite TrackLemmas.allLive_Forall. split; [|tauto].
    intros Hall. split; [|exact Hall].
    intros Hnil. unfold SessionStream.active in Hact. rewrite Hnil in Hact. discriminate.
  - split; [discriminate|]. intros [Hne Hall].
    apply TrackLemmas.allLive_Forall in Hall.
    unfold SessionStream.active in Hact.
    rewrite (TrackLemmas.allLive_active _ Hall Hne) in Hact. discriminate.
Qed.

(** X12. [prepareStream] answers true exactly when the stream has at least
    one track and all its tracks are live. When it does, every track of the
    stream is enabled afterwards. It never changes the kind or the ready
    state of any track, and calling it again gives the same answer and
    changes nothing more. *)
Theorem prepareStream_spec :
  forall (ts : list Dashboard.MediaStreamTrack) (stream : Dashboard.MediaStream),
    let r := SessionStream.prepareStream ts stream in
    (r.2 = true <->
     SessionStream.tracksOf ts stream <> [] /\
     Forall (fun t => Dashboard.readyState t = Dashboard.live)
            (SessionStream.tracksOf ts stream)) /\
    (r.2 = true ->
     Forall (fun t => Dashboard.enabled t = true) (SessionStream.tracksOf r.1 stream)) /\
    map Dashboard.readyState r.1 = map Dashboard.readyState ts /\
    map Dashboard.kind r.1 = map Dashboard.kind ts /\
    SessionStream.prepareStream r.1 stream = r.
Proof.
  intros ts stream r. subst r. unfold SessionStream.prepareStream.
  destruct (SessionStream.active ts stream) eqn:Hact; cbn [fst snd].
  - split; [|split; [|split; [|split]]].
    + rewrite TrackLemmas.allLive_Forall. split; [|tauto].
      intros Hall. split; [|exact Hall].
      intros Hnil. unfold SessionStream.active in Hact. rewrite Hnil in Hact. discriminate.
    + intros _. rewrite TrackLemmas.enableAll_tracksOf.
      apply Forall_forall. intros t Hin.
      apply list_elem_of_fmap in Hin as (t0 & -> & _). reflexivity.
    + by apply TrackLemmas.foldl_alter_keeps.
    + by apply TrackLemmas.foldl_alter_keeps.
    + rewrite TrackLemmas.active_enableAll, Hact.
      rewrite TrackLemmas.enableAll_idem, TrackLemmas.enableAll_tracksOf.
      by rewrite TrackLemmas.allLive_map.
  - split; [|split; [|split; [|split]]]; try reflexivity; try discriminate.
    + split; [discriminate|]. intros [Hne Hall].
      apply TrackLemmas.allLive_Forall in Hall.
      unfold SessionStream.active in Hact.
      rewrite (TrackLemmas.allLive_active _ Hall Hne) in Hact. discriminate.
    + by rewrite Hact.
Qed.

Lemma prepareStream_spec_witness :
  Forall (fun t => Dashboard.enabled t = true)
    (SessionStream.tracksOf
       (SessionStream.prepareStream
          [Dashboard.mkTrack Dashboard.video Dashboard.live false;
           Dashboard.mkTrack Dashboard.audio Dashboard.live true] [0%nat; 1%nat]).1
       [0%nat; 1%nat]).
Proof.
  apply (proj1 (proj2 (prepareStream_spec
           [Dashboard.mkTrack Dashboard.video Dashboard.live false;
            Dashboard.mkTrack Dashboard.audio Dashboard.live true] [0%nat; 1%nat]))).
  reflexivity.
Defined.
(** ** Starting the recorder *)

Lemma videoTracks_map (l : list Dashboard.MediaStreamTrack) :
  filter (fun t => Dashboard.kind t = Dashboard.video) (map (Dashboard.setEnabled true) l)
  = map (Dashboard.setEnabled true) (filter (fun t => Dashboard.kind t = Dashboard.video) l).
Proof.
  induction l as [|t l IH]; [reflexivity|].
  cbn [map]. rewrite !filter_cons, IH.
  destruct (decide (Dashboard.kind (Dashboard.setEnabled true t) = Dashboard.video)) as [H1|H1],
           (decide (Dashboard.kind t = Dashboard.video)) as [H2|H2];
    try reflexivity; destruct t; simpl in *; congruence.
Qed.

Lemma prepareStream_true ts stream :
  (SessionStream.prepareStream ts stream).2 = true ->
  SessionStream.prepareStream ts stream = (SessionStream.enableAll ts stream, true) /\
  SessionStream.tracksOf ts stream <> [] /\
  SessionStream.allLive (SessionStream.tracksOf ts stream) = true.
Proof.
  unfold SessionStream.prepareStream.
  destruct (SessionStream.active ts stream) eqn:Hact; cbn [snd]; [|discriminate].
  intros Hall. rewrite Hall. repeat split.
  intros Hnil. unfold SessionStream.active in Hact. rewrite Hnil in Hact. discriminate.
Qed.

(** [initializeRecorder] on a stream, with the branches that cannot be
    reached removed. *)
Lemma initializeRecorder_shape videoElement ts stream s :
  SessionStream.initializeRecorder videoElement ts (Some stream) s
  = if (SessionStream.prepareStream ts stream).2
    then
      let s1 := SessionRecorder.setIsExpectedToEnd false (SessionRecorder.setError None s) in
      if videoElement
      then if (length (SessionStream.videoTracksOf ts stream) =? 0)%nat
           then (SessionStream.enableAll ts stream,
                 SessionRecorder.setError
                   (Some "No camera tracks found. Please return to dashboard.") s1,
                 SessionStream.Failed)
           else (SessionStream.enableVideo (SessionStream.enableAll ts stream) stream, s1,
                 SessionStream.Attached)
      else (SessionStream.enableAll ts stream,
            SessionRecorder.setError (Some "Video element not found. Please refresh page.") s1,
            SessionStream.Failed)
    else (SessionStream.enableAll (SessionStream.prepareStream ts stream).1 stream, s,
          SessionStream.Recovering).
Proof.
  unfold SessionStream.initializeRecorder.
  pose proof (prepareStream_true ts stream) as Htrue.
  destruct (SessionStream.prepareStream ts stream) as [ts1 ready].
  cbn [fst snd] in *. destruct ready; cbn [negb]; [|reflexivity].
  destruct (Htrue eq_refl) as ([= ->] & Hne & Hall).
  assert (Hlen : (length (SessionStream.tracksOf (SessionStream.enableAll ts stream) stream)
                  =? 0)%nat = false).
  { rewrite TrackLemmas.enableAll_tracksOf, length_map. apply Nat.eqb_neq.
    destruct (SessionStream.tracksOf ts stream); [done | simpl; lia]. }
  assert (Hend : Dashboard.some_readyState Dashboard.ended
                   (SessionStream.tracksOf (SessionStream.enableAll ts stream) stream) = false).
  { rewrite TrackLemmas.enableAll_tracksOf, TrackLemmas.some_readyState_map by done.
    by apply TrackLemmas.allLive_no_ended. }
  rewrite Hlen, Hend.
  assert (Hvid : SessionStream.videoTracksOf (SessionStream.enableAll ts stream) stream
                 = map (Dashboard.setEnabled true) (SessionStream.videoTracksOf ts stream)).
  { unfold SessionStream.videoTracksOf. rewrite TrackLemmas.enableAll_tracksOf.
    apply videoTracks_map. }
  rewrite Hvid, length_map. reflexivity.
Qed.

(** When the stream is attached. *)
Lemma initializeRecorder_attach_iff videoElement ts stream s :
  (SessionStream.initializeRecorder videoElement ts (Some stream) s).2 = SessionStream.Attached
  <-> videoElement = true /\
      SessionStream.tracksOf ts stream <> [] /\
      Forall (fun t => Dashboard.readyState t = Dashboard.live)
             (SessionStream.tracksOf ts stream) /\
      SessionStream.videoTracksOf ts stream <> [].
Proof.
  rewrite initializeRecorder_shape.
  pose proof (prepareStream_ready_iff ts stream) as Hready.
  destruct (SessionStream.prepareStream ts stream).2.
  - destruct (proj1 Hready eq_refl) as [Hne Hall]. cbv zeta.
    destruct videoElement; [|split; [discriminate | intros [? _]; discriminate]].
    destruct (SessionStream.videoTracksOf ts stream) as [|v vs]; cbn [length Nat.eqb snd].
    + split; [discriminate | intros (_ & _ & _ & Hn); done].
    + split; [|reflexivity]. intros _. repeat split; try assumption. discriminate.
  - cbn [snd]. split; [discriminate|].
    intros (_ & Hne & Hall & _). by specialize (proj2 Hready (conj Hne Hall)).
Qed.

(** X13. The synchronous part of [initializeRecorder] has three outcomes.
    It attaches the stream exactly when there is a video element and a
    stream with at least one track, all tracks live, one of them video. It
    goes into recovery exactly when a stream is given that is empty or has
    a track that is not live. Otherwise it fails, and then the message is
    one of "No media stream available", "No camera tracks found" or "Video
    element not found": the messages for a stream without tracks and for
    disconnected devices can never be set. A stream of live audio tracks
    only fails with "No camera tracks found". *)
Theorem initializeRecorder_outcomes :
  forall (videoElement : bool) (ts : list Dashboard.MediaStreamTrack)
         (mediaStream : option Dashboard.MediaStream) (s : SessionRecorder.Component),
    let r := SessionStream.initializeRecorder videoElement ts mediaStream s in
    (r.2 = SessionStream.Attached <->
     exists stream, mediaStream = Some stream /\ videoElement = true /\
       SessionStream.tracksOf ts stream <> [] /\
       Forall (fun t => Dashboard.readyState t = Dashboard.live)
              (SessionStream.tracksOf ts stream) /\
       SessionStream.videoTracksOf ts stream <> []) /\
    (r.2 = SessionStream.Recovering <->
     exists stream, mediaStream = Some stream /\
       ~ (SessionStream.tracksOf ts stream <> [] /\
          Forall (fun t => Dashboard.readyState t = Dashboard.live)
                 (SessionStream.tracksOf ts stream))) /\
    (r.2 = SessionStream.Failed ->
     SessionRecorder.error r.1.2
       = Some "No media stream available. Please return to dashboard." /\ mediaStream = None
     \/ SessionRecorder.error r.1.2
          = Some "No camera tracks found. Please return to dashboard." /\
        (exists stream, mediaStream = Some stream /\ SessionStream.videoTracksOf ts stream = [])
     \/ SessionRecorder.error r.1.2 = Some "Video element not found. Please refresh page." /\
        videoElement = false).
Proof.
  intros videoElement ts mediaStream s r. subst r.
  destruct mediaStream as [stream|].
  2:{ unfold SessionStream.initializeRecorder. cbn [fst snd]. split; [|split].
      - split; [discriminate | intros (? & ? & _); discriminate].
      - split; [discriminate | intros (? & ? & _); discriminate].
      - intros _. left. by split. }
  split; [|split].
  - rewrite initializeRecorder_attach_iff. split.
    + intros (Hv & Hne & Hall & Hvid). by exists stream.
    + intros (st & [= <-] & H). exact H.
  - rewrite initializeRecorder_shape.
    pose proof (prepareStream_ready_iff ts stream) as Hready.
    destruct (SessionStream.prepareStream ts stream).2.
    + cbv zeta. split.
      * destruct videoElement; [|discriminate].
        destruct (length (SessionStream.videoTracksOf ts stream) =? 0)%nat; discriminate.
      * intros (st & [= <-] & Hnot). exfalso. apply Hnot. by apply Hready.
    + cbn [snd]. split; [|reflexivity]. intros _. exists stream. split; [reflexivity|].
      intros Hok. by specialize (proj2 Hready Hok).
  - rewrite initializeRecorder_shape.
    destruct (SessionStream.prepareStream ts stream).2; [|discriminate].
    cbv zeta. destruct videoElement.
    + destruct (SessionStream.videoTracksOf ts stream) as [|v vs] eqn:Hv;
        cbn [length Nat.eqb fst snd]; [|discriminate].
      intros _. right. left. split; [reflexivity|]. by exists stream.
    + cbn [fst snd]. intros _. right. right. by split.
Qed.

Lemma initializeRecorder_outcomes_witness :
  SessionRecorder.error
    (SessionStream.initializeRecorder true
       [Dashboard.mkTrack Dashboard.audio Dashboard.live true] (Some [0%nat])
       SessionRecorder.initialComponent).1.2
  = Some "No camera tracks found. Please return to dashboard.".
Proof.
  destruct (proj2 (proj2 (initializeRecorder_outcomes true
              [Dashboard.mkTrack Dashboard.audio Dashboard.live true] (Some [0%nat])
              SessionRecorder.initialComponent)) eq_refl)
    as [[_ Hn] | [[He _] | [_ Hv]]].
  - discriminate Hn.
  - exact He.
  - discriminate Hv.
Defined.

(** ** From the dashboard into a session *)

Lemma cleanup_tracks_ended d stream i t :
  Dashboard.streamRef d = Some stream -> i ∈ stream ->
  Dashboard.tracks (Dashboard.cleanup d) !! i = Some t ->
  Dashboard.readyState t = Dashboard.ended.
Proof.
  intros Hs Hin Hl. unfold Dashboard.cleanup in Hl. rewrite Hs in Hl. simpl in Hl.
  by eapply (DeviceProofs.forEach_ended
               (fun t => Dashboard.setEnabled false (Dashboard.stop t)) stream).
Qed.

Lemma inactive_of_all_ended ts stream :
  (forall i t, i ∈ stream -> ts !! i = Some t -> Dashboard.readyState t = Dashboard.ended) ->
  SessionStream.active ts stream = false.
Proof.
  intros Hall. unfold SessionStream.active, SessionStream.tracksOf, Dashboard.some_readyState.
  assert (H : forall sub, (forall i, i ∈ sub -> i ∈ stream) ->
            existsb (fun t => bool_decide (Dashboard.readyState t = Dashboard.live))
                    (omap (fun i => ts !! i) sub) = false).
  { induction sub as [|i sub IH]; intros Hsub; [reflexivity|]. simpl.
    destruct (ts !! i) as [t|] eqn:Hl; simpl.
    - rewrite (Hall i t (Hsub i ltac:(left)) Hl). simpl.
      apply IH. intros k Hk. apply Hsub. by right.
    - apply IH. intros k Hk. apply Hsub. by right. }
  by apply H.
Qed.

(** X14. The start click changes the step to SESSION_1, so the Dashboard
    unmounts and its cleanup stops every track of the stream it held. The
    App keeps that same stream for the recorder: [prepareStream] on it
    fails, [initializeRecorder] goes into recovery, and the recovery check
    fails too and sets "Stream recovery failed"; without a stream the
    recorder reports "No media stream available". Either way the session
    that the start button opens ends in an error state. *)
Theorem start_hands_the_recorder_a_stopped_stream :
  forall (now : Z) (p : Page.State) (videoElement : bool) (s : SessionRecorder.Component),
    Page.dashboardMounted p = true ->
    Dashboard.allSystemsGo (Page.dashboard p) = true ->
    Page.mediaStream p = Dashboard.streamRef (Page.dashboard p) ->
    let p' := Page.clickStart now p in
    let ts := Dashboard.tracks (Page.dashboard p') in
    currentStep (Page.app p') = SESSION_1 /\
    Page.dashboardMounted p' = false /\
    Page.mediaStream p' = Page.mediaStream p /\
    match Page.mediaStream p' with
    | Some stream =>
        (SessionStream.prepareStream ts stream).2 = false /\
        (SessionStream.initializeRecorder videoElement ts (Some stream) s).2
          = SessionStream.Recovering /\
        (let ts1 := (SessionStream.initializeRecorder videoElement ts (Some stream) s).1.1 in
         (SessionStream.recoveryCheck ts1 stream s).2 = false /\
         SessionRecorder.error (SessionStream.recoveryCheck ts1 stream s).1.2
           = Some "Stream recovery failed. Please return to dashboard and restart.")
    | None =>
        SessionRecorder.error (SessionStream.initializeRecorder videoElement ts None s).1.2
          = Some "No media stream available. Please return to dashboard."
    end.
Proof.
  intros now p videoElement s Hm Hgo Hsync p' ts.
  assert (Hp' : p' = Page.mkState (handleStartExam now (Page.app p)) (Page.mediaStream p)
                       false (Dashboard.cleanup (Page.dashboard p))).
  { unfold p', Page.clickStart. rewrite Hm.
    unfold Dashboard.clickStart. rewrite Hgo.
    unfold Page.commit, Page.setApp. cbn [Page.dashboardMounted Page.app]. rewrite Hm.
    assert (Hr : Page.rendersDashboard (handleStartExam now (Page.app p)) = false).
    { unfold Page.rendersDashboard, handleStartExam. rewrite afterRender_step. reflexivity. }
    rewrite Hr. reflexivity. }
  assert (Hts : ts = Dashboard.tracks (Dashboard.cleanup (Page.dashboard p)))
    by (unfold ts; by rewrite Hp').
  rewrite Hp'. cbn [Page.app Page.dashboardMounted Page.mediaStream].
  split; [unfold handleStartExam; by rewrite afterRender_step|].
  split; [reflexivity|]. split; [reflexivity|].
  destruct (Page.mediaStream p) as [stream|] eqn:Hms; [|reflexivity].
  symmetry in Hsync.
  assert (Hinactive : SessionStream.active ts stream = false).
  { apply inactive_of_all_ended. intros i t Hin Hl. rewrite Hts in Hl.
    by eapply cleanup_tracks_ended. }
  assert (Hprep : SessionStream.prepareStream ts stream = (ts, false)).
  { unfold SessionStream.prepareStream. by rewrite Hinactive. }
  fold ts. rewrite Hprep. split; [reflexivity|].
  unfold SessionStream.initializeRecorder. rewrite Hprep. cbn [negb fst snd].
  split; [reflexivity|].
  unfold SessionStream.recoveryCheck, SessionStream.prepareStream.
  rewrite TrackLemmas.active_enableAll, Hinactive. by split.
Qed.

Lemma start_hands_the_recorder_a_stopped_stream_witness :
  let p := Page.clickEnableDevices true true
             (Page.load000 1 (mkLocalStorage (Some (Json (mkUser "Ada" "Ada"))) None None) []) in
  Page.mediaStream (Page.clickStart 2 p) = Some [0%nat; 1%nat] /\
  (SessionStream.initializeRecorder true
     (Dashboard.tracks (Page.dashboard (Page.clickStart 2 p))) (Some [0%nat; 1%nat])
     SessionRecorder.initialComponent).2 = SessionStream.Recovering.
Proof.
  intros p.
  pose proof (start_hands_the_recorder_a_stopped_stream 2 p true
                SessionRecorder.initialComponent eq_refl eq_refl eq_refl) as H.
  cbv zeta in H. destruct H as (_ & _ & Hms & Hrest).
  split; [exact Hms|].
  change (Page.mediaStream (Page.clickStart 2 p)) with (Some [0%nat; 1%nat]) in Hrest.
  exact (proj1 (proj2 Hrest)).
Defined.
(** ** A session from start to finish *)

Module LifeProofs.
Import SessionRecorder SessionLife.

Lemma clearInterval_one iv tl ir er mr ch tr ie nid comp :
  clearInterval (intervalId iv) (mkComponent tl ir er mr ch tr ie [iv] nid comp)
  = mkComponent tl ir er mr ch tr ie [] nid comp.
Proof.
  unfold clearInterval; simpl. rewrite filter_cons.
  destruct (decide (intervalId iv ≠ intervalId iv)); [contradiction | reflexivity].
Qed.

Lemma filter_own_id (iv : Interval) :
  filter (fun iv0 => intervalId iv0 ≠ intervalId iv) [iv] = [].
Proof.
  rewrite filter_cons.
  destruct (decide (intervalId iv ≠ intervalId iv)); [contradiction | reflexivity].
Qed.

Lemma stopTimer_oneTimer s :
  oneTimer s ->
  intervals (stopTimer s) = [] /\ timerRef (stopTimer s) = None /\
  stopTimer s = setTimerRef None (mkComponent (timeLeft s) (isRecording s) (error s)
                  (mediaRecorderRef s) (chunksRef s) (timerRef s) (isExpectedToEnd s) []
                  (nextIntervalId s) (completed s)).
Proof.
  destruct s as [tl ir er mr ch tr ie ivs nid comp].
  intros [[Ht Hi] | (iv & Hi & Ht)]; simpl in *; subst; unfold stopTimer; simpl.
  - repeat split.
  - rewrite clearInterval_one. repeat split. apply filter_own_id.
Qed.

Lemma startTimer_oneTimer err s : oneTimer s -> oneTimer (startTimer err s).
Proof.
  destruct s as [tl ir er mr ch tr ie ivs nid comp].
  intros [[Ht Hi] | (iv & Hi & Ht)]; simpl in *; subst; unfold startTimer; simpl.
  - right. eexists. split; reflexivity.
  - rewrite filter_own_id. right. eexists. split; reflexivity.
Qed.

Lemma recorder_stop_good r s :
  mediaRecorderRef s = Some r ->
  oneTimer s ->
  Good (recorder_stop r s) /\ intervals (recorder_stop r s) = intervals s /\
  timerRef (recorder_stop r s) = timerRef s.
Proof.
  intros Hr Ho. destruct s as [tl ir er mr ch tr ie ivs nid comp]. simpl in *.
  unfold recorder_stop, onstop, ondataavailable. simpl.
  destruct (0 <? size (gathered r))%nat; simpl; destruct ie; simpl;
    (split; [split; [exact Ho | by intros _ r' [= <-]] | by split]).
Qed.

Lemma handleFinishSession_good err s :
  Good s ->
  Good (handleFinishSession err s) /\ intervals (handleFinishSession err s) = [] /\
  timerRef (handleFinishSession err s) = None.
Proof.
  intros [Ho Hs].
  destruct (stopTimer_oneTimer s Ho) as (Hi & Ht & Heq).
  unfold handleFinishSession. rewrite Heq.
  destruct s as [tl ir er mr ch tr ie ivs nid comp]. unfold stoppedIfExpected in Hs.
  simpl in *.
  destruct (truthy err); simpl.
  - repeat split; [by left | exact Hs].
  - destruct mr as [r|]; simpl.
    + case_decide; simpl.
      * unfold recorder_stop, onstop, ondataavailable; simpl.
        destruct (0 <? size (gathered r))%nat; simpl;
          (repeat split; [by left | by intros _ r' [= <-]]).
      * repeat split; [by left | exact Hs].
    + repeat split; [by left | exact Hs].
Qed.

Lemma setTimeLeft_good t s : Good s -> Good (setTimeLeft t s).
Proof. destruct s; intros [Ho Hs]; split; assumption. Qed.

Lemma elapse_good s : Good s -> Good (elapse s).
Proof.
  intros [Ho Hs]. pose proof Ho as [[Ht Hi] | (iv & Hi & Ht)].
  - unfold elapse. rewrite Hi. by split.
  - unfold elapse. rewrite Hi. simpl. unfold fire. rewrite Hi. simpl.
    case_decide as Hin; [|exfalso; apply Hin; left].
    unfold intervalCallback. case_decide.
    + apply setTimeLeft_good. by apply handleFinishSession_good.
    + by apply setTimeLeft_good.
Qed.

Lemma capture_good bytes s : Good s -> Good (capture bytes s).
Proof.
  intros [Ho Hs]. destruct s as [tl ir er mr ch tr ie ivs nid comp].
  unfold capture, stoppedIfExpected in *. simpl in *.
  destruct mr as [r|]; [|by split]. case_decide as Hrec; [|by split].
  split; [exact Ho|]. simpl. intros Hie r' [= <-].
  specialize (Hs Hie r eq_refl). congruence.
Qed.

Lemma healthFailure_good s : Good s -> Good (healthFailure s).
Proof.
  intros [Ho Hs]. unfold healthFailure.
  destruct s as [tl ir er mr ch tr ie ivs nid comp]. simpl in *.
  destruct mr as [r|]; simpl; [|by split].
  case_decide; [|by split].
  apply recorder_stop_good; [reflexivity | exact Ho].
Qed.

Lemma unmount_good s :
  Good s -> Good (unmount s) /\ intervals (unmount s) = [] /\ timerRef (unmount s) = None.
Proof.
  intros [Ho Hs].
  destruct (stopTimer_oneTimer s Ho) as (Hi & Ht & Heq).
  unfold unmount. rewrite Heq.
  destruct s as [tl ir er mr ch tr ie ivs nid comp]. unfold stoppedIfExpected in Hs.
  simpl in *.
  destruct mr as [r|]; simpl.
  - case_decide; simpl.
    + unfold recorder_stop, onstop, ondataavailable; simpl.
      destruct (0 <? size (gathered r))%nat; simpl; destruct ie; simpl;
        (repeat split; [by left | by intros _ r' [= <-]]).
    + repeat split; [by left | exact Hs].
  - repeat split; [by left | exact Hs].
Qed.

Lemma beginRecording_good err s : Good s -> Good (beginRecording err s).
Proof.
  intros [Ho Hs]. unfold beginRecording. split.
  - apply startTimer_oneTimer. by destruct s.
  - destruct s as [tl ir er mr ch tr ie ivs nid comp].
    unfold stoppedIfExpected, startTimer. simpl.
    destruct tr; simpl; discriminate.
Qed.

Lemma act_good x s : Good s -> Good (act x s).
Proof.
  intros Hg. destruct x as [e | err]; simpl.
  - destruct e; simpl.
    + by apply elapse_good.
    + by apply capture_good.
    + by apply healthFailure_good.
    + by apply handleFinishSession_good.
    + by apply unmount_good.
  - by apply beginRecording_good.
Qed.

Lemma runActions_good xs : forall s, Good s -> Good (runActions xs s).
Proof.
  induction xs as [|x xs IH]; intros s Hg; [exact Hg|].
  apply (IH (act x s)). by apply act_good.
Qed.

Lemma initial_good : Good initialComponent.
Proof. split; [by left | intros H; discriminate]. Qed.

(** With no interval registered, nothing short of a user finish or a
    restart calls [onComplete]. *)
Lemma quiet_step e s :
  undisturbed e = true -> Good s -> intervals s = [] ->
  Good (step e s) /\ intervals (step e s) = [] /\ completed (step e s) = completed s.
Proof.
  intros Hu Hg Hi. destruct e; try discriminate; simpl.
  - unfold elapse. rewrite Hi. simpl. split; [exact Hg|]. by split.
  - split; [by apply capture_good|].
    destruct s as [tl ir er mr ch tr ie ivs nid comp]. unfold capture. simpl in *.
    destruct mr as [r|]; [|by split]. by case_decide.
  - split; [by apply healthFailure_good|].
    destruct Hg as [_ Hs].
    destruct s as [tl ir er mr ch tr ie ivs nid comp].
    unfold healthFailure, stoppedIfExpected in *. simpl in *.
    destruct mr as [r|]; simpl; [|by split]. case_decide as Hrec; [|by split].
    unfold recorder_stop, onstop, ondataavailable. simpl.
    destruct ie.
    + specialize (Hs eq_refl r eq_refl). congruence.
    + destruct (0 <? size (gathered r))%nat; by split.
Qed.

Lemma quiet_run evs : forall s,
  forallb undisturbed evs = true -> Good s -> intervals s = [] ->
  completed (run evs s) = completed s.
Proof.
  induction evs as [|e evs IH]; intros s Hq Hg Hi; [reflexivity|].
  simpl in Hq. apply andb_prop in Hq as [He Hq].
  destruct (quiet_step e s He Hg Hi) as (Hg' & Hi' & Hc').
  unfold run. simpl. fold (run evs (step e s)).
  rewrite (IH _ Hq Hg' Hi'). exact Hc'.
Qed.

End LifeProofs.

(** X15. Through every life of a recorder (ticks, captures, health
    failures, finish clicks, unmounts and restarts in any order) at most
    one countdown interval is registered, and it is the one [timerRef]
    holds. A finish click or an unmount leaves no interval at all, and as
    long as no restart and no further click follows, [onComplete] is not
    called again: the countdown cannot fire after a manual finish. *)
Theorem recorder_never_leaks_a_timer :
  forall (xs : list SessionLife.Action),
    let s := SessionLife.runActions xs SessionRecorder.initialComponent in
    SessionLife.oneTimer s /\
    (length (SessionRecorder.intervals s) <= 1)%nat /\
    (forall e, e = SessionRecorder.ClickFinish \/ e = SessionRecorder.Unmount ->
       SessionRecorder.intervals (SessionRecorder.step e s) = [] /\
       SessionRecorder.timerRef (SessionRecorder.step e s) = None /\
       forall evs, forallb SessionRecorder.undisturbed evs = true ->
         SessionRecorder.completed (SessionRecorder.run evs (SessionRecorder.step e s))
         = SessionRecorder.completed (SessionRecorder.step e s)).
Proof.
  intros xs s.
  assert (Hg : SessionLife.Good s)
    by (apply LifeProofs.runActions_good, LifeProofs.initial_good).
  split; [apply Hg|]. split.
  - destruct Hg as [[[_ Hi] | (iv & Hi & _)] _]; rewrite Hi; simpl; lia.
  - intros e [-> | ->]; simpl.
    + destruct (LifeProofs.handleFinishSession_good (SessionRecorder.error s) s Hg)
        as (Hg' & Hi & Ht).
      split; [exact Hi|]. split; [exact Ht|].
      intros evs Hq. by apply LifeProofs.quiet_run.
    + destruct (LifeProofs.unmount_good s Hg) as (Hg' & Hi & Ht).
      split; [exact Hi|]. split; [exact Ht|].
      intros evs Hq. by apply LifeProofs.quiet_run.
Qed.

Lemma recorder_never_leaks_a_timer_witness :
  SessionRecorder.completed
    (SessionRecorder.run (replicate 70 SessionRecorder.Tick)
       (SessionRecorder.step SessionRecorder.ClickFinish
          (SessionLife.runActions
             [SessionLife.Begins None; SessionLife.Happens SessionRecorder.Tick;
              SessionLife.Begins None]
             SessionRecorder.initialComponent)))
  = SessionRecorder.completed
      (SessionRecorder.step SessionRecorder.ClickFinish
         (SessionLife.runActions
            [SessionLife.Begins None; SessionLife.Happens SessionRecorder.Tick;
             SessionLife.Begins None]
            SessionRecorder.initialComponent)).
Proof.
  apply (proj2 (proj2 (proj2 (proj2 (recorder_never_leaks_a_timer
           [SessionLife.Begins None; SessionLife.Happens SessionRecorder.Tick;
            SessionLife.Begins None]))
           SessionRecorder.ClickFinish (or_introl eq_refl)))).
  reflexivity.
Defined.

(** X16. Once the health check has failed, the recording is lost: the
    failure itself calls [onComplete] for nothing, it leaves an error set,
    and the finish button then reports the empty blob, whatever had been
    captured. Data the recorder had gathered sits in [chunksRef] and is
    never passed on. *)
Theorem health_failure_discards_the_recording :
  forall (s : SessionRecorder.Component),
    SessionRecorder.isExpectedToEnd s = false ->
    let s1 := SessionRecorder.healthFailure s in
    SessionRecorder.completed s1 = SessionRecorder.completed s /\
    SessionRecorder.truthy (SessionRecorder.error s1) = true /\
    SessionRecorder.completed (SessionRecorder.step SessionRecorder.ClickFinish s1)
      = SessionRecorder.completed s ++ [emptyBlob] /\
    (forall r, SessionRecorder.mediaRecorderRef s = Some r ->
       SessionRecorder.state r = SessionRecorder.recording ->
       (0 < size (SessionRecorder.gathered r))%nat ->
       SessionRecorder.chunksRef s1 = SessionRecorder.chunksRef s ++ [SessionRecorder.gathered r] /\
       SessionRecorder.activeRecorder s1 = false).
Proof.
  intros s Hie s1.
  destruct s as [tl ir er mr ch tr ie ivs nid comp]. simpl in Hie. subst ie.
  unfold s1, SessionRecorder.healthFailure. simpl.
  destruct mr as [r|]; simpl.
  - case_decide as Hrec; simpl.
    + unfold SessionRecorder.recorder_stop, SessionRecorder.onstop,
        SessionRecorder.ondataavailable. simpl.
      destruct (0 <? size (SessionRecorder.gathered r))%nat eqn:Hsz; simpl;
        unfold SessionRecorder.handleFinishSession, SessionRecorder.stopTimer; simpl;
        destruct tr; simpl; repeat split; try reflexivity;
        match goal with
        | H : Some _ = Some _ |- _ => injection H as <-
        end;
        first [ reflexivity
              | match goal with
                | H : (0 < _)%nat |- _ => apply Nat.ltb_lt in H; congruence
                end ].
    + unfold SessionRecorder.handleFinishSession, SessionRecorder.stopTimer; simpl.
      destruct tr; simpl; repeat split; try reflexivity;
        match goal with
        | H : Some _ = Some _ |- _ => injection H as <-
        end; contradiction.
  - unfold SessionRecorder.handleFinishSession, SessionRecorder.stopTimer; simpl.
    destruct tr; simpl; repeat split; try reflexivity; discriminate.
Qed.

Lemma health_failure_discards_witness :
  SessionRecorder.completed
    (SessionRecorder.run
       [SessionRecorder.Capture [1; 2; 3]; SessionRecorder.HealthFailure;
        SessionRecorder.ClickFinish]
       (SessionRecorder.beginRecording None SessionRecorder.initialComponent))
  = [emptyBlob].
Proof.
  exact (proj1 (proj2 (proj2 (health_failure_discards_the_recording
           (SessionRecorder.run [SessionRecorder.Capture [1; 2; 3]]
              (SessionRecorder.beginRecording None SessionRecorder.initialComponent))
           eq_refl)))).
Defined.
Module CaptureProofs.
Import SessionRecorder SessionLife.

Lemma size_of_parts bs : size (new_Blob (map PartData bs)) = length (concat bs).
Proof.
  unfold size. simpl. induction bs as [|b bs IH]; simpl; [reflexivity|].
  rewrite length_app. by rewrite IH.
Qed.

Lemma beginRecording_shape err s0 :
  timeLeft s0 = 60 -> tracked s0 ->
  exists id nid,
    beginRecording err s0
    = mkComponent 60 true None (Some (mkMediaRecorder recording (new_Blob (map PartData []))))
        (chunksRef s0) (Some id) false [mkInterval id err] nid (completed s0).
Proof.
  intros Ht Htr. destruct s0 as [tl ir er mr ch tr ie ivs nid comp].
  simpl in Ht. subst tl. unfold tracked in Htr. simpl in Htr.
  assert (Hivs : match tr with
                 | Some id => filter (fun iv => intervalId iv ≠ id) ivs
                 | None => ivs
                 end = []).
  { destruct tr as [id|].
    - induction ivs as [|iv ivs IH]; [reflexivity|].
      rewrite filter_cons.
      assert (Some id = Some (intervalId iv)) as [= ->] by (apply Htr; left).
      case_decide; [contradiction|]. apply IH. intros iv' Hin. apply Htr. by right.
    - destruct ivs as [|iv ivs]; [reflexivity|].
      specialize (Htr iv (list_elem_of_here _ _)). discriminate. }
  unfold beginRecording, startTimer. simpl.
  destruct tr as [id|]; simpl; simpl in Hivs; rewrite Hivs; simpl;
    eexists _, _; reflexivity.
Qed.

Lemma run_cons e evs s : run (e :: evs) s = run evs (step e s).
Proof. reflexivity. Qed.

Lemma tick_shape t mr ch id err nid comp :
  1 < t ->
  elapse (mkComponent t true None mr ch (Some id) false [mkInterval id err] nid comp)
  = mkComponent (t - 1) true None mr ch (Some id) false [mkInterval id err] nid comp.
Proof.
  intros Ht. unfold elapse. cbn [intervals foldl]. unfold fire. cbn [intervals map intervalId].
  destruct (decide (id ∈ [id])) as [_|Hn]; [|exfalso; apply Hn; left].
  unfold intervalCallback. cbn [timeLeft].
  destruct (decide (t <= 1)) as [Hz|_]; [lia|]. reflexivity.
Qed.

(** While fewer than 60 seconds have passed, ticks and captures only move
    the clock and fill the recorder. *)
Lemma recording_run evs : forall (k : nat) bs err ch id nid comp,
  forallb recordingOnly evs = true ->
  (k + ticks evs < 60)%nat ->
  run evs (mkComponent (60 - Z.of_nat k) true None
             (Some (mkMediaRecorder recording (new_Blob (map PartData bs))))
             ch (Some id) false [mkInterval id err] nid comp)
  = mkComponent (60 - Z.of_nat (k + ticks evs)) true None
      (Some (mkMediaRecorder recording (new_Blob (map PartData (bs ++ captured evs)))))
      ch (Some id) false [mkInterval id err] nid comp.
Proof.
  induction evs as [|e evs IH]; intros k bs err ch id nid comp Hq Hk.
  - unfold ticks, captured. simpl. by rewrite Nat.add_0_r, app_nil_r.
  - simpl in Hq. apply andb_prop in Hq as [He Hq].
    rewrite CountdownProofs.ticks_cons in Hk |- *.
    rewrite run_cons.
    destruct e; try discriminate; cbn [isTick step] in Hk |- *.
    + rewrite tick_shape by lia.
      replace (60 - Z.of_nat k - 1) with (60 - Z.of_nat (S k)) by lia.
      rewrite (IH (S k)) by (done || lia).
      replace (S k + ticks evs)%nat with (k + (1 + ticks evs))%nat by lia.
      reflexivity.
    + unfold capture. cbn [mediaRecorderRef state gathered parts].
      destruct (decide (recording = recording)) as [_|Hn]; [|done].
      unfold setMediaRecorder. cbn.
      replace (map PartData bs ++ [PartData bytes]) with (map PartData (bs ++ [bytes]))
        by (by rewrite map_app).
      rewrite (IH k) by (done || lia).
      unfold captured. cbn. rewrite <- app_assoc. reflexivity.
Qed.

Lemma clearInterval_shape id err tl ir er mr ch tr ie nid comp :
  clearInterval id (mkComponent tl ir er mr ch tr ie [mkInterval id err] nid comp)
  = mkComponent tl ir er mr ch tr ie [] nid comp.
Proof. apply (LifeProofs.clearInterval_one (mkInterval id err)). Qed.

End CaptureProofs.

(** X17. A recording that runs undisturbed for less than 60 seconds and is
    then finished by the user reports exactly one blob, and it holds
    everything the recorder gathered, in order: its size is the number of
    bytes captured; when nothing was captured it is the empty blob. *)
Theorem finish_delivers_what_was_captured :
  forall (err : option string) (s0 : SessionRecorder.Component)
         (evs : list SessionRecorder.Event),
    SessionRecorder.timeLeft s0 = 60 ->
    SessionRecorder.tracked s0 ->
    SessionRecorder.chunksRef s0 = [] ->
    forallb SessionLife.recordingOnly evs = true ->
    (SessionRecorder.ticks evs < 60)%nat ->
    let s := SessionRecorder.step SessionRecorder.ClickFinish
               (SessionRecorder.run evs (SessionRecorder.beginRecording err s0)) in
    let total := length (concat (SessionLife.captured evs)) in
    exists B,
      SessionRecorder.completed s = SessionRecorder.completed s0 ++ [B] /\
      size B = total /\
      B = (if (0 <? total)%nat then new_Blob (map PartData (SessionLife.captured evs))
           else emptyBlob) /\
      SessionRecorder.intervals s = [] /\
      SessionRecorder.activeRecorder s = false.
Proof.
  intros err s0 evs Ht Htr Hch Hq Hk s total.
  destruct (CaptureProofs.beginRecording_shape err s0 Ht Htr) as (id & nid & Hshape).
  assert (Hrun := CaptureProofs.recording_run evs 0 [] err (SessionRecorder.chunksRef s0)
                    id nid (SessionRecorder.completed s0) Hq Hk).
  change (60 - Z.of_nat 0) with 60 in Hrun.
  change (0 + SessionRecorder.ticks evs)%nat with (SessionRecorder.ticks evs) in Hrun.
  change ([] ++ SessionLife.captured evs) with (SessionLife.captured evs) in Hrun.
  unfold s. rewrite Hshape, Hrun, Hch.
  cbn [SessionRecorder.step SessionRecorder.error].
  unfold SessionRecorder.handleFinishSession, SessionRecorder.stopTimer.
  cbn [SessionRecorder.truthy SessionRecorder.timerRef].
  rewrite CaptureProofs.clearInterval_shape.
  cbn [SessionRecorder.setTimerRef SessionRecorder.mediaRecorderRef SessionRecorder.state
       SessionRecorder.timeLeft SessionRecorder.isRecording SessionRecorder.error
       SessionRecorder.chunksRef SessionRecorder.isExpectedToEnd SessionRecorder.intervals
       SessionRecorder.nextIntervalId SessionRecorder.completed].
  destruct (decide (SessionRecorder.recording ≠ SessionRecorder.inactive)) as [_|Hn];
    [|exfalso; apply Hn; discriminate].
  unfold SessionRecorder.recorder_stop, SessionRecorder.ondataavailable.
  cbn [SessionRecorder.gathered].
  pose proof (CaptureProofs.size_of_parts (SessionLife.captured evs)) as Hsize.
  fold total in Hsize. rewrite Hsize.
  destruct (0 <? total)%nat eqn:Hpos.
  - unfold SessionRecorder.onstop. simpl.
    eexists. split; [reflexivity|].
    unfold Blob_of_chunks. simpl. rewrite app_nil_r.
    split; [exact Hsize|]. split; [reflexivity|]. split; reflexivity.
  - unfold SessionRecorder.onstop. simpl.
    eexists. split; [reflexivity|].
    apply Nat.ltb_ge in Hpos.
    split; [unfold Blob_of_chunks, size; simpl; lia|].
    split; [reflexivity|]. split; reflexivity.
Qed.

Lemma finish_delivers_what_was_captured_witness :
  exists B,
    SessionRecorder.completed
      (SessionRecorder.step SessionRecorder.ClickFinish
         (SessionRecorder.run
            [SessionRecorder.Capture [1; 2]; SessionRecorder.Tick; SessionRecorder.Capture [3]]
            (SessionRecorder.beginRecording None SessionRecorder.initialComponent)))
    = [B] /\ size B = 3%nat.
Proof.
  destruct (finish_delivers_what_was_captured None SessionRecorder.initialComponent
              [SessionRecorder.Capture [1; 2]; SessionRecorder.Tick; SessionRecorder.Capture [3]]
              eq_refl tracked_initialComponent eq_refl eq_refl ltac:(vm_compute; lia))
    as (B & Hc & Hs & _).
  exists B. split; [exact Hc | exact Hs].
Defined.

(** ** Dragging the preview *)

(** X18. While dragging, every mouse move leaves the preview between 0 and
    the room the window leaves (never below 0, also when the window is
    smaller than the preview); outside a drag a move changes nothing; and a
    move to the very point where the drag began keeps a position that was
    within bounds. *)
Theorem drag_stays_in_bounds :
  forall (innerWidth innerHeight clientX clientY : Z) (d : SessionStream.Drag),
    (SessionStream.isDragging d = true ->
     let d' := SessionStream.handleMouseMove innerWidth innerHeight clientX clientY d in
     0 <= (SessionStream.position d').1 <= Z.max 0 (innerWidth - 224) /\
     0 <= (SessionStream.position d').2 <= Z.max 0 (innerHeight - 168)) /\
    (SessionStream.isDragging d = false ->
     SessionStream.handleMouseMove innerWidth innerHeight clientX clientY d = d) /\
    (0 <= (SessionStream.position d).1 <= innerWidth - 224 ->
     0 <= (SessionStream.position d).2 <= innerHeight - 168 ->
     SessionStream.position
       (SessionStream.handleMouseMove innerWidth innerHeight clientX clientY
          (SessionStream.handleMouseDown clientX clientY d))
     = SessionStream.position d).
Proof.
  intros w h x y d. split; [|split].
  - intros Hd. unfold SessionStream.handleMouseMove. rewrite Hd. simpl. lia.
  - intros Hd. unfold SessionStream.handleMouseMove. by rewrite Hd.
  - intros Hx Hy. unfold SessionStream.handleMouseMove, SessionStream.handleMouseDown. simpl.
    destruct (SessionStream.position d) as [px py]. simpl in *.
    f_equal; lia.
Qed.

Lemma drag_stays_in_bounds_witness :
  let d' := SessionStream.handleMouseMove 1000 800 5000 (-40)
              (SessionStream.mkDrag (10, 10) true (3, 3)) in
  0 <= (SessionStream.position d').1 <= 776 /\ 0 <= (SessionStream.position d').2 <= 632.
Proof.
  exact (proj1 (drag_stays_in_bounds 1000 800 5000 (-40)
                  (SessionStream.mkDrag (10, 10) true (3, 3))) eq_refl).
Defined.
(** ** Dashboard: toggles, status and reconnect *)

Module StatusProofs.
Import Dashboard.





(** The recovery condition of the status check is "some track has ended". *)
Lemma ended_split (l : list MediaStreamTrack) :
  ((0 <? length (filter (fun t => kind t = video) l))%nat
     && some_readyState ended (filter (fun t => kind t = video) l))
  || ((0 <? length (filter (fun t => kind t = audio) l))%nat
        && some_readyState ended (filter (fun t => kind t = audio) l))
  = some_readyState ended l.
Proof.
  assert (Hdrop : forall l', ((0 <? length l')%nat && some_readyState ended l')
                             = some_readyState ended l').
  { intros [|t l']; reflexivity. }
  rewrite !Hdrop. unfold some_readyState.
  induction l as [|t l IH]; [reflexivity|].
  rewrite !filter_cons. cbn [existsb]. rewrite <- IH.
  destruct t as [kd rs en]. cbn [kind readyState].
  destruct kd;
    [ destruct (decide (video = video)) as [_|?]; [|done];
      destruct (decide (video = audio)) as [?|_]; [done|]
    | destruct (decide (audio = video)) as [?|_]; [done|];
      destruct (decide (audio = audio)) as [_|?]; [|done] ];
    cbn [existsb readyState];
    destruct (bool_decide (rs = ended));
    repeat match goal with
           | |- context [existsb ?f ?l] => generalize (existsb f l); intro
           end;
    repeat match goal with b : bool |- _ => destruct b end; reflexivity.
Qed.

Lemma no_ended_all_live (l : list MediaStreamTrack) :
  some_readyState ended l = false -> l <> [] -> some_readyState live l = true.
Proof.
  destruct l as [|[kd [|] en] l]; [done| |]; unfold some_readyState; simpl; [done|discriminate].
Qed.

Lemma filter_no_ended (P : MediaStreamTrack -> Prop) `{!forall t, Decision (P t)} l :
  some_readyState ended l = false -> some_readyState ended (filter P l) = false.
Proof.
  unfold some_readyState. induction l as [|t l IH]; [reflexivity|].
  simpl. intros Hor. apply orb_false_iff in Hor as [Ht Hl].
  rewrite filter_cons. destruct (decide (P t)); simpl; [rewrite Ht|]; by apply IH.
Qed.

Lemma enableDevices_both_go s : allSystemsGo (enableDevices true true s).1 = true.
Proof. destruct s as [ts [old|] vr ar pe ve ae]; DeviceProofs.acquire_crunch. Qed.

End StatusProofs.

Lemma checkTrackStatus_recovery (s : Dashboard.Component) (stream : Dashboard.MediaStream) :
  (Dashboard.checkTrackStatus (Some stream) s).2
  = Dashboard.some_readyState Dashboard.ended (Dashboard.getTracks s stream) /\
  ((Dashboard.checkTrackStatus (Some stream) s).2 = true ->
   (Dashboard.checkTrackStatus (Some stream) s).1 = s).
Proof.
  unfold Dashboard.checkTrackStatus.
  pose proof (StatusProofs.ended_split (Dashboard.getTracks s stream)) as Hsplit.
  unfold Dashboard.getVideoTracks, Dashboard.getAudioTracks.
  rewrite Hsplit.
  destruct (Dashboard.some_readyState Dashboard.ended (Dashboard.getTracks s stream));
    cbn [fst snd]; split; try reflexivity; discriminate.
Qed.






(** X20. A status check on a held stream starts recovery exactly when one
    of the stream's tracks has ended. When it does not, it reports a kind
    as ready exactly when the stream has a track of that kind, and the
    enabled flags are those of the first track of each kind; so a stream
    with only an audio track is reported as: video not ready, audio ready.
    Without a stream all four flags are set to false. *)
Theorem checkTrackStatus_reports :
  forall (s : Dashboard.Component) (stream : Dashboard.MediaStream),
    let r := Dashboard.checkTrackStatus (Some stream) s in
    (r.2 = Dashboard.some_readyState Dashboard.ended (Dashboard.getTracks s stream)) /\
    (r.2 = true -> r.1 = s) /\
    (r.2 = false ->
     (Dashboard.videoReady r.1 = true <-> Dashboard.getVideoTracks s stream <> []) /\
     (Dashboard.audioReady r.1 = true <-> Dashboard.getAudioTracks s stream <> []) /\
     Dashboard.videoEnabled r.1 = Dashboard.firstEnabled (Dashboard.getVideoTracks s stream) /\
     Dashboard.audioEnabled r.1 = Dashboard.firstEnabled (Dashboard.getAudioTracks s stream)) /\
    (Dashboard.checkTrackStatus None s
     = (Dashboard.mkComponent (Dashboard.tracks s) (Dashboard.streamRef s) false false
          (Dashboard.permissionError s) false false, false)).
Proof.
  intros s stream r. subst r. unfold Dashboard.checkTrackStatus.
  pose proof (StatusProofs.ended_split (Dashboard.getTracks s stream)) as Hsplit.
  unfold Dashboard.getVideoTracks, Dashboard.getAudioTracks.
  rewrite Hsplit.
  destruct (Dashboard.some_readyState Dashboard.ended (Dashboard.getTracks s stream)) eqn:Hend;
    cbn [fst snd].
  - repeat split; try reflexivity; discriminate.
  - split; [reflexivity|]. split; [discriminate|]. split; [|reflexivity].
    intros _.
    pose proof (StatusProofs.filter_no_ended (fun t => Dashboard.kind t = Dashboard.video)
                  _ Hend) as Hv.
    pose proof (StatusProofs.filter_no_ended (fun t => Dashboard.kind t = Dashboard.audio)
                  _ Hend) as Ha.
    simpl.
    destruct (filter (fun t => Dashboard.kind t = Dashboard.video) (Dashboard.getTracks s stream))
      as [|v vs] eqn:Hvs;
    destruct (filter (fun t => Dashboard.kind t = Dashboard.audio) (Dashboard.getTracks s stream))
      as [|au aus] eqn:Has; simpl;
      repeat split; try done; intros _;
      first [ by apply (StatusProofs.no_ended_all_live _ Hv)
            | by apply (StatusProofs.no_ended_all_live _ Ha) ].
Qed.

Lemma checkTrackStatus_reports_witness :
  let s := Dashboard.mkComponent [Dashboard.mkTrack Dashboard.audio Dashboard.live true]
             (Some [0%nat]) true true false true true in
  Dashboard.audioReady (Dashboard.checkTrackStatus (Some [0%nat]) s).1 = true /\
  Dashboard.videoEnabled (Dashboard.checkTrackStatus (Some [0%nat]) s).1 = false.
Proof.
  intros s.
  destruct (checkTrackStatus_reports s [0%nat]) as (_ & _ & H & _).
  destruct (H eq_refl) as (_ & Ha & Hve & _).
  split; [apply Ha; discriminate | exact Hve].
Defined.

(** X21. The reconnect pass never acquires devices when no stream is
    held, and after an acquisition that granted both kinds it does nothing.
    After an acquisition that granted only the microphone it acquires
    again every time, whatever the new outcome: the microphone track that
    was live is stopped by the pass. *)
Theorem reconnect_pass_behaviour :
  forall (vg ag : bool) (s : Dashboard.Component),
    (Dashboard.streamRef s = None -> Monitor.checkAndReconnect vg ag s = s) /\
    Monitor.checkAndReconnect vg ag (Dashboard.enableDevices true true s).1
      = (Dashboard.enableDevices true true s).1 /\
    (Dashboard.no_leak s ->
     let d := (Dashboard.enableDevices false true s).1 in
     Dashboard.isLive d (length (Dashboard.tracks s)) /\
     forall i, (i < length (Dashboard.tracks d))%nat ->
       ~ Dashboard.isLive (Monitor.checkAndReconnect vg ag d) i).
Proof.
  intros vg ag s. split; [|split].
  - intros Hs. unfold Monitor.checkAndReconnect. by rewrite Hs.
  - destruct (DeviceProofs.enableDevices_both s) as (_ & _ & _ & _ & Hv & Ha & _).
    unfold Monitor.checkAndReconnect. rewrite Hv, Ha. simpl.
    by rewrite andb_false_r.
  - intros Hn d.
    destruct (DeviceProofs.enableDevices_audio_only s) as (Ht & Hs & _ & _ & Hv & Ha & _).
    fold d in Ht, Hs, Hv, Ha. split.
    + exists (Dashboard.mkTrack Dashboard.audio Dashboard.live true). split; [|reflexivity].
      rewrite Ht. apply DeviceProofs.lookup_fresh1, DeviceProofs.stoppedTracks_length.
    + intros i Hi. unfold Monitor.checkAndReconnect. rewrite Hs, Hv. simpl.
      apply DeviceProofs.enableDevices_no_leak; [|exact Hi].
      by apply DeviceProofs.enableDevices_no_leak.
Qed.

Lemma reconnect_pass_behaviour_witness :
  ~ Dashboard.isLive
      (Monitor.checkAndReconnect false true
         (Dashboard.enableDevices false true Dashboard.initialComponent).1) 0.
Proof.
  apply (proj2 (proj2 (proj2 (reconnect_pass_behaviour false true Dashboard.initialComponent))
                  DeviceProofs.initial_no_leak)).
  simpl. lia.
Defined.

(** X22. An ended track is a recoverable fault: the next status check
    acquires the devices again. When both requests are granted the
    Dashboard is ready to start again on a stream of two fresh live
    tracks; when both are refused it raises the permission error and keeps
    pointing at the old stream. *)
Theorem ended_track_triggers_reacquisition :
  forall (s : Dashboard.Component) (stream : Dashboard.MediaStream),
    Dashboard.streamRef s = Some stream ->
    Dashboard.some_readyState Dashboard.ended (Dashboard.getTracks s stream) = true ->
    Dashboard.step (Dashboard.StatusCheck true true) s = (Dashboard.enableDevices true true s).1 /\
    Dashboard.allSystemsGo (Dashboard.step (Dashboard.StatusCheck true true) s) = true /\
    (exists fresh,
       Dashboard.streamRef (Dashboard.step (Dashboard.StatusCheck true true) s) = Some fresh /\
       Dashboard.getTracks (Dashboard.step (Dashboard.StatusCheck true true) s) fresh
       = [Dashboard.mkTrack Dashboard.video Dashboard.live true;
          Dashboard.mkTrack Dashboard.audio Dashboard.live true]) /\
    Dashboard.permissionError (Dashboard.step (Dashboard.StatusCheck false false) s) = true /\
    Dashboard.streamRef (Dashboard.step (Dashboard.StatusCheck false false) s) = Some stream.
Proof.
  intros s stream Hs Hend.
  destruct (checkTrackStatus_recovery s stream) as (Hflag & Hsame).
  rewrite Hend in Hflag.
  assert (Hstep : forall vg ag,
            Dashboard.step (Dashboard.StatusCheck vg ag) s = (Dashboard.enableDevices vg ag s).1).
  { intros vg ag. simpl. unfold Dashboard.recover. rewrite Hs, Hflag.
    by rewrite (Hsame Hflag). }
  rewrite !Hstep.
  destruct (DeviceProofs.enableDevices_both s) as (_ & Hbs & Hbt & _).
  destruct (DeviceProofs.enableDevices_none s) as (_ & Hns & Hnp & _).
  split; [reflexivity|]. split; [apply StatusProofs.enableDevices_both_go|].
  split; [eexists; split; [exact Hbs | exact Hbt]|].
  split; [exact Hnp | by rewrite Hns].
Qed.

Lemma ended_track_triggers_reacquisition_witness :
  Dashboard.allSystemsGo
    (Dashboard.step (Dashboard.StatusCheck true true)
       (Dashboard.mkComponent
          [Dashboard.mkTrack Dashboard.video Dashboard.ended true;
           Dashboard.mkTrack Dashboard.audio Dashboard.live true]
          (Some [0%nat; 1%nat]) false true false true true)) = true.
Proof.
  exact (proj1 (proj2 (ended_track_triggers_reacquisition
           (Dashboard.mkComponent
              [Dashboard.mkTrack Dashboard.video Dashboard.ended true;
               Dashboard.mkTrack Dashboard.audio Dashboard.live true]
              (Some [0%nat; 1%nat]) false true false true true)
           [0%nat; 1%nat] eq_refl eq_refl))).
Defined.
(** ** The page: acquiring, resuming at a break, reloading devices *)

Lemma load_at_dashboard_shape a ts :
  currentStep a = DASHBOARD -> is_Some (user a) ->
  Page.commit (Page.mkState a None false
                 (Dashboard.mkComponent ts None false false false false false))
  = Page.mkState (setDeviceStates false false false false a) None true
      (Dashboard.mkComponent ts None false false false false false).
Proof.
  intros Hs Hu. unfold Page.commit, Page.rendersDashboard. simpl.
  rewrite Hs. rewrite (bool_decide_eq_true_2 _ Hu). simpl.
  reflexivity.
Qed.

Lemma enableDevices_fresh ts vg ag :
  let r := (Dashboard.enableDevices vg ag
              (Dashboard.mkComponent ts None false false false false false)).1 in
  Dashboard.videoReady r = vg /\ Dashboard.audioReady r = ag /\
  Dashboard.videoEnabled r = vg /\ Dashboard.audioEnabled r = ag /\
  (vg = false -> ag = false -> Dashboard.streamRef r = None).
Proof.
  destruct vg, ag; cbv zeta;
    unfold Dashboard.enableDevices, Dashboard.getUserMedia; simpl;
    unfold Dashboard.checkTrackStatus, Dashboard.getVideoTracks, Dashboard.getAudioTracks,
      Dashboard.getTracks; simpl;
    DeviceProofs.fresh_lookups;
    repeat split; try reflexivity; discriminate.
Qed.

(** X23. When a page load lands on DASHBOARD with a user, the Dashboard
    mounts with no stream; after the first click on "Enable Camera &
    Microphone", whatever is granted, the App mirrors the Dashboard: its
    four device flags are the Dashboard's and its [mediaStream] is the
    stream in [streamRef]. *)
Theorem first_acquisition_is_mirrored :
  forall (now : Z) (ls : LocalStorage) (ts : list Dashboard.MediaStreamTrack) (vg ag : bool),
    currentStep (Part000.mount now ls) = DASHBOARD ->
    is_Some (user (Part000.mount now ls)) ->
    let p := Page.clickEnableDevices vg ag (Page.load000 now ls ts) in
    Page.dashboardMounted p = true /\
    Page.mediaStream p = Dashboard.streamRef (Page.dashboard p) /\
    videoReady (Page.app p) = Dashboard.videoReady (Page.dashboard p) /\
    audioReady (Page.app p) = Dashboard.audioReady (Page.dashboard p) /\
    videoEnabled (Page.app p) = Dashboard.videoEnabled (Page.dashboard p) /\
    audioEnabled (Page.app p) = Dashboard.audioEnabled (Page.dashboard p) /\
    currentStep (Page.app p) = DASHBOARD /\
    (vg = true -> ag = true -> Dashboard.allSystemsGo (Page.dashboard p) = true).
Proof.
  intros now ls ts vg ag Hs Hu p.
  unfold p, Page.load000. rewrite (load_at_dashboard_shape _ ts Hs Hu).
  revert Hs Hu. generalize (Part000.mount now ls). intros a Hs Hu.
  destruct a as [u st recs vr ar ve ae sto pc]. cbn [currentStep] in Hs. subst st.
  unfold Page.clickEnableDevices, Page.setDashboard.
  cbn [Page.dashboardMounted Page.dashboard Page.app Page.mediaStream].
  destruct (enableDevices_fresh ts vg ag) as (Hv & Ha & Hve & Hae & Hsr).
  cbv zeta in Hv, Ha, Hve, Hae, Hsr.
  destruct (Dashboard.enableDevices vg ag
              (Dashboard.mkComponent ts None false false false false false)).1
    as [ts' sr' vr' ar' pe' ve' ae'].
  cbn [Dashboard.videoReady Dashboard.audioReady Dashboard.videoEnabled Dashboard.audioEnabled
       Dashboard.streamRef] in Hv, Ha, Hve, Hae, Hsr.
  subst vr' ar' ve' ae'.
  unfold Page.afterDashboardRender, Page.statusDeps, Page.statusEffect,
    Page.handleDeviceStatusUpdate, setDeviceStates, Dashboard.allSystemsGo.
  cbn [Page.dashboardMounted Page.dashboard Page.app Page.mediaStream
       Dashboard.videoReady Dashboard.audioReady Dashboard.videoEnabled Dashboard.audioEnabled
       Dashboard.streamRef].
  destruct vg, ag;
    match goal with |- context [decide ?P] => destruct (decide P) as [Heq|Hne] end;
    try discriminate Heq; try (exfalso; apply Hne; reflexivity);
    cbn; repeat split; try reflexivity; try discriminate.
  symmetry. by apply Hsr.
Qed.

Lemma first_acquisition_is_mirrored_witness :
  Page.mediaStream
    (Page.clickEnableDevices true false
       (Page.load000 1 (mkLocalStorage (Some (Json (mkUser "Ada" "Ada"))) None None) []))
  = Some [0%nat].
Proof.
  pose proof (first_acquisition_is_mirrored 1
                (mkLocalStorage (Some (Json (mkUser "Ada" "Ada"))) None None) [] true false
                eq_refl (ex_intro _ _ eq_refl)) as H.
  cbv zeta in H. destruct H as (_ & Hm & _). rewrite Hm. reflexivity.
Defined.

(** X24. A page load that resumes at a break starts without stream and
    with all device flags off, so the continue button is disabled: a click
    leaves the page as it is, in both variants. *)
Theorem resume_at_break_needs_device_reload :
  forall (now now' : Z) (ls : LocalStorage) (ts : list Dashboard.MediaStreamTrack)
         (u : User) (d : SessionData),
    vocalBoothUser ls = Some (Json u) ->
    completedAll ls = false ->
    vocalBoothCurrentSession ls = Some (Json d) ->
    isBreakScreen d = true ->
    sessionNumber d = 1 \/ sessionNumber d = 2 ->
    let p0 := Page.load000 now ls ts in
    let p1 := Page.load001 now ls ts in
    (currentStep (Page.app p0) = resumeBreak d /\
     currentStep (Page.app p1) = resumeBreak d) /\
    (Page.mediaStream p0 = None /\ Page.mediaStream p1 = None) /\
    (Page.dashboardMounted p0 = false /\ Page.dashboardMounted p1 = false) /\
    Page.clickContinue now' p0 = p0 /\
    Page.clickContinue now' p1 = p1.
Proof.
  intros now now' ls ts u d Hu Hall Hc Hb Hn p0 p1.
  destruct (loadRecordingsEffect_storage (initialApp ls)) as (Hk & Hck & Hca & _).
  simpl in Hk, Hck, Hca.
  assert (H0 : Part000.resumeEffect (loadRecordingsEffect (initialApp ls))
               = resetDeviceStates (setCurrentStep (resumeBreak d)
                   (setUser (Some u) (loadRecordingsEffect (initialApp ls))))).
  { unfold Part000.resumeEffect. rewrite Hk, Hu. cbn [localStorage setUser].
    rewrite Hca, Hall, Hck, Hc. unfold Part000.redirect. by rewrite Hb. }
  assert (H1 : Part001.resumeEffect (loadRecordingsEffect (initialApp ls))
               = resetDeviceStates (setCurrentStep (resumeBreak d)
                   (setUser (Some u) (loadRecordingsEffect (initialApp ls))))).
  { unfold Part001.resumeEffect. rewrite Hk, Hu. cbn [localStorage setUser].
    rewrite Hca, Hall, Hck, Hc. unfold Part001.redirect. by rewrite Hb. }
  assert (Hstep : resumeBreak d = BREAK_1 \/ resumeBreak d = BREAK_2).
  { unfold resumeBreak. destruct Hn as [-> | ->]; simpl; auto. }
  assert (Hm0 : currentStep (Part000.mount now ls) = resumeBreak d /\
                videoReady (Part000.mount now ls) = false).
  { unfold Part000.mount.
    change (saveRecordingsEffect (recordings (initialApp ls)) (loadRecordingsEffect (initialApp ls)))
      with (loadRecordingsEffect (initialApp ls)).
    rewrite H0. rewrite afterRender_step, breakEffect_step. split; [reflexivity|].
    unfold afterRender, saveRecordingsEffect, breakEffect. cbn [currentStep initialApp].
    destruct (loadsRecordings ls);
      repeat match goal with |- context [if ?c then _ else _] => destruct c end;
      destruct Hstep as [-> | ->]; reflexivity. }
  assert (Hm1 : currentStep (Part001.mount now ls) = resumeBreak d /\
                videoReady (Part001.mount now ls) = false).
  { unfold Part001.mount.
    change (saveRecordingsEffect (recordings (initialApp ls)) (loadRecordingsEffect (initialApp ls)))
      with (loadRecordingsEffect (initialApp ls)).
    rewrite H1. rewrite afterRender_step, breakEffect_step. split; [reflexivity|].
    unfold afterRender, saveRecordingsEffect, breakEffect. cbn [currentStep initialApp].
    destruct (loadsRecordings ls);
      repeat match goal with |- context [if ?c then _ else _] => destruct c end;
      destruct Hstep as [-> | ->]; reflexivity. }
  destruct Hm0 as [Hs0 Hv0]. destruct Hm1 as [Hs1 Hv1].
  assert (Hp0 : p0 = Page.mkState (Part000.mount now ls) None false
                       (Dashboard.mkComponent ts None false false false false false)).
  { unfold p0, Page.load000, Page.commit, Page.rendersDashboard. simpl. rewrite Hs0.
    destruct Hstep as [-> | ->]; reflexivity. }
  assert (Hp1 : p1 = Page.mkState (Part001.mount now ls) None false
                       (Dashboard.mkComponent ts None false false false false false)).
  { unfold p1, Page.load001, Page.commit, Page.rendersDashboard. simpl. rewrite Hs1.
    destruct Hstep as [-> | ->]; reflexivity. }
  rewrite Hp0, Hp1. unfold Page.clickContinue. simpl. rewrite Hv0, Hv1. simpl.
  repeat split; assumption.
Qed.

Lemma resume_at_break_needs_device_reload_witness :
  Page.clickContinue 8
    (Page.load000 5
       (mkLocalStorage (Some (Json (mkUser "Ada" "Ada"))) None
          (Some (Json (mkSessionData 1 true 3)))) [])
  = Page.load000 5
      (mkLocalStorage (Some (Json (mkUser "Ada" "Ada"))) None
         (Some (Json (mkSessionData 1 true 3)))) [].
Proof.
  exact (proj1 (proj2 (proj2 (proj2 (resume_at_break_needs_device_reload 5 8
           (mkLocalStorage (Some (Json (mkUser "Ada" "Ada"))) None
              (Some (Json (mkSessionData 1 true 3)))) []
           (mkUser "Ada" "Ada") (mkSessionData 1 true 3)
           eq_refl eq_refl eq_refl eq_refl (or_introl eq_refl)))))).
Defined.
Lemma reload_fresh_lookups (ts : list Dashboard.MediaStreamTrack) v a :
  (ts ++ [v; a]) !! length ts = Some v /\ (ts ++ [v; a]) !! S (length ts) = Some a.
Proof.
  split.
  - by apply list_lookup_middle.
  - rewrite lookup_app_r by lia.
    replace (S (length ts) - length ts)%nat with 1%nat by lia. reflexivity.
Qed.

(** X25. At a break with no Dashboard mounted, "Reload Devices" makes one
    combined request. When it is granted the App holds a new stream whose tracks are
    all live and enabled, a camera track among them, with all four flags on, the
    tracks that existed before are left exactly as they were (the handler
    stops nothing), the continue button then opens the next session and
    persists its checkpoint, and the recorder can attach to the stream.
    When it is refused the flags are off and continue stays disabled. *)
Theorem reload_at_break_enables_the_next_session :
  forall (now : Z) (p : Page.State) (s : SessionRecorder.Component),
    Page.dashboardMounted p = false ->
    currentStep (Page.app p) = BREAK_1 \/ currentStep (Page.app p) = BREAK_2 ->
    exists p1 p0 stream,
      Page.handleReloadDevices true p = Some p1 /\
      Page.handleReloadDevices false p = Some p0 /\
      Page.mediaStream p1 = Some stream /\
      Forall (fun t => Dashboard.readyState t = Dashboard.live /\ Dashboard.enabled t = true)
             (SessionStream.tracksOf (Dashboard.tracks (Page.dashboard p1)) stream) /\
      SessionStream.videoTracksOf (Dashboard.tracks (Page.dashboard p1)) stream <> [] /\
      take (length (Dashboard.tracks (Page.dashboard p)))
           (Dashboard.tracks (Page.dashboard p1))
        = Dashboard.tracks (Page.dashboard p) /\
      currentStep (Page.app (Page.clickContinue now p1))
        = (if decide (currentStep (Page.app p) = BREAK_1) then SESSION_2 else SESSION_3) /\
      vocalBoothCurrentSession (localStorage (Page.app (Page.clickContinue now p1)))
        = Some (Json (mkSessionData
                        (if decide (currentStep (Page.app p) = BREAK_1) then 2 else 3)
                        false now)) /\
      (SessionStream.initializeRecorder true
         (Dashboard.tracks (Page.dashboard (Page.clickContinue now p1)))
         (Page.mediaStream (Page.clickContinue now p1)) s).2 = SessionStream.Attached /\
      Page.clickContinue now p0 = p0.
Proof.
  intros now p s Hm Hstep.
  destruct p as [a ms dm d]. cbn [Page.dashboardMounted Page.app] in Hm, Hstep. subst dm.
  destruct a as [u st rs vr ar ve ae ls pc]. cbn [currentStep] in Hstep.
  set (v := Dashboard.mkTrack Dashboard.video Dashboard.live true).
  set (au := Dashboard.mkTrack Dashboard.audio Dashboard.live true).
  set (stream := [length (Dashboard.tracks d); S (length (Dashboard.tracks d))]).
  destruct (reload_fresh_lookups (Dashboard.tracks d) v au) as [Hl0 Hl1].
  assert (Htr : SessionStream.tracksOf (Dashboard.tracks d ++ [v; au]) stream = [v; au]).
  { unfold SessionStream.tracksOf, stream.
    change (omap ?g [?i; ?j]) with
      (match g i with
       | Some y => y :: match g j with Some z => [z] | None => [] end
       | None => match g j with Some z => [z] | None => [] end
       end).
    cbv beta. by rewrite Hl0, Hl1. }
  set (n := if decide (st = BREAK_1) then 2 else 3).
  assert (Hcont : onContinue now (mkApp u st rs true true true true ls pc)
                  = mkApp u (if decide (n = 2) then SESSION_2 else SESSION_3) rs
                      true true true true
                      (setItem_CurrentSession (mkSessionData n false now) ls) pc).
  { apply onContinue_result. unfold n.
    destruct Hstep as [-> | ->]; [left | right]; split; reflexivity. }
  exists (Page.mkState (mkApp u st rs true true true true ls pc) (Some stream) false
            (Dashboard.setTracks (fun ts => ts ++ [v; au]) d)),
         (Page.mkState (mkApp u st rs false false false false ls pc) None false d),
         stream.
  split; [reflexivity|]. split; [reflexivity|]. split; [reflexivity|].
  assert (Hts : Dashboard.tracks (Dashboard.setTracks (fun ts => ts ++ [v; au]) d)
                = Dashboard.tracks d ++ [v; au]) by (by destruct d).
  cbn [Page.dashboard Page.mediaStream Page.app currentStep].
  rewrite Hts.
  split; [rewrite Htr; repeat constructor|].
  split; [unfold SessionStream.videoTracksOf; rewrite Htr; discriminate|].
  split; [by rewrite take_app_length|].
  assert (Hclick : Page.clickContinue now
                     (Page.mkState (mkApp u st rs true true true true ls pc) (Some stream) false
                        (Dashboard.setTracks (fun ts => ts ++ [v; au]) d))
                   = Page.mkState
                       (mkApp u (if decide (n = 2) then SESSION_2 else SESSION_3) rs
                          true true true true
                          (setItem_CurrentSession (mkSessionData n false now) ls) pc)
                       (Some stream) false
                       (Dashboard.setTracks (fun ts => ts ++ [v; au]) d)).
  { unfold Page.clickContinue, Page.setApp.
    cbn [Page.app videoReady audioReady andb Page.mediaStream Page.dashboardMounted
         Page.dashboard].
    rewrite Hcont. unfold Page.commit, Page.rendersDashboard.
    cbn [Page.dashboardMounted Page.app currentStep].
    unfold n. destruct Hstep as [-> | ->]; reflexivity. }
  rewrite Hclick. cbn [Page.app Page.dashboard Page.mediaStream currentStep localStorage].
  rewrite Hts.
  split; [unfold n; destruct Hstep as [-> | ->]; reflexivity|].
  split; [reflexivity|].
  split; [|reflexivity].
  apply initializeRecorder_attach_iff. split; [reflexivity|].
  rewrite Htr. split; [discriminate|]. split; [repeat constructor|].
  unfold SessionStream.videoTracksOf. rewrite Htr. discriminate.
Qed.

Lemma reload_at_break_witness :
  exists p1,
    Page.handleReloadDevices true
      (Page.mkState (setCurrentStep BREAK_1 (initialApp emptyStorage)) None false
         Dashboard.initialComponent) = Some p1.
Proof.
  destruct (reload_at_break_enables_the_next_session 0
              (Page.mkState (setCurrentStep BREAK_1 (initialApp emptyStorage)) None false
                 Dashboard.initialComponent)
              SessionRecorder.initialComponent eq_refl (or_introl eq_refl))
    as (p1 & _ & _ & H & _).
  exists p1. exact H.
Defined.
(** ** The reload button of the break screen *)

Module ReloadProofs.
Import BreakScreen.

Lemma step_debounced e resets s :
  Debounced resets s -> Debounced ((if isReset e then 1 else 0) + resets) (step e s).
Proof.
  destruct s as [ir pr rc]. unfold Debounced. cbn [pendingResets isReloading reloadCalls].
  intros [Hp Hc]. destruct e as [ready|]; cbn [step isReset].
  - unfold clickReload, handleReloadClick. cbn [isReloading pendingResets reloadCalls negb].
    destruct ready, ir; cbn [negb isReloading pendingResets reloadCalls]; subst pr;
      split; try reflexivity; lia.
  - unfold resetFires. cbn [pendingResets reloadCalls].
    destruct ir; subst pr; cbn [isReloading pendingResets reloadCalls];
      split; try reflexivity; lia.
Qed.

Lemma resetsIn_cons e evs :
  resetsIn (e :: evs) = ((if isReset e then 1 else 0) + resetsIn evs)%nat.
Proof.
  unfold resetsIn. rewrite filter_cons.
  destruct e; cbn [isReset];
    match goal with |- context [decide ?P] => destruct (decide P) end;
    try done.
Qed.

Lemma run_debounced evs : forall resets s,
  Debounced resets s -> Debounced (resetsIn evs + resets) (run evs s).
Proof.
  induction evs as [|e evs IH]; intros resets s Hinv; [exact Hinv|].
  unfold run. cbn [foldl]. fold (run evs (step e s)).
  pose proof (IH _ _ (step_debounced e resets s Hinv)) as Hrun.
  rewrite resetsIn_cons.
  replace ((if isReset e then 1 else 0) + resetsIn evs + resets)%nat
    with (resetsIn evs + ((if isReset e then 1 else 0) + resets))%nat by lia.
  exact Hrun.
Qed.

End ReloadProofs.

(** X26. The reload button of the break screen is debounced and never
    stays stuck: through any sequence of clicks and reset timers, exactly
    one reset timer is pending while the button shows "Reloading" and none
    otherwise; [onReload] has been called at most once more than resets
    have fired; a click while reloading, or while the devices are ready,
    changes nothing; and the next reset always re-enables the button. *)
Theorem reload_button_is_debounced :
  forall (evs : list BreakScreen.Event),
    let s := BreakScreen.run evs BreakScreen.initialComponent in
    BreakScreen.pendingResets s = (if BreakScreen.isReloading s then 1 else 0)%nat /\
    (BreakScreen.reloadCalls s <= S (BreakScreen.resetsIn evs))%nat /\
    (forall ready, BreakScreen.isReloading s = true ->
       BreakScreen.step (BreakScreen.ClickReload ready) s = s) /\
    BreakScreen.step (BreakScreen.ClickReload true) s = s /\
    (BreakScreen.isReloading s = false ->
     BreakScreen.step (BreakScreen.ClickReload false) s
     = BreakScreen.mkComponent true 1 (S (BreakScreen.reloadCalls s))) /\
    BreakScreen.isReloading (BreakScreen.step BreakScreen.ResetFires s) = false.
Proof.
  intros evs s.
  assert (Hinv : BreakScreen.Debounced (BreakScreen.resetsIn evs + 0) s).
  { apply ReloadProofs.run_debounced. split; [reflexivity | simpl; lia]. }
  destruct Hinv as [Hp Hc]. clearbody s. destruct s as [ir pr rc].
  cbn [BreakScreen.pendingResets BreakScreen.isReloading BreakScreen.reloadCalls] in *.
  split; [exact Hp|]. split; [destruct ir; lia|].
  split; [intros ready ->; by destruct ready|]. split; [reflexivity|].
  split; [intros ->; subst pr; reflexivity|].
  cbn [BreakScreen.step]. unfold BreakScreen.resetFires. cbn [BreakScreen.pendingResets].
  destruct ir; subst pr; reflexivity.
Qed.

Lemma reload_button_is_debounced_witness :
  BreakScreen.step (BreakScreen.ClickReload false)
    (BreakScreen.run [BreakScreen.ClickReload false] BreakScreen.initialComponent)
  = BreakScreen.run [BreakScreen.ClickReload false] BreakScreen.initialComponent.
Proof.
  apply (proj1 (proj2 (proj2 (reload_button_is_debounced [BreakScreen.ClickReload false])))).
  reflexivity.
Defined.

(** ** Login *)

Lemma handleLogin_result now name a :
  handleLogin now name a
  = setLocalStorage (setItem_User (mkUser name name))
      (resetDeviceStates (setCurrentStep DASHBOARD (setUser (Some (mkUser name name)) a))).
Proof. unfold handleLogin, afterRender. simpl. case_decide; reflexivity. Qed.

(** X27. A login is accepted exactly when both fields are filled in and
    the document stored under the name holds the typed password as its
    [Password] string. Then the user record (id and name both the typed
    name) is stored under "vocalBoothUser", the step is DASHBOARD and the
    device flags are off. In every other case, a failed lookup included,
    the App and its storage are untouched and an error message is shown;
    the loading flag is off again either way. *)
Theorem login_accepts_exactly_the_stored_password :
  forall (getDoc : string -> Login.DocResult) (now : Z) (s : Login.Component) (a : App),
    let r := Login.handleSubmit getDoc now s a in
    let accepted := Login.fullNameInput s <> "" /\ Login.password s <> "" /\
                    getDoc (Login.fullNameInput s) = Login.Exists_ (Some (Login.password s)) in
    (accepted ->
     user r.2 = Some (mkUser (Login.fullNameInput s) (Login.fullNameInput s)) /\
     currentStep r.2 = DASHBOARD /\
     vocalBoothUser (localStorage r.2)
       = Some (Json (mkUser (Login.fullNameInput s) (Login.fullNameInput s))) /\
     videoReady r.2 = false /\ audioReady r.2 = false /\
     Login.error r.1 = "") /\
    (~ accepted -> r.2 = a /\ Login.error r.1 <> "") /\
    Login.isLoading r.1 = false.
Proof.
  intros getDoc now s a r accepted. subst r accepted. unfold Login.handleSubmit.
  destruct (bool_decide (Login.fullNameInput s = "")) eqn:Hn;
    [apply bool_decide_eq_true in Hn | apply bool_decide_eq_false in Hn].
  { cbn [orb fst snd Login.error Login.isLoading].
    split; [intros (Hne & _); contradiction|]. split; [|reflexivity].
    intros _. split; [reflexivity | discriminate]. }
  destruct (bool_decide (Login.password s = "")) eqn:Hpw;
    [apply bool_decide_eq_true in Hpw | apply bool_decide_eq_false in Hpw].
  { cbn [orb fst snd Login.error Login.isLoading].
    split; [intros (_ & Hne & _); contradiction|]. split; [|reflexivity].
    intros _. split; [reflexivity | discriminate]. }
  cbn [orb]. unfold Login.authenticateUser.
  destruct (getDoc (Login.fullNameInput s)) as [| |[pw|]] eqn:Hdoc;
    try (cbn [fst snd Login.error Login.isLoading];
         split; [intros (_ & _ & Hd); discriminate Hd|]; split; [|reflexivity];
         intros _; split; [reflexivity | discriminate]).
  destruct (bool_decide (pw = Login.password s)) eqn:Heq;
    [apply bool_decide_eq_true in Heq | apply bool_decide_eq_false in Heq];
    cbn [fst snd Login.error Login.isLoading].
  - split; [|split; [|reflexivity]].
    + intros _. rewrite handleLogin_result.
      destruct a; repeat split; reflexivity.
    + intros Hnot. exfalso. apply Hnot. subst pw. by repeat split.
  - split; [intros (_ & _ & [= Hd]); contradiction|]. split; [|reflexivity].
    intros _. split; [reflexivity | discriminate].
Qed.

Lemma login_accepts_witness :
  currentStep
    (Login.handleSubmit (fun _ => Login.Exists_ (Some "s3cret")) 0
       (Login.mkComponent "Ada" "s3cret" "" false) (initialApp emptyStorage)).2
  = DASHBOARD.
Proof.
  apply (proj1 (login_accepts_exactly_the_stored_password
                  (fun _ => Login.Exists_ (Some "s3cret")) 0
                  (Login.mkComponent "Ada" "s3cret" "" false) (initialApp emptyStorage))).
  repeat split; discriminate.
Defined.
(** ** The health check after a successful start *)

Lemma enableVideo_idem_fun (t : Dashboard.MediaStreamTrack) :
  (fun t => if decide (Dashboard.kind t = Dashboard.video)
            then Dashboard.setEnabled true t else t)
    ((fun t => if decide (Dashboard.kind t = Dashboard.video)
               then Dashboard.setEnabled true t else t) t)
  = (fun t => if decide (Dashboard.kind t = Dashboard.video)
              then Dashboard.setEnabled true t else t) t.
Proof.
  destruct t as [kd rs en]. simpl.
  destruct (decide (kd = Dashboard.video)) as [Hk|Hk]; simpl;
    destruct (decide (kd = Dashboard.video)); try contradiction; reflexivity.
Qed.

Lemma enableVideo_tracksOf ts stream :
  SessionStream.tracksOf (SessionStream.enableVideo ts stream) stream
  = map (fun t => if decide (Dashboard.kind t = Dashboard.video)
                  then Dashboard.setEnabled true t else t)
        (SessionStream.tracksOf ts stream).
Proof. apply TrackLemmas.tracksOf_foldl_alter. apply enableVideo_idem_fun. Qed.

Lemma initializeRecorder_attached videoElement ts stream s :
  (SessionStream.initializeRecorder videoElement ts (Some stream) s).2 = SessionStream.Attached ->
  (SessionStream.initializeRecorder videoElement ts (Some stream) s).1.1
  = SessionStream.enableVideo (SessionStream.enableAll ts stream) stream.
Proof.
  unfold SessionStream.initializeRecorder.
  pose proof (prepareStream_true ts stream) as Htrue.
  destruct (SessionStream.prepareStream ts stream) as [ts1 ready].
  destruct ready; cbn [negb]; [|discriminate].
  destruct (Htrue eq_refl) as ([= ->] & _).
  repeat match goal with
         | |- context [if ?c then _ else _] => destruct c
         end; cbn [fst snd]; try discriminate; reflexivity.
Qed.

Lemma healthy_list (l : list Dashboard.MediaStreamTrack) :
  Forall (fun t => Dashboard.readyState t = Dashboard.live /\ Dashboard.enabled t = true) l ->
  filter (fun t => Dashboard.kind t = Dashboard.video) l <> [] ->
  Dashboard.some_readyState Dashboard.live l = true /\
  existsb (fun t => Dashboard.enabled t && bool_decide (Dashboard.readyState t = Dashboard.live))
          (filter (fun t => Dashboard.kind t = Dashboard.video) l) = true.
Proof.
  intros Hall Hv. split.
  - destruct l as [|t l]; [done|]. apply Forall_cons in Hall as [[Hl _] _].
    unfold Dashboard.some_readyState. cbn [existsb]. by rewrite Hl.
  - destruct (filter (fun t => Dashboard.kind t = Dashboard.video) l) as [|v vs] eqn:Hf; [done|].
    assert (Hin : v ∈ l).
    { assert (Hvin : v ∈ filter (fun t => Dashboard.kind t = Dashboard.video) l)
        by (rewrite Hf; left).
      by apply list_elem_of_filter in Hvin as [_ ?]. }
    rewrite Forall_forall in Hall. destruct (Hall v Hin) as [Hl He].
    cbn [existsb]. by rewrite He, Hl.
Qed.

(** X28. The stream that [initializeRecorder] attaches passes the
    recorder's health check: right after a successful start the monitor
    changes nothing, whatever the component state. The monitor also does
    nothing without a stream or before recording has begun; and when no
    camera track of the stream is both enabled and live, it raises the
    "Camera was turned off" error on a recording component. *)
Theorem attached_stream_is_healthy :
  forall (ts : list Dashboard.MediaStreamTrack) (stream : Dashboard.MediaStream)
         (s s' : SessionRecorder.Component),
    ((SessionStream.initializeRecorder true ts (Some stream) s).2 = SessionStream.Attached ->
     SessionStream.monitor (SessionStream.initializeRecorder true ts (Some stream) s).1.1
       (Some stream) s' = s') /\
    SessionStream.monitor ts None s' = s' /\
    (SessionRecorder.isRecording s' = false -> SessionStream.monitor ts (Some stream) s' = s') /\
    (SessionRecorder.isRecording s' = true ->
     SessionStream.hasActiveVideo ts stream = false ->
     SessionRecorder.error (SessionStream.monitor ts (Some stream) s')
     = Some "Camera was turned off. Please return to dashboard and restart session.").
Proof.
  intros ts stream s s'. split; [|split; [|split]].
  - intros Hatt. rewrite (initializeRecorder_attached _ _ _ _ Hatt).
    apply initializeRecorder_attach_iff in Hatt as (_ & Hne & Hlive & Hvid).
    unfold SessionStream.monitor. destruct (SessionRecorder.isRecording s'); [|reflexivity].
    unfold SessionStream.checkStreamHealth, SessionStream.active, SessionStream.hasActiveVideo,
      SessionStream.videoTracksOf.
    rewrite enableVideo_tracksOf, TrackLemmas.enableAll_tracksOf.
    set (l := map _ (map _ _)).
    assert (Hall : Forall (fun t => Dashboard.readyState t = Dashboard.live /\
                                    Dashboard.enabled t = true) l).
    { unfold l. rewrite Forall_forall in Hlive. apply Forall_forall. intros t Hin.
      apply list_elem_of_fmap in Hin as (t1 & -> & Hin).
      apply list_elem_of_fmap in Hin as (t0 & -> & Hin).
      specialize (Hlive t0 Hin). destruct t0 as [kd rs en]. simpl in *.
      destruct (decide (kd = Dashboard.video)); by split. }
    assert (Hv : filter (fun t => Dashboard.kind t = Dashboard.video) l <> []).
    { unfold SessionStream.videoTracksOf in Hvid.
      destruct (filter (fun t => Dashboard.kind t = Dashboard.video)
                  (SessionStream.tracksOf ts stream)) as [|v vs] eqn:Hf; [done|].
      assert (Hvin : v ∈ filter (fun t => Dashboard.kind t = Dashboard.video)
                         (SessionStream.tracksOf ts stream)) by (rewrite Hf; left).
      apply list_elem_of_filter in Hvin as [Hk Hvin].
      intros Hnil.
      assert (Hin' : (if decide (Dashboard.kind (Dashboard.setEnabled true v) = Dashboard.video)
                      then Dashboard.setEnabled true (Dashboard.setEnabled true v)
                      else Dashboard.setEnabled true v)
                     ∈ filter (fun t => Dashboard.kind t = Dashboard.video) l).
      { apply list_elem_of_filter. split.
        - destruct v as [kd rs en]. simpl in *. subst kd.
          destruct (decide (Dashboard.video = Dashboard.video)); [reflexivity|done].
        - unfold l. apply list_elem_of_fmap. eexists. split; [reflexivity|].
          apply list_elem_of_fmap. eexists. split; [reflexivity|]. exact Hvin. }
      rewrite Hnil in Hin'. inversion Hin'. }
    destruct (healthy_list l Hall Hv) as [Ha Hh]. by rewrite Ha, Hh.
  - reflexivity.
  - intros Hr. unfold SessionStream.monitor. by rewrite Hr.
  - intros Hr Hv. unfold SessionStream.monitor, SessionStream.checkStreamHealth.
    rewrite Hr, Hv, orb_true_r.
    unfold SessionRecorder.healthFailure.
    destruct s' as [tl ir er mr ch tr ie ivs nid comp]. simpl.
    destruct mr as [r|]; simpl; [|reflexivity].
    destruct (decide (SessionRecorder.state r = SessionRecorder.recording)); [|reflexivity].
    unfold SessionRecorder.recorder_stop, SessionRecorder.onstop,
      SessionRecorder.ondataavailable. simpl.
    destruct (0 <? size (SessionRecorder.gathered r))%nat; simpl; destruct ie; reflexivity.
Qed.

Lemma attached_stream_is_healthy_witness :
  SessionStream.monitor
    (SessionStream.initializeRecorder true
       [Dashboard.mkTrack Dashboard.video Dashboard.live false;
        Dashboard.mkTrack Dashboard.audio Dashboard.live true] (Some [0%nat; 1%nat])
       SessionRecorder.initialComponent).1.1
    (Some [0%nat; 1%nat])
    (SessionRecorder.beginRecording None SessionRecorder.initialComponent)
  = SessionRecorder.beginRecording None SessionRecorder.initialComponent.
Proof.
  apply (proj1 (attached_stream_is_healthy
                  [Dashboard.mkTrack Dashboard.video Dashboard.live false;
                   Dashboard.mkTrack Dashboard.audio Dashboard.live true] [0%nat; 1%nat]
                  SessionRecorder.initialComponent
                  (SessionRecorder.beginRecording None SessionRecorder.initialComponent))).
  reflexivity.
Defined.

(** ** Attaching the stream at a break *)

(** X29. The break screen's attach effect switches the camera tracks of
    the App's stream on and nothing else: the App state and the stream are
    kept, no track changes its kind or ready state, every microphone track
    and every track outside the stream is exactly as before, and
    afterwards all camera tracks of the stream are enabled. Without a
    stream the effect does nothing. *)
Theorem break_attach_enables_only_the_camera :
  forall (p : Page.State),
    let p' := Page.breakAttachEffect p in
    Page.app p' = Page.app p /\
    Page.mediaStream p' = Page.mediaStream p /\
    map Dashboard.kind (Dashboard.tracks (Page.dashboard p'))
      = map Dashboard.kind (Dashboard.tracks (Page.dashboard p)) /\
    map Dashboard.readyState (Dashboard.tracks (Page.dashboard p'))
      = map Dashboard.readyState (Dashboard.tracks (Page.dashboard p)) /\
    (forall i t, Dashboard.tracks (Page.dashboard p) !! i = Some t ->
       Dashboard.kind t = Dashboard.audio ->
       Dashboard.tracks (Page.dashboard p') !! i = Some t) /\
    (forall stream i, Page.mediaStream p = Some stream -> i ∉ stream ->
       Dashboard.tracks (Page.dashboard p') !! i = Dashboard.tracks (Page.dashboard p) !! i) /\
    (forall stream, Page.mediaStream p = Some stream ->
       Forall (fun t => Dashboard.enabled t = true)
              (SessionStream.videoTracksOf (Dashboard.tracks (Page.dashboard p')) stream)) /\
    (Page.mediaStream p = None -> p' = p).
Proof.
  intros p p'. subst p'. unfold Page.breakAttachEffect.
  destruct p as [a ms dm d]. cbn [Page.mediaStream].
  destruct ms as [stream|];
    [|repeat split; intros; try reflexivity; try assumption; congruence].
  unfold Page.setDashboard. cbn [Page.app Page.mediaStream Page.dashboard Page.dashboardMounted].
  assert (Hts : Dashboard.tracks
                  (Dashboard.setTracks (fun ts => SessionStream.enableVideo ts stream) d)
                = SessionStream.enableVideo (Dashboard.tracks d) stream) by (by destruct d).
  rewrite Hts.
  split; [reflexivity|]. split; [reflexivity|].
  split; [apply TrackLemmas.foldl_alter_keeps; intros t; by case_decide|].
  split; [apply TrackLemmas.foldl_alter_keeps; intros t; by case_decide|].
  split; [|split; [|split; [|discriminate]]].
  - intros i t Hl Hk. unfold SessionStream.enableVideo.
    rewrite (TrackLemmas.foldl_alter_idem _ stream enableVideo_idem_fun).
    case_decide; [|exact Hl].
    rewrite Hl. cbn. destruct (decide (Dashboard.kind t = Dashboard.video)) as [Hv|_];
      [congruence | reflexivity].
  - intros st i [= <-] Hnin. by apply TrackLemmas.foldl_alter_notin.
  - intros st [= <-]. unfold SessionStream.videoTracksOf.
    rewrite enableVideo_tracksOf. apply Forall_forall. intros t Hin.
    apply list_elem_of_filter in Hin as [Hk Hin].
    apply list_elem_of_fmap in Hin as (t0 & -> & _).
    destruct t0 as [kd rs en]. simpl in *.
    destruct (decide (kd = Dashboard.video)) as [_|Hn]; [reflexivity|].
    simpl in Hk. contradiction.
Qed.

Lemma break_attach_enables_only_the_camera_witness :
  Dashboard.tracks
    (Page.dashboard
       (Page.breakAttachEffect
          (Page.mkState (initialApp emptyStorage) (Some [0%nat; 1%nat]) false
             (Dashboard.mkComponent
                [Dashboard.mkTrack Dashboard.video Dashboard.live false;
                 Dashboard.mkTrack Dashboard.audio Dashboard.live false]
                None false false false false false)))) !! 1%nat
  = Some (Dashboard.mkTrack Dashboard.audio Dashboard.live false).
Proof.
  apply (proj1 (proj2 (proj2 (proj2 (proj2 (break_attach_enables_only_the_camera
           (Page.mkState (initialApp emptyStorage) (Some [0%nat; 1%nat]) false
              (Dashboard.mkComponent
                 [Dashboard.mkTrack Dashboard.video Dashboard.live false;
                  Dashboard.mkTrack Dashboard.audio Dashboard.live false]
                 None false false false false false)))))))); reflexivity.
Defined.

(** ** Reaching completion in the later variant *)

Lemma isLive_stopTracks stream d i :
  Dashboard.isLive (Page.stopTracks stream d) i ->
  Dashboard.isLive d i /\ (forall st, stream = Some st -> i ∉ st).
Proof.
  unfold Page.stopTracks. destruct stream as [st|]; intros Hl.
  - apply isLive_forEach_ended in Hl as [Hl Hnin]; [|reflexivity].
    split; [exact Hl|]. by intros st' [= <-].
  - split; [exact Hl | discriminate].
Qed.

(** X30. In the later variant, when session 3 completes the clip is kept
    and persisted, the step is COMPLETION, and the completion effect lets
    go of the devices: the App's stream is cleared, the four device flags
    are off, every track of the stream the App held is stopped and no
    track is started. When session 1 or 2 completes, stream, tracks and
    flags stay as they are for the break. *)
Theorem completion_releases_the_devices_and_keeps_the_clips :
  forall (now : Z) (objectUrl : string) (b : Blob) (p : Page.State) (u : User),
    user (Page.app p) = Some u ->
    Page.dashboardMounted p = false ->
    let p' := Page.sessionCompletes000 now objectUrl b p in
    (currentStep (Page.app p) = SESSION_3 ->
     currentStep (Page.app p') = COMPLETION /\
     recordings (Page.app p')
       = replaceRecording (mkRecording 3 b objectUrl (make_filename u 3))
           (recordings (Page.app p)) /\
     vocalBoothRecordings (localStorage (Page.app p'))
       = Some (Json (map toSaved (recordings (Page.app p')))) /\
     Page.mediaStream p' = None /\
     videoReady (Page.app p') = false /\ audioReady (Page.app p') = false /\
     videoEnabled (Page.app p') = false /\ audioEnabled (Page.app p') = false /\
     (forall stream i, Page.mediaStream p = Some stream -> i ∈ stream ->
        ~ Dashboard.isLive (Page.dashboard p') i) /\
     (forall i, Dashboard.isLive (Page.dashboard p') i -> Dashboard.isLive (Page.dashboard p) i)) /\
    (currentStep (Page.app p) = SESSION_1 \/ currentStep (Page.app p) = SESSION_2 ->
     Page.mediaStream p' = Page.mediaStream p /\
     Page.dashboard p' = Page.dashboard p /\
     videoReady (Page.app p') = videoReady (Page.app p) /\
     audioReady (Page.app p') = audioReady (Page.app p) /\
     videoEnabled (Page.app p') = videoEnabled (Page.app p) /\
     audioEnabled (Page.app p') = audioEnabled (Page.app p)).
Proof.
  intros now objectUrl b p u Hu Hm p'. subst p'.
  destruct p as [a ms dm d]. cbn [Page.app Page.dashboardMounted] in Hu, Hm. subst dm.
  destruct a as [ua st rs vr ar ve ae ls pc]. cbn [user] in Hu. subst ua.
  cbn [Page.app Page.mediaStream Page.dashboard currentStep recordings videoReady audioReady
       videoEnabled audioEnabled].
  unfold Page.sessionCompletes000, Page.setApp.
  cbn [Page.app Page.mediaStream Page.dashboard Page.dashboardMounted currentStep].
  split.
  - intros ->. rewrite sessionCompletes_session3.
    unfold Page.commit, Page.rendersDashboard.
    cbn [Page.app Page.mediaStream Page.dashboard Page.dashboardMounted currentStep user].
    destruct (decide (COMPLETION = SESSION_3)) as [Hd|_]; [discriminate|].
    unfold Page.completionEffect.
    cbn [Page.app Page.mediaStream Page.dashboard Page.dashboardMounted currentStep].
    destruct (decide (COMPLETION = COMPLETION)) as [_|Hd]; [|done].
    cbn [Page.app Page.mediaStream Page.dashboard Page.dashboardMounted currentStep
         resetDeviceStates recordings videoReady audioReady videoEnabled audioEnabled
         localStorage user pendingClears].
    split; [reflexivity|]. split; [reflexivity|]. split; [reflexivity|].
    split; [reflexivity|]. split; [reflexivity|]. split; [reflexivity|].
    split; [reflexivity|]. split; [reflexivity|]. split.
    + intros stream i -> Hin Hl. apply isLive_stopTracks in Hl as [_ Hnin].
      by apply (Hnin stream).
    + intros i Hl. by apply isLive_stopTracks in Hl as [Hl _].
  - intros Hst.
    assert (Hn : exists n, (n = 1 \/ n = 2) /\
                 renderedSession (mkApp (Some u) st rs vr ar ve ae ls pc) = Some n).
    { destruct Hst as [-> | ->]; [exists 1 | exists 2]; split; auto. }
    destruct Hn as (n & Hcase & Hn).
    rewrite (sessionCompletes_result now objectUrl b
               (mkApp (Some u) st rs vr ar ve ae ls pc) u n eq_refl Hn Hcase).
    unfold Page.commit, Page.rendersDashboard.
    cbn [Page.app Page.mediaStream Page.dashboard Page.dashboardMounted currentStep user
         recordings videoReady audioReady videoEnabled audioEnabled].
    assert (Hne : (if decide (n = 1) then BREAK_1 else BREAK_2) <> st).
    { destruct Hst as [-> | ->]; destruct (decide (n = 1)); discriminate. }
    assert (Hnd : bool_decide ((if decide (n = 1) then BREAK_1 else BREAK_2) = DASHBOARD) = false).
    { apply bool_decide_eq_false. destruct (decide (n = 1)); discriminate. }
    rewrite Hnd. cbn [andb].
    cbn [Page.app Page.mediaStream Page.dashboard Page.dashboardMounted currentStep].
    destruct (decide ((if decide (n = 1) then BREAK_1 else BREAK_2) = st)) as [Heq|_];
      [contradiction|].
    unfold Page.completionEffect.
    cbn [Page.app Page.mediaStream Page.dashboard Page.dashboardMounted currentStep].
    destruct (decide ((if decide (n = 1) then BREAK_1 else BREAK_2) = COMPLETION)) as [Heq|_];
      [destruct (decide (n = 1)); discriminate|].
    repeat split.
Qed.

Lemma completion_releases_the_devices_witness :
  ~ Dashboard.isLive
      (Page.dashboard
         (Page.sessionCompletes000 9 "blob:3" emptyBlob
            (Page.mkState
               (mkApp (Some (mkUser "Ada" "Ada")) SESSION_3 [] true true true true
                  emptyStorage 0)
               (Some [0%nat; 1%nat]) false
               (Dashboard.mkComponent
                  [Dashboard.mkTrack Dashboard.video Dashboard.live true;
                   Dashboard.mkTrack Dashboard.audio Dashboard.live true]
                  None false false false false false)))) 1.
Proof.
  destruct (proj1 (completion_releases_the_devices_and_keeps_the_clips 9 "blob:3" emptyBlob
              (Page.mkState
                 (mkApp (Some (mkUser "Ada" "Ada")) SESSION_3 [] true true true true
                    emptyStorage 0)
                 (Some [0%nat; 1%nat]) false
                 (Dashboard.mkComponent
                    [Dashboard.mkTrack Dashboard.video Dashboard.live true;
                     Dashboard.mkTrack Dashboard.audio Dashboard.live true]
                    None false false false false false))
              (mkUser "Ada" "Ada") eq_refl eq_refl) eq_refl)
    as (_ & _ & _ & _ & _ & _ & _ & _ & Hstop & _).
  apply (Hstop [0%nat; 1%nat] 1%nat eq_refl). repeat constructor.
Defined.
